(** * The workflow step-execution engine of [agentic.core]

    A shallow embedding of [agentic/core/workflow_step.py] (class
    [WorkflowStep]: template resolution and condition evaluation) and of
    [agentic/core/workflow.py] (classes [WorkflowContext] and [Workflow]:
    the interpreter and its four step handlers), with the properties of
    the engine stated and proved over the embedding.

    Python values are a small inductive type; a Python [dict] whose
    iteration order is observable ([tool_params], [data], [step_results])
    is an insertion-ordered association list; the two registries that are
    only read by key ([Workflow.steps] and the [tools] argument of
    [Workflow.run]) are [gmap]s.  Handlers run in a state-and-exception
    monad: the state is the [WorkflowContext], which Python mutates in
    place, so an exception leaves the caller with the context as it was
    at the [raise]. *)

From Stdlib Require Import String Ascii ZArith List Bool Lia.
From stdpp Require Import gmap strings list fin_maps.

Open Scope string_scope.
Open Scope Z_scope.

(** ** Python values *)

#[local] Set Warnings "-register-all".

Inductive value : Type :=
| VNone
| VBool (b : bool)
| VInt (n : Z)
| VStr (s : string)
| VList (items : list value)
| VTuple (items : list value)
| VDict (entries : list (string * value)).

(** A [dict] with string keys, in insertion order, keys pairwise distinct. *)
Definition pydict : Type := list (string * value).

(** [d.get(k)], as an option. *)
Fixpoint dict_get (d : pydict) (k : string) : option value :=
  match d with
  | [] => None
  | (k', v) :: d' => if String.eqb k' k then Some v else dict_get d' k
  end.

(** [d[k] = v]: an existing key keeps its position, a new key goes last. *)
Fixpoint dict_set (d : pydict) (k : string) (v : value) : pydict :=
  match d with
  | [] => [(k, v)]
  | (k', v') :: d' =>
      if String.eqb k' k then (k', v) :: d' else (k', v') :: dict_set d' k v
  end.

(** [d.get(k)] with Python's default [None]. *)
Definition py_get (d : pydict) (k : string) : value :=
  match dict_get d k with Some v => v | None => VNone end.

Definition is_none (v : value) : bool :=
  match v with VNone => true | _ => false end.

(** Truth value of an object, as tested by [if], [while] and [not]. *)
Definition truthy (v : value) : bool :=
  match v with
  | VNone => false
  | VBool b => b
  | VInt n => negb (n =? 0)
  | VStr s => negb (String.eqb s "")
  | VList l | VTuple l => match l with [] => false | _ => true end
  | VDict d => match d with [] => false | _ => true end
  end.

(** Truth value of an [Optional[str]]: [None] and the empty string are false. *)
Definition str_truthy (o : option string) : bool :=
  match o with
  | Some s => negb (String.eqb s "")
  | None => false
  end.

(** Truth value of an [Optional[List[str]]]: [None] and [[]] are false. *)
Definition list_truthy (o : option (list string)) : bool :=
  match o with
  | Some (_ :: _) => true
  | _ => false
  end.

(** ** Exceptions

    The subclasses of [Exception] the engine raises itself, and
    [OtherException] for whatever else a tool, a predicate or [eval] may
    raise.  Exits that are not [Exception]s ([KeyboardInterrupt],
    [SystemExit]) are outside the embedding. *)

Inductive exn : Type :=
| ValueError (msg : string)
| KeyError (msg : string)
| RuntimeError (msg : string)
| IndexError (msg : string)
| AttributeError (msg : string)
| ToolExecutionError (tool_name message : string)
| OtherException (cls text : string).

Fixpoint has_char (q : ascii) (s : string) : bool :=
  match s with
  | EmptyString => false
  | String c r => (Ascii.eqb c q || has_char q r)%bool
  end.

Fixpoint escape (q : ascii) (s : string) : string :=
  match s with
  | EmptyString => EmptyString
  | String c r =>
      if (Ascii.eqb c q || Ascii.eqb c "\"%char)%bool
      then String "\"%char (String c (escape q r))
      else String c (escape q r)
  end.

Definition dquote : ascii := ascii_of_nat 34.

(** [repr] of printable ASCII text: between double quotes when the text
    has a single quote and no double quote, between single quotes
    otherwise, with the backslash and the chosen quote escaped. *)
Definition py_repr (s : string) : string :=
  if (has_char "'"%char s && negb (has_char dquote s))%bool
  then String dquote (escape dquote s ++ String dquote EmptyString)
  else "'" ++ escape "'"%char s ++ "'".

(** [str(exc)].  [ToolExecutionError.__init__] passes the composed text to
    [Exception.__init__]; a [KeyError] shows the [repr] of its argument. *)
Definition str_exn (e : exn) : string :=
  match e with
  | ValueError m | RuntimeError m | IndexError m | AttributeError m => m
  | KeyError m => py_repr m
  | ToolExecutionError tool_name message =>
      "Tool '" ++ tool_name ++ "' execution failed: " ++ message
  | OtherException _ text => text
  end.

(** A computation that returns or raises, without touching the context. *)
Inductive result (A : Type) : Type :=
| Ok (a : A)
| Exc (e : exn).
Arguments Ok {A} a.
Arguments Exc {A} e.

Definition rbind {A B} (r : result A) (f : A -> result B) : result B :=
  match r with
  | Ok a => f a
  | Exc e => Exc e
  end.

Declare Scope result_scope.
Delimit Scope result_scope with res.
Notation "x <- r ;; k" := (rbind r (fun x => k))
  (at level 100, r at next level, right associativity) : result_scope.

(** ** String operations used by the template language *)

Definition startswith (s pre : string) : bool := String.prefix pre s.

Definition endswith (s suf : string) : bool :=
  let n := String.length s in
  let m := String.length suf in
  ((m <=? n)%nat && String.eqb (substring (n - m) m s) suf)%bool.

(** [s[2:-1]] *)
Definition slice_2_m1 (s : string) : string :=
  substring 2 (String.length s - 3) s.

(** [s.split(".")] *)
Fixpoint split_dot (s : string) : list string :=
  match s with
  | EmptyString => [""]
  | String c r =>
      if Ascii.eqb c "."%char then "" :: split_dot r
      else match split_dot r with
           | h :: t => String c h :: t
           | [] => [String c ""]
           end
  end.

(** [".".join(l)] *)
Definition join_dot (l : list string) : string := String.concat "." l.

Definition is_digit (c : ascii) : bool :=
  ((48 <=? nat_of_ascii c)%nat && (nat_of_ascii c <=? 57)%nat)%bool.

(** [s.isdigit()] on ASCII text: non-empty and decimal digits only. *)
Definition isdigit (s : string) : bool :=
  (negb (String.eqb s "") && forallb is_digit (list_ascii_of_string s))%bool.

(** [int(s)] for a string of decimal digits. *)
Definition int_of_digits (s : string) : nat :=
  fold_left (fun acc c => (10 * acc + (nat_of_ascii c - 48))%nat)
            (list_ascii_of_string s) 0%nat.

(** ** [WorkflowStep] (workflow_step.py) *)

Inductive StepType : Type := TOOL | CONDITION | PARALLEL | LOOP.

(** The fields the engine reads; [name] and [description] are
    informational and left out.  A predicate ([condition],
    [loop_condition]) is a Python callable over the context dict: it
    returns some object or raises. *)
Record WorkflowStep : Type := {
  step_id : string;                                  (* id *)
  step_type : StepType;
  tool_name : option string;
  tool_params : pydict;
  condition : option (pydict -> result value);
  condition_expression : option string;
  on_true : option (list string);
  on_false : option (list string);
  parallel_steps : option (list string);
  loop_steps : option (list string);
  loop_condition : option (pydict -> result value);
  loop_expression : option string;
  max_iterations : Z;
  output_key : option string;
  on_error : option string;
  continue_on_error : bool
}.

(** [type(obj).__name__] *)
Definition type_name (obj : value) : string :=
  match obj with
  | VNone => "NoneType"
  | VBool _ => "bool"
  | VInt _ => "int"
  | VStr _ => "str"
  | VList _ => "list"
  | VTuple _ => "tuple"
  | VDict _ => "dict"
  end.

(** [obj.get(key, default)] on an arbitrary object: only a dict has [get]. *)
Definition value_get (obj : value) (key : string) (default : value) : result value :=
  match obj with
  | VDict d => Ok (match dict_get d key with Some v => v | None => default end)
  | _ => Exc (AttributeError
                ("'" ++ type_name obj ++ "' object has no attribute 'get'"))
  end.

(** [_get_nested_value] (lines 144-155): walk [path] through dicts and
    sequences.  Indexing a sequence past its end raises [IndexError]. *)
Fixpoint _get_nested_value (obj : value) (path : list string) : result value :=
  match path with
  | [] => Ok obj
  | key :: path' =>
      match obj with
      | VDict d =>
          let obj' := py_get d key in
          if is_none obj' then Ok VNone else _get_nested_value obj' path'
      | VList l =>
          if isdigit key then
            match nth_error l (int_of_digits key) with
            | Some obj' =>
                if is_none obj' then Ok VNone else _get_nested_value obj' path'
            | None => Exc (IndexError "list index out of range")
            end
          else Ok VNone
      | VTuple l =>
          if isdigit key then
            match nth_error l (int_of_digits key) with
            | Some obj' =>
                if is_none obj' then Ok VNone else _get_nested_value obj' path'
            | None => Exc (IndexError "tuple index out of range")
            end
          else Ok VNone
      | _ => Ok VNone
      end
  end.

(** [_resolve_path] (lines 123-142).  [context] is the dict the caller
    hands to [resolve_params]. *)
Definition _resolve_path (path : string) (context : pydict) : result value :=
  let parts := split_dot path in
  if String.eqb (hd "" parts) "context" then
    Ok (py_get context (join_dot (tl parts)))
  else
    let step_id := hd "" parts in
    let step_results :=
      match dict_get context "step_results" with
      | Some v => v
      | None => VDict []
      end in
    (step_result <- value_get step_results step_id (VDict []) ;;
     if (length parts =? 2)%nat then
       if String.eqb (nth 1 parts "") "result" then
         value_get step_result "result" VNone
       else
         value_get step_result (nth 1 parts "") VNone
     else
       _get_nested_value step_result (tl parts))%res.

(** [_resolve_value] (lines 110-121): a string of the form [${path}] is
    looked up, dicts and lists are resolved element by element, anything
    else is passed through. *)
Fixpoint _resolve_value (v : value) (context : pydict) {struct v} : result value :=
  match v with
  | VStr s =>
      if (startswith s "${" && endswith s "}")%bool then
        _resolve_path (slice_2_m1 s) context
      else Ok v
  | VDict d =>
      (d' <- (fix items (d : list (string * value)) : result pydict :=
                match d with
                | [] => Ok []
                | (k, x) :: rest =>
                    (x' <- _resolve_value x context ;;
                     rest' <- items rest ;;
                     Ok ((k, x') :: rest'))%res
                end) d ;;
       Ok (VDict d'))%res
  | VList l =>
      (l' <- (fix items (l : list value) : result (list value) :=
                match l with
                | [] => Ok []
                | x :: rest =>
                    (x' <- _resolve_value x context ;;
                     rest' <- items rest ;;
                     Ok (x' :: rest'))%res
                end) l ;;
       Ok (VList l'))%res
  | _ => Ok v
  end.

(** [resolve_params] (lines 90-108): the parameters in their order, each
    value resolved; the first value that raises ends the loop. *)
Fixpoint resolve_items (params : pydict) (context : pydict) : result pydict :=
  match params with
  | [] => Ok []
  | (key, v) :: rest =>
      (v' <- _resolve_value v context ;;
       rest' <- resolve_items rest context ;;
       Ok ((key, v') :: rest'))%res
  end.

Definition resolve_params (step : WorkflowStep) (context : pydict) : result pydict :=
  resolve_items (tool_params step) context.

(** ** [WorkflowContext] and [Workflow] (workflow.py) *)

Record WorkflowContext : Type := {
  data : pydict;
  step_results : pydict;
  last_step_id : option string;
  last_result : value
}.

(** [WorkflowContext()] *)
Definition new_context : WorkflowContext :=
  {| data := []; step_results := []; last_step_id := None; last_result := VNone |}.

Definition set_data (d : pydict) (c : WorkflowContext) : WorkflowContext :=
  {| data := d; step_results := step_results c;
     last_step_id := last_step_id c; last_result := last_result c |}.

Definition set_step_results (r : pydict) (c : WorkflowContext) : WorkflowContext :=
  {| data := data c; step_results := r;
     last_step_id := last_step_id c; last_result := last_result c |}.

Definition set_last_step_id (i : option string) (c : WorkflowContext) : WorkflowContext :=
  {| data := data c; step_results := step_results c;
     last_step_id := i; last_result := last_result c |}.

Definition set_last_result (v : value) (c : WorkflowContext) : WorkflowContext :=
  {| data := data c; step_results := step_results c;
     last_step_id := last_step_id c; last_result := v |}.

(** The dict every handler passes to the step's methods:
    [{"context": context.data, "step_results": context.step_results}].
    The two dicts go in with the values they hold at the call.  The
    source hands over the dicts themselves, so that a predicate, an
    expression or a tool that receives one could write to it; such
    callers are taken to read only, and what is stated about the context
    is what the interpreter itself stores in it. *)
Definition handler_env (c : WorkflowContext) : pydict :=
  [("context", VDict (data c)); ("step_results", VDict (step_results c))].

(** The entry a TOOL step leaves in [step_results]; the keys are assigned
    in this order. *)
Definition step_entry (res err : value) : value :=
  VDict [("result", res); ("error", err)].

Record Workflow : Type := {
  workflow_id : string;                              (* id *)
  steps : gmap string WorkflowStep;
  start_step_id : string
}.

(** [get_step] (lines 67-72). *)
Definition get_step (wf : Workflow) (sid : string) : result WorkflowStep :=
  match steps wf !! sid with
  | Some s => Ok s
  | None =>
      Exc (KeyError ("Step '" ++ sid ++ "' not found in workflow '"
                     ++ workflow_id wf ++ "'"))
  end.

Section Engine.

(** The state of the world outside the engine, which a tool may read and
    change (a pure tool ignores it). *)
Variable W : Type.

(** The [Tool] contract (tool.py): [validate] and [execute] receive the
    resolved parameters; each returns an object or raises.  They act on
    the world outside the engine, not on the context (see [handler_env]). *)
Record Tool : Type := {
  name : string;
  validate : pydict -> W -> result value * W;
  execute : pydict -> W -> result value * W
}.

(** [eval(expression, globals)]: Python's expression evaluator is taken
    as given; it returns an object or raises. *)
Variable py_eval : string -> pydict -> result value.

(** [evaluate_condition] (lines 157-177). *)
Definition evaluate_condition (step : WorkflowStep) (context : pydict) : result value :=
  match condition step with
  | Some f => f context
  | None =>
      if str_truthy (condition_expression step) then
        match py_eval (default "" (condition_expression step))
                      [("context", VDict context)] with
        | Ok v => Ok v
        | Exc _ => Ok (VBool false)
        end
      else Ok (VBool true)
  end.

(** [evaluate_loop_condition] (lines 179-196). *)
Definition evaluate_loop_condition (step : WorkflowStep) (context : pydict) : result value :=
  match loop_condition step with
  | Some f => f context
  | None =>
      if str_truthy (loop_expression step) then
        match py_eval (default "" (loop_expression step))
                      [("context", VDict context)] with
        | Ok v => Ok v
        | Exc _ => Ok (VBool false)
        end
      else Ok (VBool false)
  end.

(** *** The handler monad

    A handler returns a value, raises, or (for the unguarded nested chain
    of lines 243-250 and 282-289) fails to end within the fuel it is
    given.  The context travels with both a return and an exception. *)

Inductive outcome (A : Type) : Type :=
| Return (a : A) (w : W) (c : WorkflowContext)
| Raise (e : exn) (w : W) (c : WorkflowContext)
| Diverge.
Arguments Return {A} a w c.
Arguments Raise {A} e w c.
Arguments Diverge {A}.

Definition M (A : Type) : Type := W -> WorkflowContext -> outcome A.

Definition ret {A} (a : A) : M A := fun w c => Return a w c.

Definition bind {A B} (m : M A) (f : A -> M B) : M B :=
  fun w c =>
    match m w c with
    | Return a w' c' => f a w' c'
    | Raise e w' c' => Raise e w' c'
    | Diverge => Diverge
    end.

Definition raise {A} (e : exn) : M A := fun w c => Raise e w c.

Definition diverge {A} : M A := fun _ _ => Diverge.

Definition lift {A} (r : result A) : M A :=
  fun w c => match r with Ok a => Return a w c | Exc e => Raise e w c end.

Definition modify (f : WorkflowContext -> WorkflowContext) : M unit :=
  fun w c => Return tt w (f c).

Notation "x <- m ;; k" := (bind m (fun x => k))
  (at level 100, m at next level, right associativity).
Notation "m ;; k" := (bind m (fun _ => k))
  (at level 100, right associativity).

Fixpoint for_each {A} (l : list A) (body : A -> M unit) : M unit :=
  match l with
  | [] => ret tt
  | x :: l' => body x ;; for_each l' body
  end.

(** *** Step handlers *)

(** Lines 151-157, the calls inside the [try] block: [validate], the
    [raise] on a false answer, [execute]. *)
Definition tool_attempt (tool : Tool) (step : WorkflowStep) (params : pydict)
    (w : W) : result value * W :=
  match validate tool params w with
  | (Exc e, w1) => (Exc e, w1)
  | (Ok valid, w1) =>
      if truthy valid then execute tool params w1
      else (Exc (ToolExecutionError (name tool)
                   ("Validation failed for tool '" ++ name tool
                    ++ "' in step '" ++ step_id step ++ "'")), w1)
  end.

(** [_run_tool_step] (lines 124-186).  The test of lines 173-175 has an
    empty body and is left out. *)
Definition _run_tool_step (step : WorkflowStep) (tools : gmap string Tool)
    : M (option string) :=
  fun w context =>
    if negb (str_truthy (tool_name step)) then
      Raise (ValueError ("Step '" ++ step_id step
                         ++ "' is TOOL type but has no tool_name")) w context
    else
      let tn := default "" (tool_name step) in
      match tools !! tn with
      | None =>
          Raise (ToolExecutionError tn
                   ("Tool '" ++ tn ++ "' not found for step '"
                    ++ step_id step ++ "'")) w context
      | Some tool =>
          match resolve_params step (handler_env context) with
          | Exc e => Raise e w context
          | Ok params =>
              match tool_attempt tool step params w with
              | (Ok res, w') =>
                  let step_result := step_entry res VNone in
                  let context := set_last_result res context in
                  let context :=
                    if str_truthy (output_key step) then
                      set_data (dict_set (data context)
                                  (default "" (output_key step)) res) context
                    else context in
                  Return None w'
                    (set_step_results
                       (dict_set (step_results context) (step_id step) step_result)
                       context)
              | (Exc exc, w') =>
                  let error_msg := str_exn exc in
                  let step_result := step_entry VNone (VStr error_msg) in
                  let context := set_last_result VNone context in
                  if str_truthy (on_error step) then
                    Return (on_error step) w'
                      (set_step_results
                         (dict_set (step_results context) (step_id step) step_result)
                         context)
                  else if negb (continue_on_error step) then
                    Raise exc w' context
                  else
                    Return None w'
                      (set_step_results
                         (dict_set (step_results context) (step_id step) step_result)
                         context)
              end
          end
      end.

(** Lines 201-215 of [_run_condition_step]: pick the branch of the
    answer and follow it. *)
Definition follow_branch (step : WorkflowStep) (condition_met : bool)
    : M (option string) :=
  fun w context =>
    let branch := if condition_met then "on_true" else "on_false" in
    let next_steps := if condition_met then on_true step else on_false step in
    if negb (list_truthy next_steps) then Return None w context
    else if (1 <? length (default [] next_steps))%nat then
      Raise (ValueError ("Step '" ++ step_id step ++ "' " ++ branch
               ++ " has multiple next steps defined. "
               ++ "Use a dedicated PARALLEL step for fan-out.")) w context
    else Return (head (default [] next_steps)) w context.

(** [_run_condition_step] (lines 188-215). *)
Definition _run_condition_step (step : WorkflowStep) : M (option string) :=
  fun w context =>
    match evaluate_condition step (handler_env context) with
    | Exc e => Raise e w context
    | Ok v => follow_branch step (truthy v) w context
    end.

(** The inner [while nested_current:] (lines 243-250, 282-289): follow the
    ids that TOOL steps hand back; nothing bounds this loop in the source. *)
Fixpoint nested_chain (wf : Workflow) (tools : gmap string Tool) (fuel : nat)
    (nested_current : option string) : M unit :=
  if str_truthy nested_current then
    match fuel with
    | O => diverge
    | S fuel' =>
        nested_step <- lift (get_step wf (default "" nested_current)) ;;
        match step_type nested_step with
        | TOOL =>
            next <- _run_tool_step nested_step tools ;;
            nested_chain wf tools fuel' next
        | _ => ret tt
        end
    end
  else ret tt.

(** The body of the [for child_step_id in ...] loops (lines 234-251 and
    275-290, the same text twice): a TOOL child runs, a CONDITION child
    runs and starts a nested chain, any other child is skipped. *)
Definition run_child (wf : Workflow) (tools : gmap string Tool) (fuel : nat)
    (child_step_id : string) : M unit :=
  child_step <- lift (get_step wf child_step_id) ;;
  match step_type child_step with
  | TOOL => _run_tool_step child_step tools ;; ret tt
  | CONDITION =>
      next_id <- _run_condition_step child_step ;;
      if str_truthy next_id then nested_chain wf tools fuel next_id
      else ret tt
  | _ => ret tt
  end.

(** [_run_parallel_step] (lines 217-254). *)
Definition _run_parallel_step (wf : Workflow) (tools : gmap string Tool)
    (fuel : nat) (step : WorkflowStep) : M (option string) :=
  if negb (list_truthy (parallel_steps step)) then ret None
  else
    for_each (default [] (parallel_steps step)) (run_child wf tools fuel) ;;
    ret None.

(** The [while] of [_run_loop_step] (lines 266-290), with its counter.
    [budget] only makes the recursion structural: the guard on
    [iterations] stops the loop first (see [loop_while_budget]). *)
Fixpoint loop_while (wf : Workflow) (tools : gmap string Tool) (fuel : nat)
    (step : WorkflowStep) (budget : nat) (iterations : Z) : M Z :=
  fun w context =>
    if iterations <? max_iterations step then
      match evaluate_loop_condition step (handler_env context) with
      | Exc e => Raise e w context
      | Ok v =>
          if truthy v then
            match budget with
            | O => Diverge
            | S budget' =>
                (for_each (default [] (loop_steps step)) (run_child wf tools fuel) ;;
                 loop_while wf tools fuel step budget' (iterations + 1)) w context
            end
          else Return iterations w context
      end
    else Return iterations w context.

(** [_run_loop_step] (lines 256-292). *)
Definition _run_loop_step (wf : Workflow) (tools : gmap string Tool)
    (fuel : nat) (step : WorkflowStep) : M (option string) :=
  if negb (list_truthy (loop_steps step)) then ret None
  else
    loop_while wf tools fuel step (Z.to_nat (max_iterations step)) 0 ;;
    ret None.

(** *** [Workflow.run] (lines 74-120) *)

(** Lines 107-116: dispatch on the step type.  The four types are all
    there are, so the final [else] of the source (line 116) is never
    taken. *)
Definition dispatch (wf : Workflow) (tools : gmap string Tool) (fuel : nat)
    (step : WorkflowStep) : M (option string) :=
  match step_type step with
  | TOOL => _run_tool_step step tools
  | CONDITION => _run_condition_step step
  | PARALLEL => _run_parallel_step wf tools fuel step
  | LOOP => _run_loop_step wf tools fuel step
  end.

(** One pass through the body of [while current_step_id:] (lines 96-118);
    it yields the next step id and the extended [visited]. *)
Definition run_iteration (wf : Workflow) (tools : gmap string Tool) (fuel : nat)
    (current_step_id : string) (visited : list string)
    : M (option string * list string) :=
  if bool_decide (current_step_id ∈@{list string} visited) then
    raise (RuntimeError
             ("Detected loop at step '" ++ current_step_id ++ "' in workflow '"
              ++ workflow_id wf ++ "'. "
              ++ "Configure LOOP-type steps explicitly instead of cyclic references."))
  else
    let visited := (visited ++ [current_step_id])%list in
    step <- lift (get_step wf current_step_id) ;;
    modify (set_last_step_id (Some (step_id step))) ;;
    next_step_id <- dispatch wf tools fuel step ;;
    ret (next_step_id, visited).

(** The [while current_step_id:] loop; it returns the final [visited].
    [budget] makes the recursion structural. *)
Fixpoint run_from (wf : Workflow) (tools : gmap string Tool) (fuel : nat)
    (budget : nat) (current_step_id : option string) (visited : list string)
    : M (list string) :=
  if str_truthy current_step_id then
    match budget with
    | O => diverge
    | S budget' =>
        nv <- run_iteration wf tools fuel (default "" current_step_id) visited ;;
        run_from wf tools fuel budget' (fst nv) (snd nv)
    end
  else ret visited.

(** [run]: a missing context is a fresh one; the final context is the one
    the outcome carries.  [fuel] is what each nested chain may use.  One
    pass per step of the workflow, and one to meet the cycle guard, is all
    the top-level loop can make (see [run_from_budget] and [run_ends]). *)
Definition run (wf : Workflow) (tools : gmap string Tool) (fuel : nat)
    (context : option WorkflowContext) (w : W) : outcome unit :=
  (run_from wf tools fuel (S (size (steps wf))) (Some (start_step_id wf)) [] ;;
   ret tt) w (default new_context context).

(** *** Notions used to state the properties *)

(** The ways the [try] block of [_run_tool_step] fails: [validate] raises,
    [validate] answers false, or [execute] raises. *)
Inductive tool_fails (tool : Tool) (step : WorkflowStep) (params : pydict)
    (w : W) : exn -> W -> Prop :=
| fails_validate_raises e w' :
    validate tool params w = (Exc e, w') ->
    tool_fails tool step params w e w'
| fails_validation v w' :
    validate tool params w = (Ok v, w') ->
    truthy v = false ->
    tool_fails tool step params w
      (ToolExecutionError (name tool)
         ("Validation failed for tool '" ++ name tool
          ++ "' in step '" ++ step_id step ++ "'")) w'
| fails_execute v w1 e w' :
    validate tool params w = (Ok v, w1) ->
    truthy v = true ->
    execute tool params w1 = (Exc e, w') ->
    tool_fails tool step params w e w'.

(** The context after a failed TOOL step that records its error. *)
Definition record_failure (step : WorkflowStep) (exc : exn)
    (c : WorkflowContext) : WorkflowContext :=
  set_step_results
    (dict_set (step_results c) (step_id step)
       (step_entry VNone (VStr (str_exn exc))))
    (set_last_result VNone c).

(** [n] executions of [body] in a row; an exception ends the row. *)
Fixpoint repeat_body (n : nat) (body : M unit) : M unit :=
  match n with
  | O => ret tt
  | S n' => body ;; repeat_body n' body
  end.

(** One iteration of a LOOP step: its children in order. *)
Definition loop_body (wf : Workflow) (tools : gmap string Tool) (fuel : nat)
    (step : WorkflowStep) : M unit :=
  for_each (default [] (loop_steps step)) (run_child wf tools fuel).

(** The branch a CONDITION step takes on the answer [v]. *)
Definition selected (step : WorkflowStep) (v : value) : option (list string) :=
  if truthy v then on_true step else on_false step.

(** The context a top-level pass hands to the handler of [step]. *)
Definition entered (step : WorkflowStep) (c : WorkflowContext) : WorkflowContext :=
  set_last_step_id (Some (step_id step)) c.

(** The integer under [key] in the context data, 0 when there is none. *)
Definition counter_at (c : WorkflowContext) (key : string) : Z :=
  match dict_get (data c) key with
  | Some (VInt n) => n
  | _ => 0
  end.

(** [body] always returns, and adds one to the integer under [key]. *)
Definition increments (key : string) (body : M unit) : Prop :=
  forall w c, exists w' c',
    body w c = Return tt w' c' /\ counter_at c' key = counter_at c key + 1.

(** A predicate that holds whatever the context. *)
Definition always_true (step : WorkflowStep) : Prop :=
  forall context, exists v,
    evaluate_loop_condition step context = Ok v /\ truthy v = true.

(** A point of the top-level traversal: the loop variables of [run] and
    the state. *)
Record config : Type := {
  cur : option string;
  seen : list string;
  world : W;
  ctx : WorkflowContext
}.

(** [traverse n k k']: [n] passes of the top-level loop lead from [k] to [k']. *)
Inductive traverse (wf : Workflow) (tools : gmap string Tool) (fuel : nat)
    : nat -> config -> config -> Prop :=
| traverse_here k : traverse wf tools fuel 0 k k
| traverse_pass n k nv w' c' k' :
    str_truthy (cur k) = true ->
    run_iteration wf tools fuel (default "" (cur k)) (seen k) (world k) (ctx k)
      = Return nv w' c' ->
    traverse wf tools fuel n
      {| cur := fst nv; seen := snd nv; world := w'; ctx := c' |} k' ->
    traverse wf tools fuel (S n) k k'.

(** The first point of [run]. *)
Definition start_config (wf : Workflow) (w : W) (c : WorkflowContext) : config :=
  {| cur := Some (start_step_id wf); seen := []; world := w; ctx := c |}.

(** The steps a traversal has been through: pairwise distinct, all
    registered. *)
Definition visited_ok (wf : Workflow) (visited : list string) : Prop :=
  NoDup visited /\ (forall sid, sid ∈ visited -> is_Some (steps wf !! sid)).

(** The text of the cycle error for step [sid]. *)
Definition cycle_error (wf : Workflow) (sid : string) : exn :=
  RuntimeError
    ("Detected loop at step '" ++ sid ++ "' in workflow '"
     ++ workflow_id wf ++ "'. "
     ++ "Configure LOOP-type steps explicitly instead of cyclic references.").

(** [m] relates the context it starts from to the one it ends with,
    whether it returns or raises. *)
Definition preserves {A} (R : WorkflowContext -> WorkflowContext -> Prop)
    (m : M A) : Prop :=
  forall w c,
    match m w c with
    | Return _ _ c' => R c c'
    | Raise _ _ c' => R c c'
    | Diverge => True
    end.

(** [sid] is the id of a TOOL step of the workflow. *)
Definition tool_step_id (wf : Workflow) (sid : string) : Prop :=
  exists key s,
    steps wf !! key = Some s /\ step_type s = TOOL /\ step_id s = sid.

(** From [c] to [c'], only entries of TOOL steps changed in [step_results]. *)
Definition writes_tool_entries (wf : Workflow) (c c' : WorkflowContext) : Prop :=
  forall sid,
    dict_get (step_results c') sid = dict_get (step_results c) sid
    \/ tool_step_id wf sid.

(** From [c] to [c'], [last_step_id] did not change. *)
Definition same_last_step_id (c c' : WorkflowContext) : Prop :=
  last_step_id c' = last_step_id c.

End Engine.

Arguments Return {W A} a w c.
Arguments Raise {W A} e w c.
Arguments Diverge {W A}.
Arguments name {W} _.
Arguments validate {W} _ _ _.
Arguments execute {W} _ _ _.
Arguments ret {W A} a w c.
Arguments bind {W A B} m f w c.
Arguments raise {W A} e w c.
Arguments diverge {W A} _ _.
Arguments lift {W A} r w c.
Arguments modify {W} f w c.
Arguments for_each {W A} l body.
Arguments tool_attempt {W} tool step params w.
Arguments _run_tool_step {W} step tools w c.
Arguments follow_branch {W} step condition_met w c.
Arguments _run_condition_step {W} py_eval step w c.
Arguments nested_chain {W} wf tools fuel nested_current.
Arguments run_child {W}.
Arguments _run_parallel_step {W}.
Arguments loop_while {W} py_eval wf tools fuel step budget iterations w c.
Arguments _run_loop_step {W}.
Arguments dispatch {W}.
Arguments run_iteration {W}.
Arguments run_from {W}.
Arguments run {W} py_eval wf tools fuel context w.
Arguments tool_fails {W} tool step params w _ _.
Arguments repeat_body {W} n body.
Arguments loop_body {W}.
Arguments increments {W} key body.
Arguments cur {W} _.
Arguments seen {W} _.
Arguments world {W} _.
Arguments ctx {W} _.
Arguments traverse {W}.
Arguments start_config {W} wf w c.
Arguments preserves {W A} R m.

(** ** Instances

    Tools, steps and workflows on which the statements below are run.
    The tools keep no state of their own ([W] is [unit]). *)

(** An evaluator that knows the two literals the instances use and finds
    any other text malformed. *)
Definition sample_eval (expression : string) (globals : pydict) : result value :=
  if String.eqb expression "True" then Ok (VBool true)
  else if String.eqb expression "False" then Ok (VBool false)
  else Exc (OtherException "SyntaxError" "invalid syntax").

(** Steps as [WorkflowStep(id=..., step_type=..., ...)] builds them: the
    fields that are not given keep their declared defaults. *)
Definition make_tool_step (i tn : string) (params : pydict)
    (out err : option string) (cont : bool) : WorkflowStep :=
  {| step_id := i; step_type := TOOL; tool_name := Some tn; tool_params := params;
     condition := None; condition_expression := None;
     on_true := None; on_false := None;
     parallel_steps := None; loop_steps := None;
     loop_condition := None; loop_expression := None;
     max_iterations := 10; output_key := out;
     on_error := err; continue_on_error := cont |}.

Definition make_condition_step (i : string)
    (f : option (pydict -> result value)) (expr : option string)
    (yes no : option (list string)) : WorkflowStep :=
  {| step_id := i; step_type := CONDITION; tool_name := None; tool_params := [];
     condition := f; condition_expression := expr;
     on_true := yes; on_false := no;
     parallel_steps := None; loop_steps := None;
     loop_condition := None; loop_expression := None;
     max_iterations := 10; output_key := None;
     on_error := None; continue_on_error := false |}.

Definition make_parallel_step (i : string) (children : list string) : WorkflowStep :=
  {| step_id := i; step_type := PARALLEL; tool_name := None; tool_params := [];
     condition := None; condition_expression := None;
     on_true := None; on_false := None;
     parallel_steps := Some children; loop_steps := None;
     loop_condition := None; loop_expression := None;
     max_iterations := 10; output_key := None;
     on_error := None; continue_on_error := false |}.

Definition make_loop_step (i : string) (children : list string)
    (f : option (pydict -> result value)) (expr : option string)
    (n : Z) : WorkflowStep :=
  {| step_id := i; step_type := LOOP; tool_name := None; tool_params := [];
     condition := None; condition_expression := None;
     on_true := None; on_false := None;
     parallel_steps := None; loop_steps := Some children;
     loop_condition := f; loop_expression := expr;
     max_iterations := n; output_key := None;
     on_error := None; continue_on_error := false |}.

(** A tool that adds one to its [value] parameter, counting from nothing. *)
Definition incr_tool : Tool unit :=
  {| name := "incr";
     validate := fun _ w => (Ok (VBool true), w);
     execute := fun params w =>
       (match dict_get params "value" with
        | Some (VInt n) => Ok (VInt (n + 1))
        | _ => Ok (VInt 1)
        end, w) |}.

(** The integer under [counter] in the dict passed as [data], 0 when
    there is none. *)
Definition count_in (params : pydict) : Z :=
  match dict_get params "data" with
  | Some (VDict d) =>
      match dict_get d "counter" with
      | Some (VInt n) => n
      | _ => 0
      end
  | _ => 0
  end.

(** A tool that answers one more than the counter in its [data] parameter. *)
Definition bump_tool : Tool unit :=
  {| name := "bump";
     validate := fun _ w => (Ok (VBool true), w);
     execute := fun params w => (Ok (VInt (count_in params + 1)), w) |}.

(** A tool whose [execute] always raises. *)
Definition boom_tool : Tool unit :=
  {| name := "boom";
     validate := fun _ w => (Ok (VBool true), w);
     execute := fun _ w => (Exc (ValueError "boom"), w) |}.

(** A tool whose [validate] always answers [False]. *)
Definition picky_tool : Tool unit :=
  {| name := "picky";
     validate := fun _ w => (Ok (VBool false), w);
     execute := fun _ w => (Ok (VInt 0), w) |}.

(** A tool that hands back its [value] parameter. *)
Definition echo_tool : Tool unit :=
  {| name := "echo";
     validate := fun _ w => (Ok (VBool true), w);
     execute := fun params w => (Ok (py_get params "value"), w) |}.

Definition sample_tools : gmap string (Tool unit) :=
  <["incr" := incr_tool]> (<["bump" := bump_tool]> (<["boom" := boom_tool]>
    (<["picky" := picky_tool]> (<["echo" := echo_tool]> ∅)))).

Definition make_workflow (start : string) (l : list WorkflowStep) : Workflow :=
  {| workflow_id := "wf";
     steps := list_to_map (map (fun s => (step_id s, s)) l);
     start_step_id := start |}.

(** A predicate that reads a key the context does not have. *)
Definition missing_reference (context : pydict) : result value :=
  match dict_get context "threshold" with
  | Some v => Ok v
  | None => Exc (KeyError "threshold")
  end.

(** TOOL steps around the failing tool: with an error handler, with
    neither handler nor [continue_on_error], with [continue_on_error]. *)
Definition risky_routed : WorkflowStep :=
  make_tool_step "risky" "boom" [] None (Some "handler") false.
Definition risky_fatal : WorkflowStep :=
  make_tool_step "risky" "boom" [] None None false.
Definition risky_swallowed : WorkflowStep :=
  make_tool_step "risky" "boom" [] None None true.
Definition handler_step : WorkflowStep :=
  make_tool_step "handler" "echo" [("value", VStr "recovered")] None None false.

(** A TOOL step that names a tool the registry does not have, with both
    kinds of error wiring. *)
Definition fetch_step : WorkflowStep :=
  make_tool_step "fetch" "absent" [] None (Some "handler") true.
Definition fetch_workflow : Workflow :=
  make_workflow "fetch" [fetch_step; handler_step].

(** The counting loop: three iterations, a predicate that always holds, a
    body that reads [counter] from the context data and publishes it
    raised by one.  The data dict as a whole is what the reference
    [${context.context}] finds. *)
Definition bump_step : WorkflowStep :=
  make_tool_step "bump" "bump" [("data", VStr "${context.context}")]
    (Some "counter") None false.
Definition counting_loop : WorkflowStep :=
  make_loop_step "loop" ["bump"] (Some (fun _ => Ok (VBool true))) None 3.
Definition counter_workflow : Workflow :=
  make_workflow "loop" [counting_loop; bump_step].

(** A step that adds one to its own last result. *)
Definition inc_step : WorkflowStep :=
  make_tool_step "inc" "incr" [("value", VStr "${inc.result}")]
    (Some "counter") None false.

(** Two CONDITION steps that send the traversal to each other. *)
Definition ping_step : WorkflowStep :=
  make_condition_step "ping" None None (Some ["pong"]) None.
Definition pong_step : WorkflowStep :=
  make_condition_step "pong" None None (Some ["ping"]) None.
Definition cyclic_workflow : Workflow :=
  make_workflow "ping" [ping_step; pong_step].
(** The point the traversal of it is at after two passes: back at [ping]. *)
Definition cycle_point : config unit :=
  {| cur := Some "ping"; seen := ["ping"; "pong"]; world := tt;
     ctx := entered pong_step new_context |}.

(** A CONDITION step on its own, and a PARALLEL step with one TOOL child. *)
Definition check_step : WorkflowStep :=
  make_condition_step "check" None None None None.
Definition check_workflow : Workflow := make_workflow "check" [check_step].
Definition probe_step : WorkflowStep :=
  make_tool_step "probe" "echo" [("value", VStr "seen")] None None false.
Definition fan_step : WorkflowStep := make_parallel_step "fan" ["probe"].
Definition fan_workflow : Workflow := make_workflow "fan" [fan_step; probe_step].

(** A CONDITION step and a LOOP step whose injected predicate reads a key
    that is not there, and a CONDITION step whose expression is malformed. *)
Definition guarded_step : WorkflowStep :=
  make_condition_step "guard" (Some missing_reference) None (Some ["handler"]) None.
Definition guarded_loop : WorkflowStep :=
  make_loop_step "again" ["inc"] (Some missing_reference) None 3.
Definition guarded_workflow : Workflow :=
  make_workflow "guard" [guarded_step; handler_step].
Definition malformed_step : WorkflowStep :=
  make_condition_step "guard" None (Some "context[") (Some ["handler"]) None.

(** A TOOL step that refers to the key [k] of the context data, in a
    context that holds [k]; and one that indexes the one-element list
    result of step [src] at 3, with both kinds of error wiring. *)
Definition use_step : WorkflowStep :=
  make_tool_step "use" "echo" [("value", VStr "${context.k}")]
    (Some "used") None false.
Definition use_workflow : Workflow := make_workflow "use" [use_step].
Definition seeded_context : WorkflowContext :=
  {| data := [("k", VInt 5)];
     step_results := [("src", step_entry (VList [VInt 1]) VNone)];
     last_step_id := None; last_result := VNone |}.
Definition pick_step : WorkflowStep :=
  make_tool_step "pick" "echo" [("value", VStr "${src.result.3}")]
    None (Some "handler") true.
Definition pick_workflow : Workflow :=
  make_workflow "pick" [pick_step; handler_step].

(** A CONDITION step with one successor on its true branch, and one with two. *)
Definition single_step : WorkflowStep :=
  make_condition_step "choose" None (Some "True") (Some ["handler"]) (Some []).
Definition double_step : WorkflowStep :=
  make_condition_step "choose" None (Some "True") (Some ["handler"; "probe"]) None.
Definition choose_workflow : Workflow :=
  make_workflow "choose" [single_step; handler_step].

(** CONDITION steps whose answer is false, one by an injected predicate
    and one by an expression, with a successor on each branch. *)
Definition denied_step : WorkflowStep :=
  make_condition_step "choose" (Some (fun _ => Ok (VBool false))) None
    (Some ["handler"]) (Some ["probe"]).
Definition refused_step : WorkflowStep :=
  make_condition_step "choose" None (Some "False") (Some ["handler"]) (Some ["probe"]).

(** A workflow that starts at the failing TOOL step, and a LOOP step with
    no predicate at all. *)
Definition risky_workflow : Workflow := make_workflow "risky" [risky_fatal].
Definition idle_loop : WorkflowStep := make_loop_step "idle" ["inc"] None None 3.


(** ** The rest of the workflow code *)

(** [Workflow(id=i, name=..., start_step_id=start)]: no step yet. *)
Definition empty_workflow (i start : string) : Workflow :=
  {| workflow_id := i; steps := ∅; start_step_id := start |}.

(** [add_step] (workflow.py lines 61-65); the workflow it returns is
    [self] after the assignment. *)
Definition add_step (wf : Workflow) (step : WorkflowStep) : result Workflow :=
  match steps wf !! step_id step with
  | Some _ =>
      Exc (ValueError ("Step '" ++ step_id step
                       ++ "' is already registered in workflow '"
                       ++ workflow_id wf ++ "'"))
  | None =>
      Ok {| workflow_id := workflow_id wf;
            steps := <[step_id step := step]> (steps wf);
            start_step_id := start_step_id wf |}
  end.

(** [add_step] called on each step of a list in turn, as
    [build_sample_workflow] does (workflow_usage.py lines 68-70). *)
Fixpoint add_steps (wf : Workflow) (l : list WorkflowStep) : result Workflow :=
  match l with
  | [] => Ok wf
  | step :: l' => (wf' <- add_step wf step ;; add_steps wf' l')%res
  end.

(** Every step is registered under its own id. *)
Definition keyed_by_id (wf : Workflow) : Prop :=
  forall key s, steps wf !! key = Some s -> step_id s = key.

(** The test of [_resolve_value] for a template reference (line 112). *)
Definition is_template (s : string) : bool :=
  (startswith s "${" && endswith s "}")%bool.

(** No string of [v] that [_resolve_value] would look at is a template
    reference (it does not look into tuples). *)
Fixpoint template_free (v : value) : bool :=
  match v with
  | VStr s => negb (is_template s)
  | VList l => forallb template_free l
  | VDict d => forallb (fun kv => template_free (snd kv)) d
  | _ => true
  end.

(** The keys of a dict, in order. *)
Definition dict_keys (d : pydict) : list string := map fst d.


(** The context after a TOOL step that succeeded with [res]. *)
Definition record_success (step : WorkflowStep) (res : value)
    (c : WorkflowContext) : WorkflowContext :=
  let c1 := set_last_result res c in
  let c2 := if str_truthy (output_key step)
            then set_data (dict_set (data c1) (default "" (output_key step)) res) c1
            else c1 in
  set_step_results
    (dict_set (step_results c2) (step_id step) (step_entry res VNone)) c2.

(** No PARALLEL or LOOP step of the workflow has a CONDITION step among
    the children it names: no nested chain can start. *)
Definition chain_free (wf : Workflow) : Prop :=
  forall key s child cs,
    steps wf !! key = Some s ->
    child ∈@{list string}
      (default [] (parallel_steps s) ++ default [] (loop_steps s))%list ->
    steps wf !! child = Some cs ->
    step_type cs <> CONDITION.

(** [WorkflowRunner] (workflow_runner.py).  The [name] of the workflow,
    which the record [Workflow] leaves out, is passed beside it. *)
Module WorkflowRunner.

Record t : Type := {
  enable_logging : bool;                (* config.enable_logging *)
  execution_log : list pydict
}.

(** [WorkflowRunner(enable_logging)] (lines 27-29). *)
Definition init (logging : bool) : t :=
  {| enable_logging := logging; execution_log := [] |}.

(** [_log] (lines 62-65): [{"event": event, **data}] goes last. *)
Definition _log (r : t) (event : string) (data : pydict) : t :=
  {| enable_logging := enable_logging r;
     execution_log := execution_log r ++ [("event", VStr event) :: data] |}.

(** An [Optional[str]] as an object. *)
Definition optional_str (o : option string) : value :=
  match o with Some s => VStr s | None => VNone end.

(** [run] (lines 31-60): the runner as it is left, and the outcome of
    [Workflow.run]. *)
Definition run {W : Type} (py_eval : string -> pydict -> result value)
    (r : t) (workflow : Workflow) (workflow_name : string)
    (tools : gmap string (Tool W)) (fuel : nat)
    (context : option WorkflowContext) (w : W) : t * outcome W unit :=
  let r1 :=
    if enable_logging r then
      _log r "workflow_start"
        [("workflow_id", VStr (workflow_id workflow));
         ("workflow_name", VStr workflow_name)]
    else r in
  match run py_eval workflow tools fuel context w with
  | Return _ w' ctx =>
      (if enable_logging r1 then
         _log r1 "workflow_complete"
           [("workflow_id", VStr (workflow_id workflow));
            ("last_step_id", optional_str (last_step_id ctx))]
       else r1,
       Return tt w' ctx)
  | Raise e w' ctx => (r1, Raise e w' ctx)
  | Diverge => (r1, Diverge)
  end.

(** [clear_log] (lines 71-73). *)
Definition clear_log (r : t) : t :=
  {| enable_logging := enable_logging r; execution_log := [] |}.

End WorkflowRunner.

(** The tool registry of [Agent] (agent.py lines 87-155): the methods
    that use the [Tool] contract, over the dict [self.tools]. *)
Module Agent.

Section Registry.
Context {W : Type}.

(** [add_tool] (lines 87-96). *)
Definition add_tool (tools : gmap string (Tool W)) (tool : Tool W)
    : result (gmap string (Tool W)) :=
  match tools !! name tool with
  | Some _ => Exc (ValueError ("Tool '" ++ name tool ++ "' is already registered"))
  | None => Ok (<[name tool := tool]> tools)
  end.

(** [remove_tool] (lines 98-107). *)
Definition remove_tool (tools : gmap string (Tool W)) (tool_name : string)
    : result (gmap string (Tool W)) :=
  match tools !! tool_name with
  | None => Exc (ValueError ("Tool '" ++ tool_name ++ "' is not registered"))
  | Some _ => Ok (delete tool_name tools)
  end.

(** [get_tool] (lines 109-119). *)
Definition get_tool (tools : gmap string (Tool W)) (tool_name : string)
    : option (Tool W) :=
  tools !! tool_name.

(** [execute_tool] (lines 121-155): the lookup and the validation stand
    before the [try]; what [execute] raises is wrapped. *)
Definition execute_tool (tools : gmap string (Tool W)) (tool_name : string)
    (kwargs : pydict) (w : W) : result value * W :=
  match get_tool tools tool_name with
  | None =>
      (Exc (ToolExecutionError tool_name ("Tool '" ++ tool_name ++ "' not found")), w)
  | Some tool =>
      match validate tool kwargs w with
      | (Exc e, w1) => (Exc e, w1)
      | (Ok valid, w1) =>
          if truthy valid then
            match execute tool kwargs w1 with
            | (Ok res, w2) => (Ok res, w2)
            | (Exc e, w2) => (Exc (ToolExecutionError tool_name (str_exn e)), w2)
            end
          else
            (Exc (ToolExecutionError tool_name "Tool parameter validation failed"), w1)
      end
  end.

End Registry.

End Agent.

(** A TOOL step whose error handler is the step itself, under a CONDITION
    child of a PARALLEL step; the same step as the start of a workflow. *)
Definition retry_step : WorkflowStep :=
  make_tool_step "retry" "boom" [] None (Some "retry") false.
Definition entry_step : WorkflowStep :=
  make_condition_step "entry" None None (Some ["retry"]) None.
Definition retry_fan : WorkflowStep := make_parallel_step "fan" ["entry"].
Definition retry_workflow : Workflow :=
  make_workflow "fan" [retry_fan; entry_step; retry_step].

(** A PARALLEL step whose children are a LOOP and a PARALLEL step. *)
Definition outer_fan : WorkflowStep := make_parallel_step "outer" ["loop"; "fan"].
Definition nesting_workflow : Workflow :=
  make_workflow "outer" [outer_fan; counting_loop; fan_step; bump_step; probe_step].

(** A PARALLEL step whose first child fails and is wired to a handler,
    and whose second child succeeds. *)
Definition mixed_fan : WorkflowStep := make_parallel_step "mixed" ["risky"; "probe"].
Definition mixed_workflow : Workflow :=
  make_workflow "mixed" [mixed_fan; risky_routed; probe_step; handler_step].

(** A LOOP step whose predicate holds while the counter is below 2, with
    room for 5 iterations. *)
Definition below_two (context : pydict) : result value :=
  match dict_get context "context" with
  | Some (VDict d) =>
      match dict_get d "counter" with
      | Some (VInt n) => Ok (VBool (n <? 2))
      | _ => Ok (VBool true)
      end
  | _ => Ok (VBool true)
  end.
Definition short_loop : WorkflowStep :=
  make_loop_step "loop" ["bump"] (Some below_two) None 5.
Definition short_workflow : Workflow :=
  make_workflow "loop" [short_loop; bump_step].

(** A TOOL step that succeeds and publishes its result, followed in the
    registry by steps it is not wired to. *)
Definition publish_step : WorkflowStep :=
  make_tool_step "probe" "echo" [("value", VStr "seen")] (Some "found") None false.
Definition publish_workflow : Workflow :=
  make_workflow "probe" [publish_step; check_step; handler_step].

(** Parameters with nothing to resolve: literals, a string that only
    starts like a reference, a nested list, a tuple. *)
Definition literal_params : pydict :=
  [("operation", VStr "add"); ("a", VInt 15); ("b", VInt 27);
   ("note", VStr "${open"); ("nested", VList [VDict [("k", VNone)]; VBool true]);
   ("pair", VTuple [VStr "${context.k}"])].

(** A TOOL step on the tool whose validation answers false, wired to a
    handler. *)
Definition strict_step : WorkflowStep :=
  make_tool_step "strict" "picky" [] None (Some "handler") false.

(** A LOOP step with no room for an iteration, whose predicate would
    raise. *)
Definition zero_loop : WorkflowStep :=
  make_loop_step "never" ["bump"] (Some missing_reference) None 0.

(** A workflow with no start step, and one whose start step is not
    registered. *)
Definition unstarted_workflow : Workflow := make_workflow "" [probe_step].
Definition ghost_workflow : Workflow := make_workflow "ghost" [probe_step].

(** A TOOL step whose parameters are [literal_params]. *)
Definition literal_step : WorkflowStep :=
  make_tool_step "calc" "echo" literal_params None None false.

(** A tool whose [execute] raises a [ToolExecutionError] of its own. *)
Definition relay_tool : Tool unit :=
  {| name := "relay";
     validate := fun _ w => (Ok (VBool true), w);
     execute := fun _ w => (Exc (ToolExecutionError "remote" "down"), w) |}.


(** [build_sample_workflow] (workflow_usage.py lines 20-72): a calculator
    step, a CONDITION step on its result and a weather step, registered
    in this order in a workflow that starts at the calculator step. *)
Definition step_calculate : WorkflowStep :=
  make_tool_step "calculate_sum" "calculator"
    [("operation", VStr "add"); ("a", VInt 15); ("b", VInt 27)]
    (Some "sum_result") None false.
Definition step_condition : WorkflowStep :=
  make_condition_step "check_sum" None (Some "context.get('sum_result', 0) > 30")
    (Some ["weather_sf"]) (Some []).
Definition step_weather : WorkflowStep :=
  make_tool_step "weather_sf" "weather" [("location", VStr "San Francisco, CA")]
    (Some "sf_weather") None false.
Definition build_sample_workflow : result Workflow :=
  add_steps (empty_workflow "calculator_weather_workflow" "calculate_sum")
    [step_calculate; step_condition; step_weather].

(** The workflow it returns. *)
Definition sample_workflow : Workflow :=
  {| workflow_id := "calculator_weather_workflow";
     steps := <["weather_sf" := step_weather]>
                (<["check_sum" := step_condition]>
                   (<["calculate_sum" := step_calculate]> ∅));
     start_step_id := "calculate_sum" |}.

(** Tools under the two names the sample workflow asks for: an adder of
    integers and the tool that hands back [location]. *)
Definition sum_tool : Tool unit :=
  {| name := "calculator";
     validate := fun _ w => (Ok (VBool true), w);
     execute := fun params w =>
       (match dict_get params "a", dict_get params "b" with
        | Some (VInt a), Some (VInt b) => Ok (VInt (a + b))
        | _, _ => Exc (ValueError "not a number")
        end, w) |}.
Definition place_tool : Tool unit :=
  {| name := "weather";
     validate := fun _ w => (Ok (VBool true), w);
     execute := fun params w => (Ok (py_get params "location"), w) |}.
Definition usage_tools : gmap string (Tool unit) :=
  <["calculator" := sum_tool]> (<["weather" := place_tool]> ∅).


(** * Properties *)

Section Properties.

Context {W : Type}.
Variable py_eval : string -> pydict -> result value.

Implicit Types (step : WorkflowStep) (wf : Workflow) (tools : gmap string (Tool W)).
Implicit Types (w : W) (c : WorkflowContext) (fuel budget : nat).

(** ** Dicts *)

Lemma dict_get_cons (d : pydict) k' v k :
  dict_get ((k', v) :: d) k = if String.eqb k' k then Some v else dict_get d k.
Proof. reflexivity. Qed.

Lemma dict_get_set_eq (d : pydict) k v : dict_get (dict_set d k v) k = Some v.
Proof.
  induction d as [|[k' v'] d IH]; simpl.
  - by rewrite String.eqb_refl.
  - destruct (String.eqb k' k) eqn:E; simpl; rewrite E; [done | apply IH].
Qed.

Lemma dict_get_set_ne (d : pydict) k k' v :
  k <> k' -> dict_get (dict_set d k v) k' = dict_get d k'.
Proof.
  intros Hne. induction d as [|[k0 v0] d IH]; simpl.
  - destruct (String.eqb k k') eqn:E; [|done].
    apply String.eqb_eq in E. contradiction.
  - destruct (String.eqb k0 k) eqn:E; simpl.
    + apply String.eqb_eq in E. subst k0.
      destruct (String.eqb k k') eqn:E'; [|done].
      apply String.eqb_eq in E'. contradiction.
    + by rewrite IH.
Qed.

(** ** One pass of the top-level loop *)

Lemma run_iteration_fresh wf tools fuel sid visited step w c :
  sid ∉ visited ->
  steps wf !! sid = Some step ->
  run_iteration py_eval wf tools fuel sid visited w c =
    match dispatch py_eval wf tools fuel step w (entered step c) with
    | Return next w' c' => Return (next, (visited ++ [sid])%list) w' c'
    | Raise e w' c' => Raise e w' c'
    | Diverge => Diverge
    end.
Proof.
  intros Hfresh Hstep. unfold run_iteration.
  rewrite bool_decide_eq_false_2 by done.
  unfold bind, lift, get_step, modify. rewrite Hstep. simpl.
  unfold entered. by destruct (dispatch _ _ _ _ _ _ _).
Qed.

Lemma run_iteration_seen wf tools fuel sid visited w c :
  sid ∈ visited ->
  run_iteration py_eval wf tools fuel sid visited w c = Raise (cycle_error wf sid) w c.
Proof.
  intros Hin. unfold run_iteration. by rewrite bool_decide_eq_true_2.
Qed.

Lemma run_from_pass wf tools fuel budget sid visited w c :
  sid <> "" ->
  run_from py_eval wf tools fuel (S budget) (Some sid) visited w c =
    match run_iteration py_eval wf tools fuel sid visited w c with
    | Return nv w' c' => run_from py_eval wf tools fuel budget (fst nv) (snd nv) w' c'
    | Raise e w' c' => Raise e w' c'
    | Diverge => Diverge
    end.
Proof.
  intros Hne. simpl.
  assert (String.eqb sid "" = false) as -> by by apply String.eqb_neq.
  reflexivity.
Qed.

Lemma run_from_stop wf tools fuel budget o visited w c :
  str_truthy o = false ->
  run_from py_eval wf tools fuel budget o visited w c = Return visited w c.
Proof. intros H. destruct budget; simpl; by rewrite H. Qed.

(** ** CONDITION steps *)

Lemma follow_branch_none step (b : bool) w c :
  list_truthy (if b then on_true step else on_false step) = false ->
  follow_branch step b w c = Return None w c.
Proof. intros H. unfold follow_branch. by rewrite H. Qed.

Lemma follow_branch_one step (b : bool) sid w c :
  (if b then on_true step else on_false step) = Some [sid] ->
  follow_branch step b w c = Return (Some sid) w c.
Proof. intros H. unfold follow_branch. by rewrite H. Qed.

Lemma follow_branch_many step (b : bool) l w c :
  (if b then on_true step else on_false step) = Some l ->
  (1 < length l)%nat ->
  exists msg, follow_branch step b w c = Raise (ValueError msg) w c.
Proof.
  intros H Hlen. unfold follow_branch. rewrite H.
  destruct l as [|x [|y l]]; simpl in Hlen; try lia.
  simpl. eauto.
Qed.

(** C8.  What a CONDITION step does, for every step and context.  The
    answer is that of the step's own predicate: the injected callable
    when there is one, else the expression, whose failure counts as
    false, else true; and the handler follows [on_true] on a true answer
    and [on_false] on a false one.  With no list or an empty one it
    returns no next step, with exactly one id it returns that id, with
    more than one it raises a [ValueError].  An injected callable that
    raises makes the handler raise the same exception: no branch is
    selected.  At the top level the traversal takes what the handler
    returned as its new current step (none ends it), and an exception
    leaves the context as the step was entered with, so no other step has
    run. *)
Theorem condition_step_branching step w c :
  (forall f, condition step = Some f ->
     _run_condition_step py_eval step w c =
       match f (handler_env c) with
       | Ok v => follow_branch step (truthy v) w c
       | Exc e => Raise e w c
       end)
  /\ (condition step = None ->
      _run_condition_step py_eval step w c =
        follow_branch step
          (if str_truthy (condition_expression step) then
             match py_eval (default "" (condition_expression step))
                     [("context", VDict (handler_env c))] with
             | Ok v => truthy v
             | Exc _ => false
             end
           else true) w c)
  /\ (forall b : bool,
       (selected step (VBool b) = None \/ selected step (VBool b) = Some [] ->
          follow_branch step b w c = Return None w c)
       /\ (forall sid, selected step (VBool b) = Some [sid] ->
             follow_branch step b w c = Return (Some sid) w c)
       /\ (forall l, selected step (VBool b) = Some l -> (1 < length l)%nat ->
             exists msg, follow_branch step b w c = Raise (ValueError msg) w c))
  /\ (forall wf tools fuel budget key visited,
     steps wf !! key = Some step -> step_type step = CONDITION ->
     key <> "" -> key ∉ visited ->
     run_from py_eval wf tools fuel (S budget) (Some key) visited w c =
       match _run_condition_step py_eval step w c with
       | Return next _ _ =>
           run_from py_eval wf tools fuel budget next (visited ++ [key])%list
             w (entered step c)
       | Raise e _ _ => Raise e w (entered step c)
       | Diverge => Diverge
       end).
Proof.
  split; [|split; [|split]].
  - intros f Hf. unfold _run_condition_step, evaluate_condition. rewrite Hf.
    by destruct (f (handler_env c)).
  - intros Hnone. unfold _run_condition_step, evaluate_condition. rewrite Hnone.
    destruct (str_truthy (condition_expression step)); [|done].
    by destruct (py_eval _ _).
  - intros b. unfold selected. cbn [truthy].
    split; [|split].
    + intros Hsel. apply follow_branch_none. by destruct Hsel as [-> | ->].
    + intros sid Hsel. by apply follow_branch_one.
    + intros l Hsel Hlen. by apply (follow_branch_many _ _ l).
  - intros wf tools fuel budget key visited Hstep Hty Hkey Hfresh.
    rewrite run_from_pass by done.
    rewrite (run_iteration_fresh _ _ _ _ _ step) by done.
    unfold dispatch. rewrite Hty. unfold _run_condition_step.
    change (handler_env (entered step c)) with (handler_env c).
    destruct (evaluate_condition _ _ _) as [v|e]; [|done].
    unfold follow_branch.
    destruct (negb (list_truthy _)); [done|].
    by destruct (1 <? _)%nat.
Qed.

(** C10.  Without a predicate the two evaluations differ:
    [evaluate_condition] answers [True], so the CONDITION step follows
    [on_true]; [evaluate_loop_condition] answers [False], so the LOOP step
    makes no iteration, its counter stays at 0 and the context is left as
    it was. *)
Theorem condition_defaults_differ wf tools fuel budget step context w c :
  (condition step = None -> condition_expression step = None ->
     evaluate_condition py_eval step context = Ok (VBool true)
     /\ _run_condition_step py_eval step w c = follow_branch step true w c)
  /\ (loop_condition step = None -> loop_expression step = None ->
     evaluate_loop_condition py_eval step context = Ok (VBool false)
     /\ loop_while py_eval wf tools fuel step budget 0 w c = Return 0 w c
     /\ _run_loop_step py_eval wf tools fuel step w c = Return None w c).
Proof.
  split.
  - intros Hc He. unfold _run_condition_step, evaluate_condition.
    by rewrite Hc, He.
  - intros Hc He.
    assert (Hev : forall context,
      evaluate_loop_condition py_eval step context = Ok (VBool false)).
    { intros ?. unfold evaluate_loop_condition. by rewrite Hc, He. }
    assert (Hloop : forall budget,
      loop_while py_eval wf tools fuel step budget 0 w c = Return 0 w c).
    { intros b. destruct b; simpl; rewrite Hev; simpl;
        by destruct (0 <? max_iterations step). }
    split; [apply Hev|]. split; [apply Hloop|].
    unfold _run_loop_step.
    destruct (negb (list_truthy (loop_steps step))); [done|].
    unfold bind. by rewrite Hloop.
Qed.

(** ** Predicates *)

Lemma expression_failure_is_false step context e :
  condition step = None ->
  py_eval (default "" (condition_expression step)) [("context", VDict context)]
    = Exc e ->
  str_truthy (condition_expression step) = true ->
  evaluate_condition py_eval step context = Ok (VBool false).
Proof.
  intros Hc He Ht. unfold evaluate_condition. by rewrite Hc, Ht, He.
Qed.

Lemma loop_expression_failure_is_false step context e :
  loop_condition step = None ->
  py_eval (default "" (loop_expression step)) [("context", VDict context)]
    = Exc e ->
  evaluate_loop_condition py_eval step context = Ok (VBool false).
Proof.
  intros Hc He. unfold evaluate_loop_condition. rewrite Hc, He.
  by destruct (str_truthy _).
Qed.

Lemma expression_never_raises step context :
  condition step = None ->
  exists v, evaluate_condition py_eval step context = Ok v.
Proof.
  intros Hc. unfold evaluate_condition. rewrite Hc.
  destruct (str_truthy _); [|eauto].
  destruct (py_eval _ _); eauto.
Qed.

Lemma loop_expression_never_raises step context :
  loop_condition step = None ->
  exists v, evaluate_loop_condition py_eval step context = Ok v.
Proof.
  intros Hc. unfold evaluate_loop_condition. rewrite Hc.
  destruct (str_truthy _); [|eauto].
  destruct (py_eval _ _); eauto.
Qed.

Lemma injected_predicate_decides step context f :
  condition step = Some f ->
  evaluate_condition py_eval step context = f context.
Proof. intros Hc. unfold evaluate_condition. by rewrite Hc. Qed.

(** ** TOOL steps *)

Lemma tool_attempt_fails tool step params w e w' :
  tool_fails tool step params w e w' <->
  tool_attempt tool step params w = (Exc e, w').
Proof.
  unfold tool_attempt. split.
  - intros [e0 w0 Hv | v w0 Hv Hf | v w1 e0 w0 Hv Ht He]; rewrite Hv.
    + done.
    + by rewrite Hf.
    + by rewrite Ht.
  - destruct (validate tool params w) as [[v|e0] w1] eqn:Hv.
    + destruct (truthy v) eqn:Ht.
      * intros He. by eapply fails_execute.
      * intros [= <- <-]. by eapply fails_validation.
    + intros [= <- <-]. by apply fails_validate_raises.
Qed.

Lemma top_level_raise wf tools fuel budget key visited step e w w' c c' :
  steps wf !! key = Some step ->
  key <> "" ->
  key ∉ visited ->
  dispatch py_eval wf tools fuel step w (entered step c) = Raise e w' c' ->
  run_from py_eval wf tools fuel (S budget) (Some key) visited w c = Raise e w' c'.
Proof.
  intros Hstep Hkey Hfresh Hd.
  rewrite run_from_pass by done.
  rewrite (run_iteration_fresh _ _ _ _ _ step) by done.
  by rewrite Hd.
Qed.

Lemma run_unfold wf tools fuel context w :
  run py_eval wf tools fuel context w =
    match run_from py_eval wf tools fuel (S (size (steps wf)))
            (Some (start_step_id wf)) [] w (default new_context context) with
    | Return _ w' c' => Return tt w' c'
    | Raise e w' c' => Raise e w' c'
    | Diverge => Diverge
    end.
Proof. reflexivity. Qed.

(** C1 (amended).  When the tool of a TOOL step is found, its parameters
    resolve, and validation fails or the tool raises [exc]: [last_result]
    is cleared; if [on_error] names a step (a non-empty id), the entry
    [{result: None, error: str(exc)}] is stored under the step id and
    [on_error] is returned; else if [continue_on_error] holds the entry is
    stored and no next step is returned; else [exc] is raised with
    [step_results] as it was, and a top-level traversal ends with [exc]. *)
Theorem tool_step_failure_routing step tools tool params exc w w' c :
  str_truthy (tool_name step) = true ->
  tools !! default "" (tool_name step) = Some tool ->
  resolve_params step (handler_env c) = Ok params ->
  tool_fails tool step params w exc w' ->
  _run_tool_step step tools w c =
    (if str_truthy (on_error step) then
       Return (on_error step) w' (record_failure step exc c)
     else if continue_on_error step then
       Return None w' (record_failure step exc c)
     else Raise exc w' (set_last_result VNone c))
  /\ dict_get (step_results (record_failure step exc c)) (step_id step)
     = Some (step_entry VNone (VStr (str_exn exc)))
  /\ last_result (record_failure step exc c) = VNone
  /\ (forall wf fuel budget key visited,
        steps wf !! key = Some step -> step_type step = TOOL ->
        key <> "" -> key ∉ visited ->
        str_truthy (on_error step) = false -> continue_on_error step = false ->
        run_from py_eval wf tools fuel (S budget) (Some key) visited w c
        = Raise exc w' (set_last_result VNone (entered step c))).
Proof.
  intros Hname Htool Hparams Hfail.
  apply tool_attempt_fails in Hfail.
  assert (Hrun : forall c0, handler_env c0 = handler_env c ->
    _run_tool_step step tools w c0 =
      (if str_truthy (on_error step) then
         Return (on_error step) w' (record_failure step exc c0)
       else if continue_on_error step then
         Return None w' (record_failure step exc c0)
       else Raise exc w' (set_last_result VNone c0))).
  { intros c0 Henv. unfold _run_tool_step.
    rewrite Hname, Htool, Henv, Hparams, Hfail. simpl.
    destruct (str_truthy (on_error step)); [done|].
    by destruct (continue_on_error step). }
  split; [by apply Hrun|].
  split; [apply dict_get_set_eq|].
  split; [done|].
  intros wf fuel budget key visited Hstep Hty Hkey Hfresh Hoe Hcont.
  apply (top_level_raise _ _ _ _ _ _ step); try done.
  unfold dispatch. rewrite Hty, Hrun by done.
  by rewrite Hoe, Hcont.
Qed.

(** C2 (amended).  A TOOL step whose tool is not in the registry raises
    [ToolExecutionError] from outside the [try] block: whatever [on_error]
    and [continue_on_error] say, nothing is recorded, the context is
    untouched, and a top-level traversal ends with that error. *)
Theorem missing_tool_is_fatal step tools w c :
  str_truthy (tool_name step) = true ->
  tools !! default "" (tool_name step) = None ->
  let tn := default "" (tool_name step) in
  let exc := ToolExecutionError tn
               ("Tool '" ++ tn ++ "' not found for step '" ++ step_id step ++ "'") in
  _run_tool_step step tools w c = Raise exc w c
  /\ (forall wf fuel budget key visited,
        steps wf !! key = Some step -> step_type step = TOOL ->
        key <> "" -> key ∉ visited ->
        run_from py_eval wf tools fuel (S budget) (Some key) visited w c
        = Raise exc w (entered step c)).
Proof.
  intros Hname Htool tn exc.
  assert (Hrun : forall c0, _run_tool_step step tools w c0 = Raise exc w c0).
  { intros c0. unfold _run_tool_step. by rewrite Hname, Htool. }
  split; [apply Hrun|].
  intros wf fuel budget key visited Hstep Hty Hkey Hfresh.
  apply (top_level_raise _ _ _ _ _ _ step); try done.
  unfold dispatch. by rewrite Hty, Hrun.
Qed.

(** ** LOOP steps *)

(** The recursion budget of [loop_while] never decides: any budget that
    covers the iterations the counter still allows gives the same outcome. *)
Lemma loop_while_budget wf tools fuel step b1 b2 iterations w c :
  (Z.to_nat (max_iterations step - iterations) <= b1)%nat ->
  (Z.to_nat (max_iterations step - iterations) <= b2)%nat ->
  loop_while py_eval wf tools fuel step b1 iterations w c
  = loop_while py_eval wf tools fuel step b2 iterations w c.
Proof.
  revert b2 iterations w c.
  induction b1 as [|b1 IH]; intros b2 iterations w c H1 H2.
  - assert ((iterations <? max_iterations step) = false) as Hlt
      by (apply Z.ltb_ge; lia).
    destruct b2; simpl; by rewrite Hlt.
  - destruct b2 as [|b2].
    + assert ((iterations <? max_iterations step) = false) as Hlt
        by (apply Z.ltb_ge; lia).
      simpl. by rewrite Hlt.
    + simpl. destruct (iterations <? max_iterations step) eqn:Hlt; [|done].
      apply Z.ltb_lt in Hlt.
      destruct (evaluate_loop_condition _ _ _); [|done].
      destruct (truthy a); [|done].
      unfold bind. destruct (for_each _ _ w c); try done.
      apply IH; lia.
Qed.

Lemma repeat_body_skip (n : nat) (w : W) c :
  repeat_body n (fun w c => Return tt w c) w c = Return tt w c.
Proof. induction n as [|n IH]; simpl; [done|]. unfold bind. apply IH. Qed.

Lemma loop_while_unroll wf tools fuel step :
  always_true py_eval step ->
  forall (n budget : nat) iterations w c,
    Z.to_nat (max_iterations step - iterations) = n ->
    (n <= budget)%nat ->
    loop_while py_eval wf tools fuel step budget iterations w c =
      match repeat_body n (loop_body py_eval wf tools fuel step) w c with
      | Return _ w' c' => Return (iterations + Z.of_nat n) w' c'
      | Raise e w' c' => Raise e w' c'
      | Diverge => Diverge
      end.
Proof.
  intros Htrue n. induction n as [|n IH]; intros budget iterations w c Hn Hb.
  - assert ((iterations <? max_iterations step) = false) as Hlt
      by (apply Z.ltb_ge; lia).
    simpl. rewrite Z.add_0_r. destruct budget; simpl; by rewrite Hlt.
  - destruct budget as [|budget]; [lia|].
    assert ((iterations <? max_iterations step) = true) as Hlt
      by (apply Z.ltb_lt; lia).
    destruct (Htrue (handler_env c)) as (v & Hv & Ht).
    simpl. rewrite Hlt, Hv, Ht. unfold bind, loop_body.
    destruct (for_each _ _ w c) as [[] w1 c1| |]; try done.
    rewrite (IH budget (iterations + 1) w1 c1) by lia.
    unfold loop_body.
    destruct (repeat_body _ _ _ _); try done.
    f_equal. lia.
Qed.

Lemma repeat_body_increments key (body : M W unit) :
  increments key body ->
  forall (n : nat) w c, exists w' c',
    repeat_body n body w c = Return tt w' c'
    /\ counter_at c' key = counter_at c key + Z.of_nat n.
Proof.
  intros Hinc n. induction n as [|n IH]; intros w c.
  - exists w, c. split; [done | simpl; lia].
  - destruct (Hinc w c) as (w1 & c1 & Hbody & Hone).
    destruct (IH w1 c1) as (w2 & c2 & Hrest & Hn).
    exists w2, c2. simpl. unfold bind. rewrite Hbody.
    split; [done | lia].
Qed.

(** C3.  A LOOP step with [max_iterations = N] whose predicate holds
    whatever the context does what [N] executions of its body in a row
    do, no more: an exception in the body ends the row as it ends the
    traversal; the loop counter ends at [N]; and when the body adds one to
    the integer under a key of the context data, the step adds [N] to it. *)
Theorem loop_runs_max_iterations wf tools fuel step (N : nat) w c :
  max_iterations step = Z.of_nat N ->
  always_true py_eval step ->
  _run_loop_step py_eval wf tools fuel step w c =
    bind (repeat_body N (loop_body py_eval wf tools fuel step))
         (fun _ => ret None) w c
  /\ (forall last w' c',
        loop_while py_eval wf tools fuel step (Z.to_nat (max_iterations step)) 0 w c
          = Return last w' c' ->
        last = Z.of_nat N)
  /\ (forall key,
        increments key (loop_body py_eval wf tools fuel step) ->
        exists w' c',
          _run_loop_step py_eval wf tools fuel step w c = Return None w' c'
          /\ counter_at c' key = counter_at c key + Z.of_nat N).
Proof.
  intros Hmax Htrue.
  pose proof (loop_while_unroll wf tools fuel step Htrue N
                (Z.to_nat (max_iterations step)) 0 w c) as Hun.
  rewrite Hmax in *. rewrite Z.sub_0_r, Nat2Z.id in Hun.
  specialize (Hun eq_refl (le_n _)).
  assert (Hrun : _run_loop_step py_eval wf tools fuel step w c =
            bind (repeat_body N (loop_body py_eval wf tools fuel step))
                 (fun _ => ret None) w c).
  { unfold _run_loop_step.
    destruct (list_truthy (loop_steps step)) eqn:Hl; simpl.
    + unfold bind at 1. rewrite Hmax, Nat2Z.id, Hun. unfold bind.
      by destruct (repeat_body _ _ _ _).
    + assert (default [] (loop_steps step) = []) as Hempty.
      { destruct (loop_steps step) as [[|]|]; done. }
      unfold bind, loop_body. rewrite Hempty. simpl.
      by rewrite repeat_body_skip. }
  split; [exact Hrun|]. split.
  - intros last w' c' Hret. rewrite Nat2Z.id, Hun in Hret.
    destruct (repeat_body _ _ _ _); [|done|done].
    injection Hret as <- _ _. lia.
  - intros key Hinc.
    destruct (repeat_body_increments key _ Hinc N w c) as (w' & c' & Hrep & Hn).
    exists w', c'. rewrite Hrun. unfold bind. by rewrite Hrep.
Qed.

(** ** The cycle guard of [run] *)

Lemma run_iteration_return wf tools fuel sid visited w c nv w' c' :
  run_iteration py_eval wf tools fuel sid visited w c = Return nv w' c' ->
  (sid ∉ visited) /\ is_Some (steps wf !! sid) /\ snd nv = (visited ++ [sid])%list.
Proof.
  unfold run_iteration. case_bool_decide as Hin; [done|].
  unfold bind, lift, get_step, modify.
  destruct (steps wf !! sid) as [step|]; [|done].
  destruct (dispatch _ _ _ _ _ _ _); try done.
  intros [= <- _ _]. eauto.
Qed.

Lemma visited_ok_snoc wf visited sid :
  visited_ok wf visited -> sid ∉ visited -> is_Some (steps wf !! sid) ->
  visited_ok wf (visited ++ [sid]).
Proof.
  intros [Hnd Hreg] Hfresh Hsome. split.
  - apply NoDup_app. split; [done|]. split; [|apply NoDup_singleton].
    intros x Hx ->%list_elem_of_singleton. contradiction.
  - intros x [Hx | ->%list_elem_of_singleton]%elem_of_app; auto.
Qed.

(** No more distinct registered steps than the workflow has. *)
Lemma visited_ok_length wf visited :
  visited_ok wf visited -> (length visited <= size (steps wf))%nat.
Proof.
  intros [Hnd Hreg].
  rewrite <- (size_list_to_set (C:=gset string) visited) by done.
  rewrite <- (size_dom (steps wf)).
  apply subseteq_size. intros x Hx%elem_of_list_to_set.
  by apply elem_of_dom, Hreg.
Qed.

Lemma traverse_visited wf tools fuel n k k' :
  traverse py_eval wf tools fuel n k k' ->
  visited_ok wf (seen k) ->
  visited_ok wf (seen k') /\ length (seen k') = (length (seen k) + n)%nat.
Proof.
  induction 1 as [k | n k nv w' c' k' Htruthy Hpass Hrest IH]; intros Hok.
  - split; [done | lia].
  - apply run_iteration_return in Hpass as (Hfresh & Hsome & Hsnd).
    simpl in IH. rewrite Hsnd in IH.
    destruct IH as [Hok' Hlen]; [by apply visited_ok_snoc|].
    split; [done|]. rewrite Hlen, length_app. simpl. lia.
Qed.

Lemma run_from_traverse wf tools fuel n k k' budget :
  traverse py_eval wf tools fuel n k k' ->
  run_from py_eval wf tools fuel (n + budget) (cur k) (seen k) (world k) (ctx k)
  = run_from py_eval wf tools fuel budget (cur k') (seen k') (world k') (ctx k').
Proof.
  induction 1 as [k | n k nv w' c' k' Htruthy Hpass Hrest IH]; [done|].
  simpl. rewrite Htruthy. unfold bind. rewrite Hpass. apply IH.
Qed.

(** The recursion budget of [run_from] never decides either: with the
    steps seen so far distinct and registered, any budget that covers the
    steps not yet seen gives the same outcome. *)
Lemma run_from_budget wf tools fuel b1 b2 o visited w c :
  visited_ok wf visited ->
  (size (steps wf) < length visited + b1)%nat ->
  (size (steps wf) < length visited + b2)%nat ->
  run_from py_eval wf tools fuel b1 o visited w c
  = run_from py_eval wf tools fuel b2 o visited w c.
Proof.
  revert b2 o visited w c.
  induction b1 as [|b1 IH]; intros b2 o visited w c Hok H1 H2.
  - pose proof (visited_ok_length _ _ Hok). lia.
  - destruct b2 as [|b2]; [pose proof (visited_ok_length _ _ Hok); lia|].
    simpl. destruct (str_truthy o); [|done].
    unfold bind.
    destruct (run_iteration _ _ _ _ _ _ _ _) as [nv w' c'| |] eqn:Hpass; try done.
    apply run_iteration_return in Hpass as (Hfresh & Hsome & Hsnd).
    rewrite Hsnd.
    apply IH; [by apply visited_ok_snoc | |]; rewrite length_app; simpl; lia.
Qed.

(** The top-level loop ends by itself: [run] can only fail to end where a
    handler does, that is in a nested chain. *)
Lemma run_from_ends wf tools fuel :
  (forall key s w c,
     steps wf !! key = Some s -> dispatch py_eval wf tools fuel s w c <> Diverge) ->
  forall budget o visited w c,
    visited_ok wf visited ->
    (size (steps wf) < length visited + budget)%nat ->
    run_from py_eval wf tools fuel budget o visited w c <> Diverge.
Proof.
  intros Hd budget. induction budget as [|budget IH]; intros o visited w c Hok Hb.
  - pose proof (visited_ok_length _ _ Hok). lia.
  - simpl. destruct (str_truthy o); [|done].
    unfold bind.
    destruct (run_iteration _ _ _ _ _ _ _ _) as [nv w' c'| |] eqn:Hpass; [|done|].
    + apply run_iteration_return in Hpass as (Hfresh & Hsome & Hsnd).
      rewrite Hsnd.
      apply IH; [by apply visited_ok_snoc | rewrite length_app; simpl; lia].
    + exfalso. revert Hpass. unfold run_iteration.
      case_bool_decide; [done|].
      unfold bind, lift, get_step, modify.
      destruct (steps wf !! default "" o) as [s|] eqn:Hs; [|done].
      pose proof (Hd _ s w (set_last_step_id (Some (step_id s)) c) Hs) as Hne.
      by destruct (dispatch _ _ _ _ _ _ _).
Qed.

Lemma run_ends wf tools fuel context w :
  (forall key s w c,
     steps wf !! key = Some s -> dispatch py_eval wf tools fuel s w c <> Diverge) ->
  run py_eval wf tools fuel context w <> Diverge.
Proof.
  intros Hd. rewrite run_unfold.
  pose proof (run_from_ends wf tools fuel Hd (S (size (steps wf)))
                (Some (start_step_id wf)) [] w (default new_context context)) as Hne.
  destruct (run_from _ _ _ _ _ _ _ _ _); [done|done|].
  exfalso. apply Hne; [|simpl; lia | done].
  split; [apply NoDup_nil_2 | by intros ? ?%elem_of_nil].
Qed.

(** C4.  At every point of a top-level traversal the steps gone through
    are pairwise distinct; and when the traversal comes to a step it has
    already gone through, [run] raises the cycle error that names this
    step, with the world and the context of that very point: the step has
    not run again. *)
Theorem cycle_detected wf tools fuel context w n k :
  traverse py_eval wf tools fuel n
    (start_config wf w (default new_context context)) k ->
  NoDup (seen k)
  /\ (forall sid, cur k = Some sid -> sid <> "" -> sid ∈ seen k ->
        run py_eval wf tools fuel context w
        = Raise (cycle_error wf sid) (world k) (ctx k)).
Proof.
  intros Htr.
  assert (Hstart : visited_ok wf
            (seen (start_config wf w (default new_context context)))).
  { split; [apply NoDup_nil_2 | by intros ? ?%elem_of_nil]. }
  destruct (traverse_visited _ _ _ _ _ _ Htr Hstart) as [Hok Hlen].
  split; [apply Hok|].
  intros sid Hcur Hne Hin.
  simpl in Hlen.
  pose proof (visited_ok_length _ _ Hok) as Hle. rewrite Hlen in Hle.
  rewrite run_unfold.
  replace (S (size (steps wf))) with (n + S (size (steps wf) - n))%nat by lia.
  rewrite (run_from_traverse _ _ _ _ _ _ _ Htr : run_from _ _ _ _ _ _ _ _ _ = _).
  rewrite Hcur, run_from_pass, run_iteration_seen by done.
  reflexivity.
Qed.

(** ** What the handlers leave alone *)

Section Preservation.

Variable R : WorkflowContext -> WorkflowContext -> Prop.
Hypothesis R_refl : forall c, R c c.
Hypothesis R_trans : forall c1 c2 c3, R c1 c2 -> R c2 c3 -> R c1 c3.

Lemma preserves_ret {A} (a : A) : preserves (W:=W) R (ret a).
Proof. intros w c. apply R_refl. Qed.

Lemma preserves_lift {A} (r : result A) : preserves (W:=W) R (lift r).
Proof. intros w c. unfold lift. destruct r; apply R_refl. Qed.

Lemma preserves_bind {A B} (m : M W A) (f : A -> M W B) :
  preserves R m -> (forall a, preserves R (f a)) -> preserves R (bind m f).
Proof.
  intros Hm Hf w c. unfold bind. specialize (Hm w c).
  destruct (m w c) as [a w' c'| |]; [|done|done].
  specialize (Hf a w' c'). destruct (f a w' c'); eauto.
Qed.

Lemma preserves_for_each {A} (l : list A) (body : A -> M W unit) :
  (forall x, preserves R (body x)) -> preserves R (for_each l body).
Proof.
  intros Hbody. induction l as [|x l IH]; simpl.
  - apply preserves_ret.
  - apply preserves_bind; [apply Hbody | intros _; apply IH].
Qed.

Lemma condition_step_untouched step w c :
  match _run_condition_step py_eval step w c with
  | Return _ w' c' => w' = w /\ c' = c
  | Raise _ w' c' => w' = w /\ c' = c
  | Diverge => False
  end.
Proof.
  unfold _run_condition_step, follow_branch.
  destruct (evaluate_condition _ _ _); [|done].
  destruct (negb (list_truthy _)); [done|].
  by destruct (1 <? _)%nat.
Qed.

Lemma preserves_condition step : preserves (W:=W) R (_run_condition_step py_eval step).
Proof.
  intros w c. pose proof (condition_step_untouched step w c) as H.
  destruct (_run_condition_step _ _ _ _) as [? ? ?|? ? ?|];
    [destruct H as [_ ->]..|done]; apply R_refl.
Qed.

Variable wf : Workflow.
Variable tools : gmap string (Tool W).
Hypothesis R_tool : forall key s,
  steps wf !! key = Some s -> step_type s = TOOL ->
  preserves R (_run_tool_step s tools).

Lemma preserves_get_step {A} key (f : WorkflowStep -> M W A) :
  (forall s, steps wf !! key = Some s -> preserves R (f s)) ->
  preserves R (bind (lift (get_step wf key)) f).
Proof.
  intros Hf w c. unfold bind, lift, get_step.
  destruct (steps wf !! key) as [s|] eqn:Hs; [by apply Hf | apply R_refl].
Qed.

Lemma preserves_nested_chain fuel o : preserves R (nested_chain wf tools fuel o).
Proof.
  revert o. induction fuel as [|fuel IH]; intros o.
  - intros w c. simpl. destruct (str_truthy o); [done | apply R_refl].
  - simpl. destruct (str_truthy o); [|apply preserves_ret].
    apply preserves_get_step. intros s Hs.
    destruct (step_type s) eqn:Hty; try apply preserves_ret.
    apply preserves_bind; [by eapply R_tool | intros next; apply IH].
Qed.

Lemma preserves_run_child fuel child :
  preserves R (run_child py_eval wf tools fuel child).
Proof.
  unfold run_child. apply preserves_get_step. intros s Hs.
  destruct (step_type s) eqn:Hty; try apply preserves_ret.
  - apply preserves_bind; [by eapply R_tool | intros _; apply preserves_ret].
  - apply preserves_bind; [apply preserves_condition|].
    intros next. destruct (str_truthy next);
      [apply preserves_nested_chain | apply preserves_ret].
Qed.

Lemma preserves_parallel fuel step :
  preserves R (_run_parallel_step py_eval wf tools fuel step).
Proof.
  unfold _run_parallel_step.
  destruct (negb (list_truthy _)); [apply preserves_ret|].
  apply preserves_bind; [|intros _; apply preserves_ret].
  apply preserves_for_each. intros child. apply preserves_run_child.
Qed.

Lemma preserves_loop_while fuel step budget iterations :
  preserves R (loop_while py_eval wf tools fuel step budget iterations).
Proof.
  revert iterations. induction budget as [|budget IH]; intros iterations w c; simpl;
    (destruct (iterations <? max_iterations step); [|apply R_refl]);
    (destruct (evaluate_loop_condition _ _ _); [|apply R_refl]);
    (destruct (truthy a); [|apply R_refl]); [done|].
  revert w c. apply preserves_bind; [|intros _; apply IH].
  apply preserves_for_each. intros child. apply preserves_run_child.
Qed.

Lemma preserves_loop fuel step :
  preserves R (_run_loop_step py_eval wf tools fuel step).
Proof.
  unfold _run_loop_step.
  destruct (negb (list_truthy _)); [apply preserves_ret|].
  apply preserves_bind; [apply preserves_loop_while | intros _; apply preserves_ret].
Qed.

Lemma preserves_dispatch fuel key step :
  steps wf !! key = Some step ->
  preserves R (dispatch py_eval wf tools fuel step).
Proof.
  intros Hs. unfold dispatch. destruct (step_type step) eqn:Hty.
  - by eapply R_tool.
  - apply preserves_condition.
  - apply preserves_parallel.
  - apply preserves_loop.
Qed.

End Preservation.

(** ** The ledger and the pointers *)

Lemma tool_step_return step tools w c next w' c' :
  _run_tool_step step tools w c = Return next w' c' ->
  exists res err,
    step_results c' = dict_set (step_results c) (step_id step) (step_entry res err)
    /\ last_result c' = res
    /\ last_step_id c' = last_step_id c
    /\ (err = VNone \/ (res = VNone /\ exists msg, err = VStr msg)).
Proof.
  unfold _run_tool_step.
  destruct (negb (str_truthy (tool_name step))); [done|].
  destruct (tools !! _) as [tool|]; [|done].
  destruct (resolve_params _ _) as [params|]; [|done].
  destruct (tool_attempt _ _ _ _) as [[res|exc] w1].
  - intros [= _ _ <-]. exists res, VNone.
    destruct (str_truthy (output_key step)); simpl; eauto.
  - destruct (str_truthy (on_error step)).
    + intros [= _ _ <-]. exists VNone, (VStr (str_exn exc)). simpl. eauto 10.
    + destruct (negb (continue_on_error step)); [done|].
      intros [= _ _ <-]. exists VNone, (VStr (str_exn exc)). simpl. eauto 10.
Qed.

Lemma tool_step_raise step tools w c e w' c' :
  _run_tool_step step tools w c = Raise e w' c' ->
  step_results c' = step_results c
  /\ data c' = data c
  /\ last_step_id c' = last_step_id c.
Proof.
  unfold _run_tool_step.
  destruct (negb (str_truthy (tool_name step))); [by intros [= _ _ <-]|].
  destruct (tools !! _) as [tool|]; [|by intros [= _ _ <-]].
  destruct (resolve_params _ _) as [params|]; [|by intros [= _ _ <-]].
  destruct (tool_attempt _ _ _ _) as [[res|exc] w1]; [done|].
  destruct (str_truthy (on_error step)); [done|].
  destruct (negb (continue_on_error step)); [|done].
  by intros [= _ _ <-].
Qed.

Lemma tool_step_ends step tools w c : _run_tool_step step tools w c <> Diverge.
Proof.
  unfold _run_tool_step.
  destruct (negb (str_truthy (tool_name step))); [done|].
  destruct (tools !! _) as [tool|]; [|done].
  destruct (resolve_params _ _) as [params|]; [|done].
  destruct (tool_attempt _ _ _ _) as [[res|exc] w1]; [done|].
  destruct (str_truthy (on_error step)); [done|].
  by destruct (negb (continue_on_error step)).
Qed.

Lemma tool_step_same_last_step_id step tools :
  preserves same_last_step_id (_run_tool_step step tools).
Proof.
  intros w c. unfold same_last_step_id.
  destruct (_run_tool_step step tools w c) as [next w' c'|e w' c'|] eqn:Hrun; [| |done].
  - apply tool_step_return in Hrun as (res & err & _ & _ & Hid & _). done.
  - apply tool_step_raise in Hrun as (_ & _ & Hid). done.
Qed.

Lemma writes_tool_entries_refl wf c : writes_tool_entries wf c c.
Proof. intros sid. by left. Qed.

Lemma writes_tool_entries_trans wf c1 c2 c3 :
  writes_tool_entries wf c1 c2 -> writes_tool_entries wf c2 c3 ->
  writes_tool_entries wf c1 c3.
Proof.
  intros H12 H23 sid.
  destruct (H12 sid) as [E12|?]; [|by right].
  destruct (H23 sid) as [E23|?]; [|by right].
  left. congruence.
Qed.

Lemma tool_step_writes_tool_entries wf tools key step :
  steps wf !! key = Some step -> step_type step = TOOL ->
  preserves (writes_tool_entries wf) (_run_tool_step step tools).
Proof.
  intros Hs Hty w c.
  destruct (_run_tool_step step tools w c) as [next w' c'|e w' c'|] eqn:Hrun; [| |done].
  - apply tool_step_return in Hrun as (res & err & Hres & _).
    intros sid. destruct (decide (step_id step = sid)) as [<-|Hne].
    + right. by exists key, step.
    + left. rewrite Hres. by apply dict_get_set_ne.
  - apply tool_step_raise in Hrun as (Hres & _).
    intros sid. left. by rewrite Hres.
Qed.

(** C5 (amended).  A TOOL step that returns (after a success, an
    [on_error] redirection or a swallowed error) has written exactly one
    entry, under its own id, over whatever entry was there; a TOOL step
    that raises has written none.  Executing a step that is not a TOOL
    step, at the top level with its children included, writes no entry
    under the id of that step. *)
Theorem step_results_written_by_tool_steps wf tools fuel step w c :
  (forall next w' c',
     _run_tool_step step tools w c = Return next w' c' ->
     exists res err,
       step_results c' = dict_set (step_results c) (step_id step) (step_entry res err)
       /\ dict_get (step_results c') (step_id step) = Some (step_entry res err))
  /\ (forall e w' c',
     _run_tool_step step tools w c = Raise e w' c' ->
     step_results c' = step_results c)
  /\ (forall key, steps wf !! key = Some step ->
     ~ tool_step_id wf (step_id step) ->
     match dispatch py_eval wf tools fuel step w c with
     | Return _ _ c' =>
         dict_get (step_results c') (step_id step)
         = dict_get (step_results c) (step_id step)
     | Raise _ _ c' =>
         dict_get (step_results c') (step_id step)
         = dict_get (step_results c) (step_id step)
     | Diverge => True
     end).
Proof.
  assert (Hdisp : forall key, steps wf !! key = Some step ->
            preserves (writes_tool_entries wf) (dispatch py_eval wf tools fuel step)).
  { intros key Hs.
    apply (preserves_dispatch (writes_tool_entries wf)
             (writes_tool_entries_refl wf) (writes_tool_entries_trans wf)
             wf tools) with (key := key); [|done].
    intros key' s Hs' Hty. by apply (tool_step_writes_tool_entries wf tools key'). }
  split; [|split].
  - intros next w' c' Hrun.
    apply tool_step_return in Hrun as (res & err & Hres & _).
    exists res, err. split; [done|]. rewrite Hres. apply dict_get_set_eq.
  - intros e w' c' Hrun. by apply tool_step_raise in Hrun as (Hres & _).
  - intros key Hs Hnot. specialize (Hdisp key Hs w c).
    destruct (dispatch _ _ _ _ _ _ _) as [? ? c'|? ? c'|]; [| |done];
      by destruct (Hdisp (step_id step)).
Qed.







(** ** Template references *)

Lemma endswith_brace s : endswith (s ++ "}") "}" = true.
Proof.
  unfold endswith.
  assert (Hlen : String.length (s ++ "}") = S (String.length s)).
  { induction s as [|a s IH]; simpl; [done | by rewrite IH]. }
  rewrite Hlen. simpl. rewrite Nat.sub_0_r.
  assert (substring (String.length s) 1 (s ++ "}") = "}") as ->; [|done].
  clear Hlen. induction s as [|a s IH]; simpl; [done | apply IH].
Qed.

Lemma slice_template p : slice_2_m1 ("${" ++ p ++ "}") = p.
Proof.
  unfold slice_2_m1. simpl.
  assert (Hlen : String.length (p ++ "}") = S (String.length p)).
  { induction p as [|a p IH]; simpl; [done | by rewrite IH]. }
  change (substring 0 (String.length (p ++ "}") - 1) (p ++ "}") = p).
  rewrite Hlen. simpl. rewrite Nat.sub_0_r.
  clear Hlen. induction p as [|a p IH]; simpl; [done | by rewrite IH].
Qed.

Lemma template_recognised p context :
  _resolve_value (VStr ("${" ++ p ++ "}")) context = _resolve_path p context.
Proof.
  unfold _resolve_value.
  assert (startswith ("${" ++ p ++ "}") "${" = true) as ->.
  { unfold startswith.
    change ("${" ++ p ++ "}") with (String "$" (String "{" (p ++ "}"))).
    simpl. by destruct (p ++ "}"). }
  assert (endswith ("${" ++ p ++ "}") "}" = true) as ->
    by apply (endswith_brace ("${" ++ p)).
  simpl. by rewrite slice_template.
Qed.

Lemma split_dot_cons s : exists h t, split_dot s = h :: t.
Proof.
  induction s as [|a s (h & t & IH)]; simpl; [eauto|].
  destruct (Ascii.eqb a "."); [eauto|]. rewrite IH. eauto.
Qed.

(** A prefix without a dot is the first part. *)
Lemma split_dot_prefix a b :
  split_dot a = [a] -> split_dot (a ++ "." ++ b) = a :: split_dot b.
Proof.
  induction a as [|x a IH]; simpl; [done|].
  destruct (Ascii.eqb x "."); [done|].
  destruct (split_dot a) as [|h t] eqn:Ha.
  - destruct (split_dot_cons a) as (h & t & Hcons). congruence.
  - intros [= -> ->]. by rewrite IH.
Qed.

Lemma join_split_dot s : join_dot (split_dot s) = s.
Proof.
  unfold join_dot. induction s as [|a s IH]; simpl; [done|].
  destruct (split_dot_cons s) as (h & t & Hs). rewrite Hs in *.
  destruct (Ascii.eqb a ".") eqn:Ha.
  - apply Ascii.eqb_eq in Ha as ->. simpl in *. by rewrite IH.
  - destruct t; simpl in *; [by rewrite IH | by rewrite <- IH].
Qed.

(** [${context.k}] looks [k] up in the dict the resolver is given. *)
Lemma resolve_context_reference k context :
  _resolve_value (VStr ("${context." ++ k ++ "}")) context = Ok (py_get context k).
Proof.
  change ("${context." ++ k ++ "}") with ("${" ++ ("context." ++ k) ++ "}").
  rewrite template_recognised. unfold _resolve_path.
  change ("context." ++ k) with ("context" ++ "." ++ k).
  rewrite split_dot_prefix by done. simpl.
  by rewrite join_split_dot.
Qed.

(** In the dict the TOOL handler builds, only the keys [context] and
    [step_results] exist: a reference to a key of [data] finds nothing. *)
Lemma resolve_context_reference_in_handler k c :
  k <> "context" -> k <> "step_results" ->
  _resolve_value (VStr ("${context." ++ k ++ "}")) (handler_env c) = Ok VNone.
Proof.
  intros H1 H2. rewrite resolve_context_reference.
  unfold py_get, handler_env. rewrite !dict_get_cons.
  assert (String.eqb "context" k = false) as -> by (apply String.eqb_neq; congruence).
  assert (String.eqb "step_results" k = false) as ->
    by (apply String.eqb_neq; congruence).
  done.
Qed.

(** [${sid.result}] finds the result in the entry of step [sid], and
    nothing when the step has left no entry. *)
Lemma resolve_step_result sid c :
  split_dot sid = [sid] -> sid <> "context" ->
  _resolve_value (VStr ("${" ++ (sid ++ ".result") ++ "}")) (handler_env c) =
    match dict_get (step_results c) sid with
    | Some entry => value_get entry "result" VNone
    | None => Ok VNone
    end.
Proof.
  intros Hsid Hne.
  rewrite template_recognised. unfold _resolve_path.
  change (sid ++ ".result") with (sid ++ "." ++ "result").
  rewrite split_dot_prefix by done. simpl.
  assert (String.eqb sid "context" = false) as -> by by apply String.eqb_neq.
  by destruct (dict_get (step_results c) sid).
Qed.

Lemma resolve_executed_step_result sid c res err :
  split_dot sid = [sid] -> sid <> "context" ->
  dict_get (step_results c) sid = Some (step_entry res err) ->
  _resolve_value (VStr ("${" ++ (sid ++ ".result") ++ "}")) (handler_env c) = Ok res.
Proof. intros Hsid Hne He. rewrite resolve_step_result by done. by rewrite He. Qed.

Lemma resolve_unexecuted_step_result sid c :
  split_dot sid = [sid] -> sid <> "context" ->
  dict_get (step_results c) sid = None ->
  _resolve_value (VStr ("${" ++ (sid ++ ".result") ++ "}")) (handler_env c) = Ok VNone.
Proof. intros Hsid Hne He. rewrite resolve_step_result by done. by rewrite He. Qed.

(** A walk that meets a missing key, or a value that is no dict and no
    sequence, ends in [None]. *)
Lemma nested_missing_key d key path :
  dict_get d key = None -> _get_nested_value (VDict d) (key :: path) = Ok VNone.
Proof. intros H. simpl. unfold py_get. by rewrite H. Qed.

Lemma nested_scalar obj key path :
  (forall d, obj <> VDict d) -> (forall l, obj <> VList l) ->
  (forall l, obj <> VTuple l) ->
  _get_nested_value obj (key :: path) = Ok VNone.
Proof.
  intros Hd Hl Ht.
  destruct obj as [| | | |l|l|d]; simpl; try done;
    [by destruct (Hl l) | by destruct (Ht l) | by destruct (Hd d)].
Qed.

(** A walk past the end of a list raises. *)
Lemma nested_out_of_range l key path :
  isdigit key = true -> (length l <= int_of_digits key)%nat ->
  _get_nested_value (VList l) (key :: path)
  = Exc (IndexError "list index out of range").
Proof.
  intros Hd Hlen. simpl. rewrite Hd.
  by rewrite (proj2 (nth_error_None l (int_of_digits key))).
Qed.

(** ** Where predicates and references fail *)

Lemma digits_have_no_dot key : isdigit key = true -> split_dot key = [key].
Proof.
  unfold isdigit. intros [_ Hd]%andb_prop. revert Hd.
  induction key as [|a key IH]; simpl; [done|].
  intros [Ha Hd]%andb_prop.
  assert (Ascii.eqb a "." = false) as ->.
  { apply Ascii.eqb_neq. intros ->. discriminate Ha. }
  by rewrite (IH Hd).
Qed.

Lemma resolve_failure_is_fatal step tools tool e w c :
  str_truthy (tool_name step) = true ->
  tools !! default "" (tool_name step) = Some tool ->
  resolve_params step (handler_env c) = Exc e ->
  _run_tool_step step tools w c = Raise e w c.
Proof.
  intros Hname Htool Hres. unfold _run_tool_step.
  by rewrite Hname, Htool, Hres.
Qed.

(** C6, what the code does instead.  A predicate given as a function is
    called as it is: when it raises on the context, [evaluate_condition]
    and [evaluate_loop_condition] raise the same exception, the CONDITION
    handler raises it and so does a top-level traversal that meets the
    step; a LOOP step with iterations to make raises it too. *)
Theorem injected_predicate_failure_propagates step f e c :
  f (handler_env c) = Exc e ->
  (condition step = Some f ->
     evaluate_condition py_eval step (handler_env c) = Exc e
     /\ (forall w, _run_condition_step py_eval step w c = Raise e w c)
     /\ (forall wf tools fuel budget key visited w,
           steps wf !! key = Some step -> step_type step = CONDITION ->
           key <> "" -> key ∉ visited ->
           run_from py_eval wf tools fuel (S budget) (Some key) visited w c
           = Raise e w (entered step c)))
  /\ (loop_condition step = Some f ->
     evaluate_loop_condition py_eval step (handler_env c) = Exc e
     /\ (forall wf tools fuel w,
           list_truthy (loop_steps step) = true -> 0 < max_iterations step ->
           _run_loop_step py_eval wf tools fuel step w c = Raise e w c)).
Proof.
  intros Hf. split.
  - intros Hc.
    assert (Hev : evaluate_condition py_eval step (handler_env c) = Exc e)
      by (unfold evaluate_condition; by rewrite Hc).
    assert (Hrun : forall w c0, handler_env c0 = handler_env c ->
              _run_condition_step py_eval step w c0 = Raise e w c0).
    { intros w c0 Henv. unfold _run_condition_step. by rewrite Henv, Hev. }
    split; [done|]. split; [intros w; by apply Hrun|].
    intros wf tools fuel budget key visited w Hstep Hty Hkey Hfresh.
    apply (top_level_raise _ _ _ _ _ _ step); try done.
    unfold dispatch. rewrite Hty. by apply Hrun.
  - intros Hc.
    assert (Hev : evaluate_loop_condition py_eval step (handler_env c) = Exc e)
      by (unfold evaluate_loop_condition; by rewrite Hc).
    split; [done|].
    intros wf tools fuel w Hl Hmax. unfold _run_loop_step. rewrite Hl. simpl.
    unfold bind.
    assert (loop_while py_eval wf tools fuel step
              (Z.to_nat (max_iterations step)) 0 w c = Raise e w c) as ->; [|done].
    destruct (Z.to_nat (max_iterations step)); simpl;
      rewrite (proj2 (Z.ltb_lt 0 (max_iterations step)) Hmax), Hev; done.
Qed.

(** C7, what the code does instead.  In the dict the TOOL handler gives
    the resolver, a reference [${context.k}] finds nothing, whatever the
    context data hold under [k]; and a reference that indexes the list
    result of a step past its end raises [IndexError].  An exception of
    the resolver leaves the TOOL handler before its [try] block: no error
    wiring of the step catches it. *)
Theorem context_reference_misses_data k c :
  k <> "context" -> k <> "step_results" ->
  _resolve_value (VStr ("${context." ++ k ++ "}")) (handler_env c) = Ok VNone
  /\ (forall sid l err key,
        split_dot sid = [sid] -> sid <> "context" ->
        dict_get (step_results c) sid = Some (step_entry (VList l) err) ->
        isdigit key = true -> (length l <= int_of_digits key)%nat ->
        _resolve_value (VStr ("${" ++ (sid ++ ".result." ++ key) ++ "}"))
          (handler_env c)
        = Exc (IndexError "list index out of range"))
  /\ (forall step tools tool e w,
        str_truthy (tool_name step) = true ->
        tools !! default "" (tool_name step) = Some tool ->
        resolve_params step (handler_env c) = Exc e ->
        _run_tool_step step tools w c = Raise e w c).
Proof.
  intros H1 H2. split; [by apply resolve_context_reference_in_handler|].
  split; [|intros; by eapply resolve_failure_is_fatal].
  intros sid l err key Hsid Hne Hentry Hdig Hlen.
  rewrite template_recognised. unfold _resolve_path.
  change (sid ++ ".result." ++ key) with (sid ++ "." ++ ("result" ++ "." ++ key)).
  rewrite split_dot_prefix by done.
  rewrite (split_dot_prefix "result" key) by done.
  rewrite (digits_have_no_dot key Hdig).
  cbn [hd tl length Nat.eqb].
  assert (String.eqb sid "context" = false) as -> by by apply String.eqb_neq.
  unfold handler_env. rewrite !dict_get_cons. cbn [String.eqb Ascii.eqb Bool.eqb].
  unfold value_get, rbind. rewrite Hentry.
  unfold step_entry. cbn [_get_nested_value py_get dict_get String.eqb Ascii.eqb
                          Bool.eqb is_none].
  rewrite Hdig.
  by rewrite (proj2 (nth_error_None l (int_of_digits key))).
Qed.

(** * Further properties of the code *)

(** ** Building a workflow *)

Lemma add_steps_lookup l :
  forall wf0 wf,
    add_steps wf0 l = Ok wf ->
    NoDup (map step_id l)
    /\ (forall s, s ∈ l -> steps wf0 !! step_id s = None)
    /\ (forall s, s ∈ l -> steps wf !! step_id s = Some s)
    /\ (forall key, key ∉ map step_id l -> steps wf !! key = steps wf0 !! key)
    /\ workflow_id wf = workflow_id wf0
    /\ start_step_id wf = start_step_id wf0.
Proof.
  induction l as [|x l IH]; intros wf0 wf Hbuild; simpl in Hbuild.
  - injection Hbuild as <-. repeat split; try done.
    + apply NoDup_nil_2.
    + by intros s ?%elem_of_nil.
    + by intros s ?%elem_of_nil.
  - unfold add_step in Hbuild.
    destruct (steps wf0 !! step_id x) eqn:Hx; [done|]. simpl in Hbuild.
    apply IH in Hbuild as (Hnd & Hfresh & Hin & Hout & Hid & Hstart).
    simpl in *.
    assert (Hnotin : step_id x ∉ map step_id l).
    { intros (s & Hs & Hsl)%list_elem_of_fmap.
      specialize (Hfresh s Hsl). rewrite <- Hs in Hfresh.
      by rewrite lookup_insert_eq in Hfresh. }
    split; [by apply NoDup_cons|].
    split.
    { intros s [->|Hs]%elem_of_cons; [done|].
      specialize (Hfresh s Hs).
      apply lookup_insert_None in Hfresh. tauto. }
    split.
    { intros s [->|Hs]%elem_of_cons; [|by apply Hin].
      rewrite Hout by done. apply lookup_insert_eq. }
    split; [|done].
    intros key Hkey. apply not_elem_of_cons in Hkey as [Hne Hkey].
    rewrite Hout by done. by apply lookup_insert_ne.
Qed.

(** X1.  [add_step] registers a step exactly when its id is free: the
    step is then found by [get_step] under its id, every other id finds
    what it found before, and the workflow has one step more; when the id
    is taken, [add_step] raises a [ValueError]. *)
Theorem add_step_registers wf step :
  (steps wf !! step_id step = None ->
     exists wf',
       add_step wf step = Ok wf'
       /\ get_step wf' (step_id step) = Ok step
       /\ (forall key, key <> step_id step -> get_step wf' key = get_step wf key)
       /\ size (steps wf') = S (size (steps wf)))
  /\ (forall old, steps wf !! step_id step = Some old ->
        exists msg, add_step wf step = Exc (ValueError msg)
        /\ get_step wf (step_id step) = Ok old).
Proof.
  split.
  - intros Hfree. eexists. unfold add_step. rewrite Hfree.
    split; [done|]. unfold get_step. simpl.
    split; [by rewrite lookup_insert_eq|].
    split; [|by apply map_size_insert_None].
    intros key Hne. by rewrite lookup_insert_ne.
  - intros old Hold. unfold add_step, get_step. rewrite Hold. eauto.
Qed.

(** X2.  Registering a list of steps one after the other succeeds exactly
    when their ids are pairwise distinct; the workflow built that way from
    an empty one holds each step under its own id, and nothing else. *)
Theorem add_steps_builds i start l :
  (NoDup (map step_id l) <->
     exists wf, add_steps (empty_workflow i start) l = Ok wf)
  /\ (forall wf,
        add_steps (empty_workflow i start) l = Ok wf ->
        keyed_by_id wf
        /\ (forall s, s ∈ l -> get_step wf (step_id s) = Ok s)
        /\ (forall key, is_Some (steps wf !! key) <-> key ∈ map step_id l)
        /\ size (steps wf) = length l).
Proof.
  assert (Hconv : forall l wf0,
            NoDup (map step_id l) ->
            (forall s, s ∈ l -> steps wf0 !! step_id s = None) ->
            exists wf, add_steps wf0 l = Ok wf).
  { clear l. induction l as [|x l IH]; intros wf0 Hnd Hfresh; simpl; [eauto|].
    apply NoDup_cons in Hnd as [Hx Hnd].
    unfold add_step. rewrite (Hfresh x) by apply list_elem_of_here. simpl.
    apply IH; [done|]. intros s Hs. simpl.
    rewrite lookup_insert_ne; [apply Hfresh; by apply list_elem_of_further|].
    intros Heq. apply Hx. rewrite Heq. by apply list_elem_of_fmap_2. }
  assert (Hkeys : forall wf,
            add_steps (empty_workflow i start) l = Ok wf ->
            forall key, is_Some (steps wf !! key) <-> key ∈ map step_id l).
  { intros wf Hbuild key.
    apply add_steps_lookup in Hbuild as (_ & _ & Hin & Hout & _).
    destruct (decide (key ∈ map step_id l)) as [Hk|Hk].
    - split; [done|]. intros _.
      apply list_elem_of_fmap in Hk as (s & -> & Hs). rewrite (Hin s Hs). eauto.
    - rewrite (Hout key Hk). simpl. rewrite lookup_empty.
      split; [by intros [? ?] | done]. }
  split.
  - split.
    + intros Hnd. apply Hconv; [done|]. intros s _. apply lookup_empty.
    + intros [wf Hbuild]. by apply add_steps_lookup in Hbuild as (Hnd & _).
  - intros wf Hbuild.
    pose proof (Hkeys wf Hbuild) as Hk.
    pose proof Hbuild as (Hnd & _ & Hin & Hout & _)%add_steps_lookup.
    split.
    { intros key s Hs.
      assert (key ∈ map step_id l) as (s' & -> & Hs')%list_elem_of_fmap
        by (apply Hk; eauto).
      rewrite (Hin s' Hs') in Hs. by injection Hs as <-. }
    split.
    { intros s Hs. unfold get_step. by rewrite (Hin s Hs). }
    split; [done|].
    rewrite <- (length_map step_id l).
    rewrite <- (size_list_to_set (C:=gset string) (map step_id l)) by done.
    rewrite <- size_dom. f_equal. apply set_eq. intros key.
    rewrite elem_of_dom, elem_of_list_to_set. apply Hk.
Qed.

(** ** A TOOL step that succeeds *)

Lemma tool_attempt_succeeds tool step params v res w w1 w' :
  validate tool params w = (Ok v, w1) ->
  truthy v = true ->
  execute tool params w1 = (Ok res, w') ->
  tool_attempt tool step params w = (Ok res, w').
Proof. intros Hv Ht He. unfold tool_attempt. by rewrite Hv, Ht. Qed.

(** X3.  When the tool of a TOOL step is found, its parameters resolve,
    [validate] answers true and [execute] returns [res]: the handler
    returns no next step, with [last_result] set to [res], the entry of
    the step set to [{result: res, error: None}], a non-empty
    [output_key] set to [res] in the data, and [last_step_id] as it was.
    At the top level the traversal ends after this step, whatever other
    steps are registered. *)
Theorem tool_step_success step tools tool params v res w w1 w' c :
  str_truthy (tool_name step) = true ->
  tools !! default "" (tool_name step) = Some tool ->
  resolve_params step (handler_env c) = Ok params ->
  validate tool params w = (Ok v, w1) ->
  truthy v = true ->
  execute tool params w1 = (Ok res, w') ->
  (exists c',
     _run_tool_step step tools w c = Return None w' c'
     /\ last_result c' = res
     /\ dict_get (step_results c') (step_id step) = Some (step_entry res VNone)
     /\ (forall k, output_key step = Some k -> k <> "" ->
           dict_get (data c') k = Some res)
     /\ last_step_id c' = last_step_id c)
  /\ (forall wf fuel budget key visited,
        steps wf !! key = Some step -> step_type step = TOOL ->
        key <> "" -> key ∉ visited ->
        exists c',
          run_from py_eval wf tools fuel (S budget) (Some key) visited w c
          = Return (visited ++ [key])%list w' c'
          /\ last_step_id c' = Some (step_id step)
          /\ last_result c' = res
          /\ dict_get (step_results c') (step_id step)
             = Some (step_entry res VNone)).
Proof.
  intros Hname Htool Hparams Hv Ht He.
  pose proof (tool_attempt_succeeds tool step params v res w w1 w' Hv Ht He) as Hatt.
  assert (Hrun : forall c0, handler_env c0 = handler_env c ->
            _run_tool_step step tools w c0 = Return None w' (record_success step res c0)).
  { intros c0 Henv. unfold _run_tool_step.
    by rewrite Hname, Htool, Henv, Hparams, Hatt. }
  assert (Hlast : forall c0, last_result (record_success step res c0) = res).
  { intros c0. unfold record_success. by destruct (str_truthy (output_key step)). }
  assert (Hentry : forall c0,
            dict_get (step_results (record_success step res c0)) (step_id step)
            = Some (step_entry res VNone)).
  { intros c0. unfold record_success. apply dict_get_set_eq. }
  assert (Hid : forall c0,
            last_step_id (record_success step res c0) = last_step_id c0).
  { intros c0. unfold record_success. by destruct (str_truthy (output_key step)). }
  split.
  - exists (record_success step res c).
    split; [by apply Hrun|]. split; [apply Hlast|]. split; [apply Hentry|].
    split; [|apply Hid].
    intros k Hk Hne. unfold record_success. rewrite Hk. simpl.
    assert (String.eqb k "" = false) as -> by by apply String.eqb_neq.
    simpl. apply dict_get_set_eq.
  - intros wf fuel budget key visited Hstep Hty Hkey Hfresh.
    exists (record_success step res (entered step c)).
    split; [|split; [by rewrite Hid | split; [apply Hlast | apply Hentry]]].
    rewrite run_from_pass by done.
    rewrite (run_iteration_fresh _ _ _ _ _ step) by done.
    unfold dispatch. rewrite Hty, Hrun by done. simpl.
    by apply run_from_stop.
Qed.


(** X4.  What a TOOL step has stored, a later reference finds: after a
    TOOL step with a dot-free id other than [context] has returned,
    [${id.result}] resolves to its [last_result] and [${id.error}] to the
    error of its entry, and a step whose parameter is [${id.result}] is
    handed that result. *)
Theorem stored_result_is_resolved step tools next w w' c c' :
  _run_tool_step step tools w c = Return next w' c' ->
  split_dot (step_id step) = [step_id step] ->
  step_id step <> "context" ->
  exists err,
    _resolve_value (VStr ("${" ++ (step_id step ++ ".result") ++ "}"))
      (handler_env c') = Ok (last_result c')
    /\ _resolve_value (VStr ("${" ++ (step_id step ++ ".error") ++ "}"))
         (handler_env c') = Ok err
    /\ dict_get (step_results c') (step_id step)
       = Some (step_entry (last_result c') err)
    /\ (forall later p,
          tool_params later = [(p, VStr ("${" ++ (step_id step ++ ".result") ++ "}"))] ->
          resolve_params later (handler_env c') = Ok [(p, last_result c')]).
Proof.
  intros Hrun Hsid Hne.
  apply tool_step_return in Hrun as (res & err & Hres & Hlast & _ & _).
  assert (Hentry : dict_get (step_results c') (step_id step)
                   = Some (step_entry res err))
    by (rewrite Hres; apply dict_get_set_eq).
  assert (Hresult : _resolve_value
            (VStr ("${" ++ (step_id step ++ ".result") ++ "}")) (handler_env c')
            = Ok res)
    by by apply (resolve_executed_step_result _ _ res err).
  exists err. rewrite Hlast.
  split; [done|]. split; [|split; [done|]].
  - rewrite template_recognised. unfold _resolve_path.
    change (step_id step ++ ".error") with (step_id step ++ "." ++ "error").
    rewrite split_dot_prefix by done.
    cbn [split_dot hd tl length Nat.eqb nth Ascii.eqb Bool.eqb].
    assert (String.eqb (step_id step) "context" = false) as ->
      by by apply String.eqb_neq.
    unfold handler_env. rewrite !dict_get_cons.
    cbn [String.eqb Ascii.eqb Bool.eqb]. unfold value_get, rbind.
    rewrite Hentry. reflexivity.
  - intros later p Hp. unfold resolve_params. rewrite Hp.
    cbn [resolve_items]. by rewrite Hresult.
Qed.

(** X5.  When [validate] answers false, [execute] is not called: the
    world is as [validate] left it, the error is the engine's own
    [ToolExecutionError], routed as any tool error, its text names the
    tool and the step, and a tool that differs in [execute] alone gives
    the same outcome. *)
Theorem failed_validation_skips_execute step tools tool params v w w1 c :
  str_truthy (tool_name step) = true ->
  tools !! default "" (tool_name step) = Some tool ->
  resolve_params step (handler_env c) = Ok params ->
  validate tool params w = (Ok v, w1) ->
  truthy v = false ->
  let exc := ToolExecutionError (name tool)
               ("Validation failed for tool '" ++ name tool
                ++ "' in step '" ++ step_id step ++ "'") in
  _run_tool_step step tools w c =
    (if str_truthy (on_error step) then
       Return (on_error step) w1 (record_failure step exc c)
     else if continue_on_error step then
       Return None w1 (record_failure step exc c)
     else Raise exc w1 (set_last_result VNone c))
  /\ dict_get (step_results (record_failure step exc c)) (step_id step)
     = Some (step_entry VNone
               (VStr ("Tool '" ++ name tool
                      ++ "' execution failed: Validation failed for tool '"
                      ++ name tool ++ "' in step '" ++ step_id step ++ "'")))
  /\ (forall other,
        name other = name tool -> validate other = validate tool ->
        _run_tool_step step (<[default "" (tool_name step) := other]> tools) w c
        = _run_tool_step step tools w c).
Proof.
  intros Hname Htool Hparams Hv Hf exc.
  assert (Hrun : forall tools0 tool0,
            tools0 !! default "" (tool_name step) = Some tool0 ->
            name tool0 = name tool -> validate tool0 = validate tool ->
            _run_tool_step step tools0 w c =
              (if str_truthy (on_error step) then
                 Return (on_error step) w1 (record_failure step exc c)
               else if continue_on_error step then
                 Return None w1 (record_failure step exc c)
               else Raise exc w1 (set_last_result VNone c))).
  { intros tools0 tool0 Hl Hn Hval. unfold _run_tool_step, tool_attempt.
    rewrite Hname, Hl, Hparams, Hval, Hv, Hf, Hn. simpl.
    destruct (str_truthy (on_error step)); [done|].
    by destruct (continue_on_error step). }
  split; [by apply (Hrun tools tool)|].
  split; [apply dict_get_set_eq|].
  intros other Hn Hval.
  rewrite (Hrun _ other) by (done || apply lookup_insert_eq).
  by rewrite (Hrun tools tool).
Qed.

(** ** Where a traversal goes on, and where it ends *)

Lemma parallel_returns_none wf tools fuel step next w w' c c' :
  _run_parallel_step py_eval wf tools fuel step w c = Return next w' c' ->
  next = None.
Proof.
  unfold _run_parallel_step.
  destruct (negb (list_truthy _)); [by intros [= <- _ _]|].
  unfold bind. destruct (for_each _ _ w c); [|done|done].
  by intros [= <- _ _].
Qed.

Lemma loop_returns_none wf tools fuel step next w w' c c' :
  _run_loop_step py_eval wf tools fuel step w c = Return next w' c' ->
  next = None.
Proof.
  unfold _run_loop_step.
  destruct (negb (list_truthy _)); [by intros [= <- _ _]|].
  unfold bind. destruct (loop_while _ _ _ _ _ _ _ w c); [|done|done].
  by intros [= <- _ _].
Qed.

(** X6.  A handler names a next step only from the wiring of its step: a
    TOOL step that failed and recorded its error names its [on_error], a
    CONDITION step names the single id of one of its branches.  A TOOL
    step that succeeds, a PARALLEL step and a LOOP step never name a next
    step. *)
Theorem next_step_is_wired wf tools fuel step sid w w' c c' :
  dispatch py_eval wf tools fuel step w c = Return (Some sid) w' c' ->
  (step_type step = TOOL /\ on_error step = Some sid /\ sid <> ""
   /\ last_result c' = VNone
   /\ exists msg,
        dict_get (step_results c') (step_id step)
        = Some (step_entry VNone (VStr msg)))
  \/ (step_type step = CONDITION
      /\ (on_true step = Some [sid] \/ on_false step = Some [sid])).
Proof.
  unfold dispatch. destruct (step_type step) eqn:Hty; intros Hrun.
  - left. split; [done|]. revert Hrun. unfold _run_tool_step.
    destruct (negb (str_truthy (tool_name step))); [done|].
    destruct (tools !! _) as [tool|]; [|done].
    destruct (resolve_params _ _) as [params|]; [|done].
    destruct (tool_attempt _ _ _ _) as [[res|exc] w1]; [done|].
    destruct (str_truthy (on_error step)) eqn:Hoe.
    + intros [= Hsid _ <-].
      split; [done|].
      split; [intros ->; by rewrite Hsid in Hoe|].
      split; [done|]. exists (str_exn exc). simpl. apply dict_get_set_eq.
    + by destruct (negb (continue_on_error step)).
  - right. split; [done|]. revert Hrun. unfold _run_condition_step, follow_branch.
    destruct (evaluate_condition _ _ _) as [v|]; [|done].
    destruct (truthy v).
    + destruct (on_true step) as [[|x [|y l]]|]; simpl; try done.
      intros [= -> _ _]. by left.
    + destruct (on_false step) as [[|x [|y l]]|]; simpl; try done.
      intros [= -> _ _]. by right.
  - by apply parallel_returns_none in Hrun.
  - by apply loop_returns_none in Hrun.
Qed.

(** X7.  [run] on a workflow whose start id is empty executes nothing and
    returns the context it was given; on a workflow whose start id is not
    registered it raises the [KeyError] of [get_step], and the context is
    as it was given: not even [last_step_id] is set. *)
Theorem run_without_start_step wf tools fuel context w :
  (start_step_id wf = "" ->
     run py_eval wf tools fuel context w
     = Return tt w (default new_context context))
  /\ (start_step_id wf <> "" -> steps wf !! start_step_id wf = None ->
      run py_eval wf tools fuel context w
      = Raise (KeyError ("Step '" ++ start_step_id wf
                         ++ "' not found in workflow '" ++ workflow_id wf ++ "'"))
          w (default new_context context)).
Proof.
  split.
  - intros Hs. rewrite run_unfold. rewrite run_from_stop; [done|].
    by rewrite Hs.
  - intros Hne Hmiss. rewrite run_unfold, run_from_pass by done.
    unfold run_iteration.
    rewrite bool_decide_eq_false_2 by apply not_elem_of_nil.
    unfold bind, lift, get_step. by rewrite Hmiss.
Qed.

(** ** Whether a traversal ends *)

Lemma for_each_ends {A} (l : list A) (body : A -> M W unit) :
  (forall x, x ∈ l -> forall w c, body x w c <> Diverge) ->
  forall w c, for_each l body w c <> Diverge.
Proof.
  induction l as [|x l IH]; intros Hbody w c; simpl; [done|].
  unfold bind.
  destruct (body x w c) as [[] w1 c1| |] eqn:Hx; [|done|].
  - apply IH. intros y Hy. apply Hbody. by apply list_elem_of_further.
  - exfalso. by apply (Hbody x (list_elem_of_here _ _) w c).
Qed.

Lemma run_child_ends wf tools fuel child :
  (forall cs, steps wf !! child = Some cs -> step_type cs <> CONDITION) ->
  forall w c, run_child py_eval wf tools fuel child w c <> Diverge.
Proof.
  intros Hno w c. unfold run_child, bind, lift, get_step.
  destruct (steps wf !! child) as [cs|] eqn:Hcs; [|done].
  specialize (Hno cs eq_refl).
  destruct (step_type cs); try done.
  pose proof (tool_step_ends cs tools w c).
  by destruct (_run_tool_step cs tools w c).
Qed.

Lemma loop_while_ends wf tools fuel step :
  (forall w c, for_each (default [] (loop_steps step))
                 (run_child py_eval wf tools fuel) w c <> Diverge) ->
  forall budget iterations w c,
    (Z.to_nat (max_iterations step - iterations) <= budget)%nat ->
    loop_while py_eval wf tools fuel step budget iterations w c <> Diverge.
Proof.
  intros Hbody budget.
  induction budget as [|budget IH]; intros iterations w c Hb; simpl.
  - assert ((iterations <? max_iterations step) = false) as ->
      by (apply Z.ltb_ge; lia). done.
  - destruct (iterations <? max_iterations step) eqn:Hlt; [|done].
    apply Z.ltb_lt in Hlt.
    destruct (evaluate_loop_condition _ _ _) as [v|]; [|done].
    destruct (truthy v); [|done].
    unfold bind.
    destruct (for_each _ _ w c) as [[] w1 c1| |] eqn:Hfe; [|done|].
    + apply IH. lia.
    + by apply Hbody in Hfe.
Qed.

(** X8.  In a workflow where no PARALLEL or LOOP step has a CONDITION
    step among its children, [run] ends whatever the tools and the
    predicates do, with any fuel: it returns or it raises. *)
Theorem run_returns_or_raises wf tools fuel context w :
  chain_free wf ->
  (exists w' c', run py_eval wf tools fuel context w = Return tt w' c')
  \/ (exists e w' c', run py_eval wf tools fuel context w = Raise e w' c').
Proof.
  intros Hfree.
  assert (Hchild : forall key s child,
            steps wf !! key = Some s ->
            child ∈ (default [] (parallel_steps s)
                     ++ default [] (loop_steps s))%list ->
            forall w c, run_child py_eval wf tools fuel child w c <> Diverge).
  { intros key s child Hs Hin. apply run_child_ends.
    intros cs Hcs. by apply (Hfree key s child cs). }
  assert (Hd : forall key s w c,
            steps wf !! key = Some s ->
            dispatch py_eval wf tools fuel s w c <> Diverge).
  { intros key s w0 c0 Hs. unfold dispatch. destruct (step_type s).
    - apply tool_step_ends.
    - pose proof (condition_step_untouched s w0 c0) as H.
      by destruct (_run_condition_step py_eval s w0 c0).
    - unfold _run_parallel_step.
      destruct (negb (list_truthy _)); [done|]. unfold bind.
      destruct (for_each _ _ w0 c0) eqn:Hfe; [done|done|].
      apply for_each_ends in Hfe; [done|].
      intros child Hin. apply (Hchild key s child Hs).
      apply elem_of_app. by left.
    - unfold _run_loop_step.
      destruct (negb (list_truthy _)); [done|]. unfold bind.
      destruct (loop_while _ _ _ _ _ _ _ w0 c0) eqn:Hlw; [done|done|].
      apply loop_while_ends in Hlw; [done| |lia].
      apply for_each_ends. intros child Hin. apply (Hchild key s child Hs).
      apply elem_of_app. by right. }
  pose proof (run_ends wf tools fuel context w Hd) as Hends.
  rewrite run_unfold in *.
  destruct (run_from _ _ _ _ _ _ _ _ _) as [? w' c'|e w' c'|]; [| |done].
  - left. eauto.
  - right. eauto.
Qed.

(** ** Nested chains and children *)

(** X9.  The nested chain has no cycle guard: a TOOL step whose handler
    is the step itself and whose tool fails every time keeps the chain
    going for ever (no fuel is enough), and with it the CONDITION child
    that leads to it; met at the top level the same step is stopped by the
    cycle error at its second pass. *)
Theorem nested_chain_never_ends wf tools key step tool :
  steps wf !! key = Some step ->
  step_type step = TOOL ->
  on_error step = Some key ->
  key <> "" ->
  str_truthy (tool_name step) = true ->
  tools !! default "" (tool_name step) = Some tool ->
  (forall c, exists params, resolve_params step (handler_env c) = Ok params) ->
  (forall params w, exists e w', tool_attempt tool step params w = (Exc e, w')) ->
  (forall fuel w c, nested_chain wf tools fuel (Some key) w c = Diverge)
  /\ (forall fuel child cs w c,
        steps wf !! child = Some cs -> step_type cs = CONDITION ->
        _run_condition_step py_eval cs w c = Return (Some key) w c ->
        run_child py_eval wf tools fuel child w c = Diverge)
  /\ (forall fuel budget w c,
        exists e w' c',
          run_from py_eval wf tools fuel (S (S budget)) (Some key) [] w c
          = Raise (cycle_error wf key) w' c'
          /\ dict_get (step_results c') (step_id step)
             = Some (step_entry VNone (VStr (str_exn e)))).
Proof.
  intros Hstep Hty Hoe Hkey Hname Htool Hres Hfail.
  assert (Htruthy : str_truthy (Some key) = true).
  { simpl. by rewrite (proj2 (String.eqb_neq key "") Hkey). }
  assert (Hrun : forall w c, exists e w',
            _run_tool_step step tools w c
            = Return (Some key) w' (record_failure step e c)).
  { intros w c. destruct (Hres c) as [params Hp].
    destruct (Hfail params w) as (e & w' & Hatt).
    exists e, w'. unfold _run_tool_step.
    rewrite Hname, Htool, Hp, Hatt, Hoe, Htruthy. reflexivity. }
  assert (Hchain : forall fuel w c,
            nested_chain wf tools fuel (Some key) w c = Diverge).
  { induction fuel as [|fuel IH]; intros w c; simpl;
      rewrite (proj2 (String.eqb_neq key "") Hkey); simpl; [done|].
    unfold bind, lift, get_step. rewrite Hstep, Hty.
    destruct (Hrun w c) as (e & w' & ->). apply IH. }
  split; [exact Hchain|]. split.
  - intros fuel child cs w c Hcs Hcty Hcond.
    unfold run_child, bind, lift, get_step. rewrite Hcs, Hcty, Hcond, Htruthy.
    apply Hchain.
  - intros fuel budget w c.
    destruct (Hrun w (entered step c)) as (e & w' & He).
    exists e, w', (record_failure step e (entered step c)).
    split; [|apply dict_get_set_eq].
    rewrite run_from_pass by done.
    rewrite (run_iteration_fresh _ _ _ _ _ step) by (done || apply not_elem_of_nil).
    unfold dispatch. rewrite Hty, He. cbn [fst snd app].
    rewrite run_from_pass by done.
    rewrite run_iteration_seen by apply list_elem_of_here.
    reflexivity.
Qed.

Lemma run_child_skips wf tools fuel child cs w c :
  steps wf !! child = Some cs ->
  step_type cs = PARALLEL \/ step_type cs = LOOP ->
  run_child py_eval wf tools fuel child w c = Return tt w c.
Proof.
  intros Hcs Hty. unfold run_child, bind, lift, get_step. rewrite Hcs.
  by destruct Hty as [-> | ->].
Qed.

(** X10.  Nesting that is not supported is passed over in silence: a
    PARALLEL step whose children are all PARALLEL or LOOP steps returns
    with the context untouched (none of them is executed), and a nested
    chain that comes to a step that is not a TOOL step stops there without
    executing it. *)
Theorem unsupported_nesting_is_skipped wf tools fuel step w c :
  (forall child, child ∈ default [] (parallel_steps step) ->
     exists cs, steps wf !! child = Some cs
                /\ (step_type cs = PARALLEL \/ step_type cs = LOOP)) ->
  _run_parallel_step py_eval wf tools fuel step w c = Return None w c
  /\ (forall key s,
        steps wf !! key = Some s -> step_type s <> TOOL ->
        nested_chain wf tools (S fuel) (Some key) w c = Return tt w c).
Proof.
  intros Hall. split.
  - unfold _run_parallel_step.
    destruct (negb (list_truthy _)); [done|]. unfold bind.
    assert (for_each (default [] (parallel_steps step))
              (run_child py_eval wf tools fuel) w c = Return tt w c) as ->; [|done].
    induction (default [] (parallel_steps step)) as [|child l IH]; [done|].
    simpl. unfold bind.
    destruct (Hall child (list_elem_of_here _ _)) as (cs & Hcs & Hty).
    rewrite (run_child_skips _ _ _ _ cs) by done.
    apply IH. intros x Hx. apply Hall. by apply list_elem_of_further.
  - intros key s Hs Hty. simpl.
    destruct (negb (String.eqb key "")); [|done].
    unfold bind, lift, get_step. rewrite Hs.
    by destruct (step_type s).
Qed.

(** X11.  The TOOL children of a PARALLEL step run in the order listed,
    and the id a child hands back is dropped.  When the first child fails
    with [on_error] or [continue_on_error] set, its error is recorded and
    the PARALLEL step goes on with the children after it (the handler
    named by [on_error] is not run); when it fails with neither, the
    PARALLEL step raises there and the children after it do not run. *)
Theorem parallel_children_in_order wf tools fuel step child rest cs tool params
    exc w w' c :
  parallel_steps step = Some (child :: rest) ->
  steps wf !! child = Some cs ->
  step_type cs = TOOL ->
  str_truthy (tool_name cs) = true ->
  tools !! default "" (tool_name cs) = Some tool ->
  resolve_params cs (handler_env c) = Ok params ->
  tool_fails tool cs params w exc w' ->
  _run_parallel_step py_eval wf tools fuel step w c =
    if (str_truthy (on_error cs) || continue_on_error cs)%bool then
      match for_each rest (run_child py_eval wf tools fuel) w'
              (record_failure cs exc c) with
      | Return _ w'' c'' => Return None w'' c''
      | Raise e w'' c'' => Raise e w'' c''
      | Diverge => Diverge
      end
    else Raise exc w' (set_last_result VNone c).
Proof.
  intros Hch Hcs Hty Hname Htool Hparams Hfail.
  apply tool_attempt_fails in Hfail.
  unfold _run_parallel_step. rewrite Hch. simpl.
  unfold bind at 1. unfold bind at 1.
  unfold run_child at 1. unfold bind at 1. unfold lift, get_step.
  rewrite Hcs, Hty. unfold bind at 1.
  unfold _run_tool_step. rewrite Hname, Htool, Hparams, Hfail. simpl.
  destruct (str_truthy (on_error cs)); simpl.
  - unfold record_failure. by destruct (for_each rest _ _ _).
  - destruct (continue_on_error cs); simpl; [|done].
    unfold record_failure. by destruct (for_each rest _ _ _).
Qed.

(** ** LOOP steps, whatever the predicate *)

Lemma loop_while_counts wf tools fuel step :
  forall budget iterations last w w' c c',
    loop_while py_eval wf tools fuel step budget iterations w c
      = Return last w' c' ->
    iterations <= last /\ last <= Z.max iterations (max_iterations step).
Proof.
  induction budget as [|budget IH]; intros iterations last w w' c c'; simpl.
  - destruct (iterations <? max_iterations step) eqn:Hlt.
    + destruct (evaluate_loop_condition _ _ _) as [v|]; [|done].
      destruct (truthy v); [done|].
      intros [= <- <- <-]. lia.
    + intros [= <- <- <-]. lia.
  - destruct (iterations <? max_iterations step) eqn:Hlt.
    + apply Z.ltb_lt in Hlt.
      destruct (evaluate_loop_condition _ _ _) as [v|]; [|done].
      destruct (truthy v).
      * unfold bind.
        destruct (for_each _ _ w c) as [[] w1 c1| |] eqn:Hbody; [|done|done].
        intros Hrest. apply IH in Hrest as (Hle & Hmax). lia.
      * intros [= <- <- <-]. lia.
    + intros [= <- <- <-]. lia.
Qed.

(** X12.  Whatever its predicate and its children do, a LOOP step that
    returns has counted [k] iterations with [0 <= k <= max_iterations]
    (none at all when [max_iterations] is negative), and it names no next
    step. *)
Theorem loop_never_exceeds_max_iterations wf tools fuel step last w w' c c' :
  loop_while py_eval wf tools fuel step (Z.to_nat (max_iterations step)) 0 w c
    = Return last w' c' ->
  0 <= last <= Z.max 0 (max_iterations step)
  /\ (list_truthy (loop_steps step) = true ->
      _run_loop_step py_eval wf tools fuel step w c = Return None w' c').
Proof.
  intros Hrun.
  pose proof (loop_while_counts wf tools fuel step _ _ _ _ _ _ _ Hrun)
    as (Hle & Hmax).
  split; [lia|].
  intros Hl. unfold _run_loop_step. rewrite Hl. simpl. unfold bind.
  by rewrite Hrun.
Qed.

(** X13.  A LOOP step that names no child, or whose [max_iterations] is
    not positive, does nothing and returns with the context it was given;
    its predicate is not even evaluated, so that one which would raise
    does no harm. *)
Theorem loop_makes_no_iteration wf tools fuel step w c :
  list_truthy (loop_steps step) = false \/ max_iterations step <= 0 ->
  _run_loop_step py_eval wf tools fuel step w c = Return None w c.
Proof.
  intros Hcase. unfold _run_loop_step.
  destruct (list_truthy (loop_steps step)) eqn:Hl; [|done]. simpl.
  destruct Hcase as [Hno | Hmax]; [done|].
  unfold bind.
  assert (Z.to_nat (max_iterations step) = 0%nat) as -> by lia.
  simpl.
  assert ((0 <? max_iterations step) = false) as -> by (apply Z.ltb_ge; lia).
  done.
Qed.

(** ** Parameter resolution *)

Lemma value_nested_ind (P : value -> Prop) :
  P VNone -> (forall b, P (VBool b)) -> (forall n, P (VInt n)) ->
  (forall s, P (VStr s)) ->
  (forall l, Forall P l -> P (VList l)) ->
  (forall l, Forall P l -> P (VTuple l)) ->
  (forall d, Forall (fun kv => P (snd kv)) d -> P (VDict d)) ->
  forall v, P v.
Proof.
  intros HN HB HI HS HL HT HD. fix IH 1. intros [| b | n | s | l | l | d].
  - exact HN.
  - apply HB.
  - apply HI.
  - apply HS.
  - apply HL. induction l as [|x l IHl]; constructor; [apply IH | exact IHl].
  - apply HT. induction l as [|x l IHl]; constructor; [apply IH | exact IHl].
  - apply HD. induction d as [|[k x] d IHd]; constructor; [apply IH | exact IHd].
Qed.

Lemma resolve_items_shape params context :
  (forall params',
     resolve_items params context = Ok params' ->
     Forall2 (fun kv kv' =>
                fst kv' = fst kv /\ _resolve_value (snd kv) context = Ok (snd kv'))
             params params')
  /\ (forall e,
        resolve_items params context = Exc e ->
        exists before key v after,
          params = (before ++ (key, v) :: after)%list
          /\ _resolve_value v context = Exc e
          /\ Forall (fun kv => exists v', _resolve_value (snd kv) context = Ok v')
               before).
Proof.
  induction params as [|[key v] params [IHok IHexc]]; simpl.
  - split; [intros ? [= <-]; constructor | done].
  - unfold rbind. destruct (_resolve_value v context) as [v'|e0] eqn:Hv.
    + destruct (resolve_items params context) as [rest|e1] eqn:Hrest.
      * split; [|done]. intros ? [= <-]. constructor; [done | by apply IHok].
      * split; [done|]. intros e [= <-].
        destruct (IHexc e1 eq_refl) as (before & k & x & after & -> & Hx & Hb).
        exists ((key, v) :: before), k, x, after.
        split; [done|]. split; [done|]. constructor; [eauto | done].
    + split; [done|]. intros e [= <-].
      exists [], key, v, params. split; [done|]. split; [done | constructor].
Qed.

(** X17.  Values that hold no template reference pass through
    [resolve_params] unchanged, whatever the context: numbers, booleans,
    [None], strings that are not of the form [${...}], lists and dicts of
    such values at any depth, and tuples as a whole. *)
Theorem literals_pass_through step context :
  (forall v, template_free v = true -> _resolve_value v context = Ok v)
  /\ (forallb (fun kv => template_free (snd kv)) (tool_params step) = true ->
      resolve_params step context = Ok (tool_params step)).
Proof.
  assert (Hv : forall v, template_free v = true -> _resolve_value v context = Ok v).
  { induction v as [| b | n | s | l IHl | l IHl | d IHd] using value_nested_ind;
      try done.
    - simpl. unfold is_template. intros Hs%negb_true_iff. by rewrite Hs.
    - intros Hfree. cbn [template_free] in Hfree. cbn [_resolve_value].
      match goal with
      | |- rbind ?r _ = _ => assert (r = Ok l) as ->; [|done]
      end.
      induction l as [|x l IH]; [done|].
      apply Forall_cons in IHl as [Hx Hl].
      simpl in Hfree. apply andb_prop in Hfree as [Hfx Hfl].
      rewrite (Hx Hfx). cbn [rbind]. by rewrite (IH Hl Hfl).
    - intros Hfree. cbn [template_free] in Hfree. cbn [_resolve_value].
      match goal with
      | |- rbind ?r _ = _ => assert (r = Ok d) as ->; [|done]
      end.
      induction d as [|[k x] d IH]; [done|].
      apply Forall_cons in IHd as [Hx Hd].
      simpl in Hfree. apply andb_prop in Hfree as [Hfx Hfd].
      simpl in Hx. rewrite (Hx Hfx). cbn [rbind]. by rewrite (IH Hd Hfd). }
  split; [exact Hv|].
  unfold resolve_params. induction (tool_params step) as [|[k x] d IH]; [done|].
  simpl. intros [Hx Hd]%andb_prop. rewrite (Hv x Hx). cbn [rbind].
  by rewrite (IH Hd).
Qed.

(** X18.  [resolve_params] keeps the parameter names and their order:
    when it returns, each value is the resolution of the value given
    under the same name; when it raises, the exception is that of the
    first parameter, in order, whose value does not resolve. *)
Theorem resolve_params_keeps_names step context :
  (forall params,
     resolve_params step context = Ok params ->
     dict_keys params = dict_keys (tool_params step)
     /\ Forall2 (fun kv kv' => _resolve_value (snd kv) context = Ok (snd kv'))
          (tool_params step) params)
  /\ (forall e,
        resolve_params step context = Exc e ->
        exists before key v after,
          tool_params step = (before ++ (key, v) :: after)%list
          /\ _resolve_value v context = Exc e
          /\ Forall (fun kv => exists v', _resolve_value (snd kv) context = Ok v')
               before).
Proof.
  unfold resolve_params.
  destruct (resolve_items_shape (tool_params step) context) as [Hok Hexc].
  split; [|exact Hexc].
  intros params Hres. specialize (Hok params Hres). clear Hexc Hres.
  split.
  - unfold dict_keys. revert Hok. generalize (tool_params step). intros given Hok.
    induction Hok as [|kv kv' l l' [Hk _] _ IH]; [done|].
    simpl. by rewrite Hk, IH.
  - eapply Forall2_impl; [exact Hok|]. by intros kv kv' [_ ?].
Qed.

(** X20.  A reference that is a bare step id, [${id}], resolves to the
    whole entry of the step, and to the empty dict (not to [None]) when
    the step has left no entry. *)
Theorem bare_reference_gives_entry sid c :
  split_dot sid = [sid] -> sid <> "context" ->
  _resolve_value (VStr ("${" ++ sid ++ "}")) (handler_env c)
  = Ok (default (VDict []) (dict_get (step_results c) sid))
  /\ (dict_get (step_results c) sid = None ->
      _resolve_value (VStr ("${" ++ sid ++ "}")) (handler_env c) = Ok (VDict [])).
Proof.
  intros Hsid Hne.
  assert (H : _resolve_value (VStr ("${" ++ sid ++ "}")) (handler_env c)
              = Ok (default (VDict []) (dict_get (step_results c) sid))).
  { rewrite template_recognised. unfold _resolve_path. rewrite Hsid.
    cbn [hd tl length Nat.eqb].
    assert (String.eqb sid "context" = false) as -> by by apply String.eqb_neq.
    unfold handler_env. rewrite !dict_get_cons.
    cbn [String.eqb Ascii.eqb Bool.eqb]. unfold value_get, rbind.
    by destruct (dict_get (step_results c) sid). }
  split; [exact H|]. intros Hmiss. by rewrite H, Hmiss.
Qed.

(** ** The workflow runner *)

(** After a traversal that made a pass, [last_step_id] names the step of
    the last pass, which is the last of the steps gone through. *)
Lemma run_from_last_step_id wf tools fuel budget :
  forall o visited w c visited' w' c',
    run_from py_eval wf tools fuel budget o visited w c = Return visited' w' c' ->
    (str_truthy o = false /\ visited' = visited /\ w' = w /\ c' = c)
    \/ (str_truthy o = true
        /\ exists sid s, last visited' = Some sid /\ steps wf !! sid = Some s
                         /\ last_step_id c' = Some (step_id s)).
Proof.
  induction budget as [|budget IH]; intros o visited w c visited' w' c'; simpl.
  - destruct (str_truthy o); [done|]. intros [= <- <- <-]. by left.
  - destruct (str_truthy o) eqn:Ho; [|intros [= <- <- <-]; by left].
    unfold bind.
    destruct (run_iteration _ _ _ _ _ _ _ _) as [nv w1 c1| |] eqn:Hpass; try done.
    intros Hrest. right. split; [done|].
    assert (Hlast : exists s, steps wf !! default "" o = Some s
                              /\ last_step_id c1 = Some (step_id s)
                              /\ snd nv = (visited ++ [default "" o])%list).
    { revert Hpass. unfold run_iteration. case_bool_decide; [done|].
      unfold bind, lift, get_step, modify.
      destruct (steps wf !! default "" o) as [s|] eqn:Hs; [|done].
      pose proof (preserves_dispatch same_last_step_id
                    (fun c0 => eq_refl)
                    (fun c1 c2 c3 (H12 : same_last_step_id c1 c2)
                         (H23 : same_last_step_id c2 c3) => eq_trans H23 H12)
                    wf tools
                    (fun _ s0 _ _ => tool_step_same_last_step_id s0 tools)
                    fuel _ s Hs w (set_last_step_id (Some (step_id s)) c)) as Hd.
      unfold same_last_step_id in Hd.
      destruct (dispatch _ _ _ _ _ _ _); try done.
      intros [= <- <- <-]. eauto. }
    destruct Hlast as (s & Hs & Hl & Hsnd).
    apply IH in Hrest as [(_ & -> & _ & ->) | (_ & sid & s' & ? & ? & ?)].
    + exists (default "" o), s. rewrite Hsnd, last_snoc. done.
    + by exists sid, s'.
Qed.

(** X21.  [WorkflowRunner.run] gives the outcome of [Workflow.run] and
    only adds to its log.  With logging on, a run that returns adds the
    [workflow_start] entry and then the [workflow_complete] entry, which
    carries the [last_step_id] of the final context: the id of a
    registered step when the workflow has a start step.  A run that
    raises adds the [workflow_start] entry alone: the log keeps no trace
    of the failure.  With logging off the runner is left as it was. *)
Theorem runner_log_brackets_run (r : WorkflowRunner.t) wf workflow_name
    tools fuel context w :
  let after := WorkflowRunner.run py_eval r wf workflow_name tools fuel context w in
  let start_entry : pydict :=
    [("event", VStr "workflow_start"); ("workflow_id", VStr (workflow_id wf));
     ("workflow_name", VStr workflow_name)] in
  WorkflowRunner.enable_logging (fst after) = WorkflowRunner.enable_logging r
  /\ (WorkflowRunner.enable_logging r = false -> fst after = r)
  /\ match run py_eval wf tools fuel context w with
     | Return _ w' c' =>
         snd after = Return tt w' c'
         /\ (WorkflowRunner.enable_logging r = true ->
             WorkflowRunner.execution_log (fst after)
             = (WorkflowRunner.execution_log r
                ++ [start_entry;
                    [("event", VStr "workflow_complete");
                     ("workflow_id", VStr (workflow_id wf));
                     ("last_step_id",
                      WorkflowRunner.optional_str (last_step_id c'))]])%list)
         /\ (start_step_id wf <> "" ->
             exists sid s, steps wf !! sid = Some s
                           /\ last_step_id c' = Some (step_id s))
     | Raise e w' c' =>
         snd after = Raise e w' c'
         /\ (WorkflowRunner.enable_logging r = true ->
             WorkflowRunner.execution_log (fst after)
             = (WorkflowRunner.execution_log r ++ [start_entry])%list)
     | Diverge => snd after = Diverge
     end.
Proof.
  intros after start_entry. subst after start_entry. unfold WorkflowRunner.run.
  destruct r as [logging log]. cbn [WorkflowRunner.enable_logging
                                      WorkflowRunner.execution_log].
  destruct (run py_eval wf tools fuel context w) as [u w' c'|e w' c'|] eqn:Hrun.
  - split; [by destruct logging|]. split; [by intros ->|].
    split; [done|]. split.
    + intros ->. cbn. by rewrite <- app_assoc.
    + intros Hstart. rewrite run_unfold in Hrun.
      destruct (run_from _ _ _ _ _ _ _ _ _) as [visited' w1 c1| |] eqn:Hfrom;
        try done.
      injection Hrun as _ <- <-.
      apply run_from_last_step_id in Hfrom as [(Hfalse & _) | (_ & sid & s & _ & ? & ?)].
      * exfalso. simpl in Hfalse. apply negb_false_iff, String.eqb_eq in Hfalse.
        contradiction.
      * by exists sid, s.
  - split; [by destruct logging|]. split; [by intros ->|].
    split; [done|]. by intros ->.
  - split; [by destruct logging|]. split; [by intros ->|]. done.
Qed.

(** ** The tool registry of an agent *)

(** X22.  What [Agent.execute_tool] raises is a [ToolExecutionError] that
    carries the name the tool was asked for, or else the very exception
    the tool's [validate] raised, which is not wrapped.  An exception of
    [execute] is wrapped with its text, so that a [ToolExecutionError]
    raised by the tool shows the prefix twice; a tool that is missing or
    whose validation answers false is never executed. *)
Theorem execute_tool_errors (tools : gmap string (Tool W)) tool_name kwargs w :
  (forall e w',
     Agent.execute_tool tools tool_name kwargs w = (Exc e, w') ->
     (exists message, e = ToolExecutionError tool_name message)
     \/ (exists tool, tools !! tool_name = Some tool
                      /\ validate tool kwargs w = (Exc e, w')))
  /\ (forall tool valid w1 e w2,
        tools !! tool_name = Some tool ->
        validate tool kwargs w = (Ok valid, w1) -> truthy valid = true ->
        execute tool kwargs w1 = (Exc e, w2) ->
        Agent.execute_tool tools tool_name kwargs w
        = (Exc (ToolExecutionError tool_name (str_exn e)), w2)
        /\ (forall inner message,
              e = ToolExecutionError inner message ->
              str_exn (ToolExecutionError tool_name (str_exn e))
              = "Tool '" ++ tool_name ++ "' execution failed: "
                ++ ("Tool '" ++ inner ++ "' execution failed: " ++ message)))
  /\ (tools !! tool_name = None ->
      Agent.execute_tool tools tool_name kwargs w
      = (Exc (ToolExecutionError tool_name ("Tool '" ++ tool_name ++ "' not found")), w))
  /\ (forall tool valid w1,
        tools !! tool_name = Some tool ->
        validate tool kwargs w = (Ok valid, w1) -> truthy valid = false ->
        Agent.execute_tool tools tool_name kwargs w
        = (Exc (ToolExecutionError tool_name "Tool parameter validation failed"), w1)).
Proof.
  unfold Agent.execute_tool, Agent.get_tool.
  split; [|split; [|split]].
  - intros e w'. destruct (tools !! tool_name) as [tool|] eqn:Htool.
    + destruct (validate tool kwargs w) as [[valid|e0] w1] eqn:Hval.
      * destruct (truthy valid).
        -- destruct (execute tool kwargs w1) as [[res|e1] w2]; [done|].
           intros [= <- <-]. left. eauto.
        -- intros [= <- <-]. left. eauto.
      * intros [= <- <-]. right. eauto.
    + intros [= <- <-]. left. eauto.
  - intros tool valid w1 e w2 -> -> -> ->. split; [done|].
    by intros inner message ->.
  - by intros ->.
  - by intros tool valid w1 -> -> ->.
Qed.

(** X23.  The registry of an agent holds one tool per name: [add_tool]
    refuses a name that is taken and otherwise makes [get_tool] find the
    tool, leaving the other names as they were; [remove_tool] refuses a
    name that is not registered; and removing the tool just added gives
    the registry back. *)
Theorem tool_registry_round_trip (tools : gmap string (Tool W)) (tool : Tool W) :
  (is_Some (tools !! name tool) <->
   exists msg, Agent.add_tool tools tool = Exc (ValueError msg))
  /\ (forall tools',
        Agent.add_tool tools tool = Ok tools' ->
        Agent.get_tool tools' (name tool) = Some tool
        /\ (forall other, other <> name tool ->
              Agent.get_tool tools' other = Agent.get_tool tools other)
        /\ Agent.remove_tool tools' (name tool) = Ok tools
        /\ (exists msg, Agent.add_tool tools' tool = Exc (ValueError msg)))
  /\ (forall tool_name,
        (tools !! tool_name = None <->
         exists msg, Agent.remove_tool tools tool_name = Exc (ValueError msg))
        /\ (forall tools',
              Agent.remove_tool tools tool_name = Ok tools' ->
              Agent.get_tool tools' tool_name = None
              /\ forall other, other <> tool_name ->
                   Agent.get_tool tools' other = Agent.get_tool tools other)).
Proof.
  unfold Agent.add_tool, Agent.remove_tool, Agent.get_tool.
  split; [|split].
  - destruct (tools !! name tool) as [t0|] eqn:Ht.
    + split; eauto.
    + split; [by intros [? ?] | by intros [? ?]].
  - intros tools'. destruct (tools !! name tool) as [t0|] eqn:Ht; [done|].
    intros [= <-]. rewrite !lookup_insert_eq. split; [done|].
    split; [by intros other Hne; rewrite lookup_insert_ne|].
    split; [|eauto]. by rewrite delete_insert_id.
  - intros tool_name. destruct (tools !! tool_name) as [t0|] eqn:Ht.
    + split; [split; [done | by intros [? ?]]|].
      intros tools' [= <-]. rewrite lookup_delete_eq. split; [done|].
      by intros other Hne; rewrite lookup_delete_ne.
    + split; [split; eauto | done].
Qed.

(** ** A workflow that starts at a TOOL step *)

Lemma tool_step_next step tools w c next w' c' :
  _run_tool_step step tools w c = Return next w' c' ->
  next = None \/ (str_truthy (on_error step) = true /\ next = on_error step).
Proof.
  unfold _run_tool_step.
  destruct (negb (str_truthy (tool_name step))); [done|].
  destruct (tools !! _) as [tool|]; [|done].
  destruct (resolve_params _ _) as [params|]; [|done].
  destruct (tool_attempt _ _ _ _) as [[res|exc] w1]; [intros [= <- _ _]; by left|].
  destruct (str_truthy (on_error step)) eqn:Hoe.
  - intros [= <- _ _]. by right.
  - destruct (negb (continue_on_error step)); [done|]. intros [= <- _ _]. by left.
Qed.

(** X24.  A workflow whose start step is a TOOL step without [on_error]
    executes this step and no other, whatever else is registered and
    whatever the tool does: [run] ends as the handler of the step does,
    and [last_step_id] is the id of the step.  Nothing leads from a TOOL
    step to a step registered after it. *)
Theorem tool_start_step_runs_alone wf tools fuel context w s :
  start_step_id wf <> "" ->
  steps wf !! start_step_id wf = Some s ->
  step_type s = TOOL ->
  str_truthy (on_error s) = false ->
  run py_eval wf tools fuel context w
  = match _run_tool_step s tools w (entered s (default new_context context)) with
    | Return _ w' c' => Return tt w' c'
    | Raise e w' c' => Raise e w' c'
    | Diverge => Diverge
    end
  /\ match run py_eval wf tools fuel context w with
     | Return _ _ c' | Raise _ _ c' => last_step_id c' = Some (step_id s)
     | Diverge => False
     end.
Proof.
  intros Hne Hs Hty Hoe.
  assert (Hrun : run py_eval wf tools fuel context w
                 = match _run_tool_step s tools w
                           (entered s (default new_context context)) with
                   | Return _ w' c' => Return tt w' c'
                   | Raise e w' c' => Raise e w' c'
                   | Diverge => Diverge
                   end).
  { rewrite run_unfold, run_from_pass by done.
    rewrite (run_iteration_fresh _ _ _ _ _ s) by (done || apply not_elem_of_nil).
    unfold dispatch. rewrite Hty.
    destruct (_run_tool_step _ _ _ _) as [next w' c'| |] eqn:Hstep; [|done|done].
    cbn [fst snd]. rewrite run_from_stop; [done|].
    apply tool_step_next in Hstep as [-> | [Htrue _]]; [done|].
    by rewrite Hoe in Htrue. }
  split; [exact Hrun|]. rewrite Hrun.
  destruct (_run_tool_step _ _ _ _) as [next w' c'|e w' c'|] eqn:Hstep.
  - apply tool_step_return in Hstep as (res & err & _ & _ & Hlast & _).
    by rewrite Hlast.
  - apply tool_step_raise in Hstep as (_ & _ & Hlast). by rewrite Hlast.
  - by apply tool_step_ends in Hstep.
Qed.

End Properties.

(** * The properties at work

    Each statement above with a premise is applied to one of the
    instances, and the claims the code does not meet are evaluated where
    they fail. *)

Lemma tool_step_failure_routing_witness :
  tool_fails boom_tool risky_routed [] tt (ValueError "boom") tt
  /\ _run_tool_step risky_routed sample_tools tt new_context
     = Return (Some "handler") tt
         (record_failure risky_routed (ValueError "boom") new_context)
  /\ dict_get
       (step_results (record_failure risky_routed (ValueError "boom") new_context))
       "risky"
     = Some (step_entry VNone (VStr "boom"))
  /\ run_from sample_eval risky_workflow sample_tools 0 2 (Some "risky") [] tt
       new_context
     = Raise (ValueError "boom") tt
         (set_last_result VNone (entered risky_fatal new_context)).
Proof.
  assert (Hrouted : tool_fails boom_tool risky_routed [] tt (ValueError "boom") tt)
    by (eapply fails_execute; reflexivity).
  assert (Hfatal : tool_fails boom_tool risky_fatal [] tt (ValueError "boom") tt)
    by (eapply fails_execute; reflexivity).
  destruct (tool_step_failure_routing sample_eval risky_routed sample_tools
              boom_tool [] (ValueError "boom") tt tt new_context)
    as (Hrun & Hentry & _ & _);
    [reflexivity | vm_compute; reflexivity | reflexivity | exact Hrouted |].
  destruct (tool_step_failure_routing sample_eval risky_fatal sample_tools
              boom_tool [] (ValueError "boom") tt tt new_context)
    as (_ & _ & _ & Htop);
    [reflexivity | vm_compute; reflexivity | reflexivity | exact Hfatal |].
  split; [exact Hrouted|]. split; [exact Hrun|]. split; [exact Hentry|].
  apply Htop; [vm_compute; reflexivity | reflexivity | discriminate
              | apply not_elem_of_nil | reflexivity | reflexivity].
Defined.

(** C1, where it fails: with neither [on_error] nor [continue_on_error]
    the failed step raises, and leaves no entry under its id. *)
Lemma fatal_failure_leaves_no_entry :
  tool_fails boom_tool risky_fatal [] tt (ValueError "boom") tt
  /\ exists c',
       _run_tool_step risky_fatal sample_tools tt new_context
       = Raise (ValueError "boom") tt c'
       /\ dict_get (step_results c') (step_id risky_fatal) = None.
Proof.
  split; [eapply fails_execute; reflexivity|].
  eexists. split; reflexivity.
Qed.

Example swallowed_failure_is_recorded :
  _run_tool_step risky_swallowed sample_tools tt new_context
  = Return None tt (record_failure risky_swallowed (ValueError "boom") new_context).
Proof. reflexivity. Qed.

Example failed_validation_is_routed :
  _run_tool_step (make_tool_step "strict" "picky" [] None (Some "handler") false)
    sample_tools tt new_context
  = Return (Some "handler") tt
      {| data := [];
         step_results :=
           [("strict",
             step_entry VNone
               (VStr ("Tool 'picky' execution failed: "
                      ++ "Validation failed for tool 'picky' in step 'strict'")))];
         last_step_id := None; last_result := VNone |}.
Proof. reflexivity. Qed.

Lemma missing_tool_is_fatal_witness :
  sample_tools !! "absent" = None
  /\ _run_tool_step fetch_step sample_tools tt new_context
     = Raise (ToolExecutionError "absent" "Tool 'absent' not found for step 'fetch'")
         tt new_context
  /\ run_from sample_eval fetch_workflow sample_tools 0 3 (Some "fetch") [] tt
       new_context
     = Raise (ToolExecutionError "absent" "Tool 'absent' not found for step 'fetch'")
         tt (entered fetch_step new_context).
Proof.
  destruct (missing_tool_is_fatal sample_eval fetch_step sample_tools tt new_context)
    as [Hrun Htop]; [reflexivity | vm_compute; reflexivity |].
  split; [vm_compute; reflexivity|]. split; [exact Hrun|].
  apply Htop; [vm_compute; reflexivity | reflexivity | discriminate
              | apply not_elem_of_nil].
Defined.

(** C2, where it fails: the tool is missing, [on_error] names a handler
    and [continue_on_error] is set, and still [run] raises: the traversal
    neither jumps to the handler nor ends normally. *)
Lemma missing_tool_is_not_recoverable :
  sample_tools !! "absent" = None
  /\ on_error fetch_step = Some "handler"
  /\ continue_on_error fetch_step = true
  /\ run sample_eval fetch_workflow sample_tools 0 None tt
     = Raise (ToolExecutionError "absent" "Tool 'absent' not found for step 'fetch'")
         tt (entered fetch_step new_context).
Proof. repeat split; vm_compute; reflexivity. Qed.

Lemma bump_increments :
  increments "counter"
    (loop_body sample_eval counter_workflow sample_tools 0 counting_loop).
Proof.
  intros w c.
  exists w,
    (set_step_results
       (dict_set (step_results c) "bump"
          (step_entry (VInt (counter_at c "counter" + 1)) VNone))
       (set_data (dict_set (data c) "counter" (VInt (counter_at c "counter" + 1)))
          (set_last_result (VInt (counter_at c "counter" + 1)) c))).
  split; [reflexivity|].
  unfold counter_at at 1. simpl. by rewrite dict_get_set_eq.
Qed.

Lemma loop_runs_max_iterations_witness :
  max_iterations counting_loop = 3
  /\ always_true sample_eval counting_loop
  /\ _run_loop_step sample_eval counter_workflow sample_tools 0 counting_loop tt
       new_context
     = bind (repeat_body 3
               (loop_body sample_eval counter_workflow sample_tools 0 counting_loop))
            (fun _ => ret None) tt new_context
  /\ (exists w' c',
        _run_loop_step sample_eval counter_workflow sample_tools 0 counting_loop tt
          new_context = Return None w' c'
        /\ counter_at c' "counter" = 3)
  /\ exists c',
       run sample_eval counter_workflow sample_tools 0 None tt = Return tt tt c'
       /\ dict_get (data c') "counter" = Some (VInt 3).
Proof.
  assert (Htrue : always_true sample_eval counting_loop).
  { intros context. exists (VBool true). split; reflexivity. }
  destruct (loop_runs_max_iterations sample_eval counter_workflow sample_tools 0
              counting_loop 3 tt new_context eq_refl Htrue) as (Hrun & _ & Hadd).
  split; [reflexivity|]. split; [exact Htrue|]. split; [exact Hrun|].
  split; [exact (Hadd "counter" bump_increments)|].
  eexists. split; vm_compute; reflexivity.
Defined.

(** The third iteration is the last: four executions of the body would
    have left 4. *)
Example counter_after_four_bodies :
  exists w' c',
    repeat_body 4 (loop_body sample_eval counter_workflow sample_tools 0 counting_loop)
      tt new_context = Return tt w' c'
    /\ dict_get (data c') "counter" = Some (VInt 4).
Proof. do 2 eexists. split; vm_compute; reflexivity. Qed.

(** A body that refers to the counter as [${context.counter}] does not
    count: the reference finds nothing and the counter stays at 1. *)
Example counter_by_context_reference :
  exists c',
    run sample_eval
      (make_workflow "loop"
         [make_loop_step "loop" ["inc"] (Some (fun _ => Ok (VBool true))) None 3;
          make_tool_step "inc" "incr" [("value", VStr "${context.counter}")]
            (Some "counter") None false])
      sample_tools 0 None tt = Return tt tt c'
    /\ dict_get (data c') "counter" = Some (VInt 1).
Proof. eexists. split; vm_compute; reflexivity. Qed.

Lemma cycle_detected_witness :
  traverse sample_eval cyclic_workflow sample_tools 0 2
    (start_config cyclic_workflow tt new_context) cycle_point
  /\ NoDup (seen cycle_point)
  /\ run sample_eval cyclic_workflow sample_tools 0 None tt
     = Raise (cycle_error cyclic_workflow "ping") tt (ctx cycle_point).
Proof.
  pose (k := cycle_point).
  assert (Htr : traverse sample_eval cyclic_workflow sample_tools 0 2
                  (start_config cyclic_workflow tt new_context) k).
  { eapply traverse_pass; [reflexivity | vm_compute; reflexivity |].
    eapply traverse_pass; [reflexivity | vm_compute; reflexivity |].
    apply traverse_here. }
  destruct (cycle_detected sample_eval cyclic_workflow sample_tools 0 None tt 2 k Htr)
    as [Hnd Hrun].
  split; [exact Htr|]. split; [exact Hnd|].
  apply Hrun; [reflexivity | discriminate | apply list_elem_of_here].
Defined.

Lemma fan_is_no_tool_step : ~ tool_step_id fan_workflow (step_id fan_step).
Proof.
  intros (key & s & Hs & Hty & Hid).
  change (steps fan_workflow)
    with (<["fan" := fan_step]> (<["probe" := probe_step]> (∅ : gmap string WorkflowStep)))
    in Hs.
  apply lookup_insert_Some in Hs as [[_ <-] | [_ Hs]]; [discriminate Hty|].
  apply lookup_insert_Some in Hs as [[_ <-] | [_ Hs]]; [discriminate Hid|].
  by rewrite lookup_empty in Hs.
Qed.

Lemma step_results_written_by_tool_steps_witness :
  (exists c' res err,
     _run_tool_step probe_step sample_tools tt new_context = Return None tt c'
     /\ step_results c'
        = dict_set (step_results new_context) "probe" (step_entry res err))
  /\ (exists c',
        _run_tool_step risky_fatal sample_tools tt new_context
        = Raise (ValueError "boom") tt c'
        /\ step_results c' = step_results new_context)
  /\ (exists c',
        dispatch sample_eval fan_workflow sample_tools 0 fan_step tt new_context
        = Return None tt c'
        /\ dict_get (step_results c') "fan" = dict_get (step_results new_context) "fan").
Proof.
  destruct (step_results_written_by_tool_steps sample_eval fan_workflow sample_tools 0
              probe_step tt new_context) as (Htool & _).
  destruct (step_results_written_by_tool_steps sample_eval fan_workflow sample_tools 0
              risky_fatal tt new_context) as (_ & Hraise & _).
  destruct (step_results_written_by_tool_steps sample_eval fan_workflow sample_tools 0
              fan_step tt new_context) as (_ & _ & Hown).
  destruct (Htool None tt _ eq_refl) as (res & err & Hres & _).
  specialize (Hown "fan" ltac:(vm_compute; reflexivity) fan_is_no_tool_step).
  split; [eexists _, res, err; split; [reflexivity | exact Hres]|].
  split; [eexists; split; [reflexivity | exact (Hraise _ tt _ eq_refl)]|].
  eexists. split; [vm_compute; reflexivity | exact Hown].
Defined.

(** An entry is overwritten when its step runs again. *)
Example re_execution_overwrites :
  exists c' c'',
    _run_tool_step bump_step sample_tools tt new_context = Return None tt c'
    /\ dict_get (step_results c') "bump" = Some (step_entry (VInt 1) VNone)
    /\ _run_tool_step bump_step sample_tools tt c' = Return None tt c''
    /\ dict_get (step_results c'') "bump" = Some (step_entry (VInt 2) VNone)
    /\ dict_keys (step_results c'') = ["bump"].
Proof. do 2 eexists. repeat split; vm_compute; reflexivity. Qed.

(** C5, where it fails: a CONDITION step is executed at the top level and
    the traversal ends without an entry under its id. *)
Lemma condition_step_writes_no_entry :
  step_type check_step = CONDITION
  /\ exists c',
       run sample_eval check_workflow sample_tools 0 None tt = Return tt tt c'
       /\ last_step_id c' = Some (step_id check_step)
       /\ dict_get (step_results c') (step_id check_step) = None.
Proof. split; [reflexivity|]. eexists. repeat split; vm_compute; reflexivity. Qed.

Example parallel_step_writes_no_entry :
  exists c',
    run sample_eval fan_workflow sample_tools 0 None tt = Return tt tt c'
    /\ dict_get (step_results c') "fan" = None
    /\ dict_get (step_results c') "probe" = Some (step_entry (VStr "seen") VNone).
Proof. eexists. repeat split; vm_compute; reflexivity. Qed.

(** The failing input of C6: an injected predicate that reads a missing
    key.  The malformed expression beside it does resolve to [False]. *)
Lemma injected_predicate_failure_propagates_witness :
  missing_reference (handler_env new_context) = Exc (KeyError "threshold")
  /\ evaluate_condition sample_eval guarded_step (handler_env new_context)
     = Exc (KeyError "threshold")
  /\ evaluate_loop_condition sample_eval guarded_loop (handler_env new_context)
     = Exc (KeyError "threshold")
  /\ _run_loop_step sample_eval counter_workflow sample_tools 0 guarded_loop tt
       new_context
     = Raise (KeyError "threshold") tt new_context
  /\ run_from sample_eval guarded_workflow sample_tools 0 3 (Some "guard") [] tt
       new_context
     = Raise (KeyError "threshold") tt (entered guarded_step new_context).
Proof.
  destruct (injected_predicate_failure_propagates (W:=unit) sample_eval guarded_step
              missing_reference (KeyError "threshold") new_context eq_refl)
    as [Hcond _].
  destruct (injected_predicate_failure_propagates (W:=unit) sample_eval guarded_loop
              missing_reference (KeyError "threshold") new_context eq_refl)
    as [_ Hloop].
  destruct (Hcond eq_refl) as (Hev & _ & Htop).
  destruct (Hloop eq_refl) as (Hlev & Hlrun).
  split; [reflexivity|]. split; [exact Hev|]. split; [exact Hlev|].
  split; [apply Hlrun; reflexivity|].
  apply Htop; [vm_compute; reflexivity | reflexivity | discriminate
              | apply not_elem_of_nil].
Defined.

Example injected_predicate_failure_aborts_run :
  run sample_eval guarded_workflow sample_tools 0 None tt
  = Raise (KeyError "threshold") tt (entered guarded_step new_context).
Proof. vm_compute; reflexivity. Qed.

Example malformed_expression_is_false :
  sample_eval "context[" [("context", VDict (handler_env new_context))]
    = Exc (OtherException "SyntaxError" "invalid syntax")
  /\ evaluate_condition sample_eval malformed_step (handler_env new_context)
     = Ok (VBool false).
Proof. split; reflexivity. Qed.

(** The failing inputs of C7: with [k] in the context data the parameter
    [${context.k}] resolves to [None]; the list index past the end raises
    out of the handler, the error wiring of the step notwithstanding. *)
Lemma context_reference_misses_data_witness :
  dict_get (data seeded_context) "k" = Some (VInt 5)
  /\ _resolve_value (VStr "${context.k}") (handler_env seeded_context) = Ok VNone
  /\ _resolve_value (VStr "${src.result.3}") (handler_env seeded_context)
     = Exc (IndexError "list index out of range")
  /\ on_error pick_step = Some "handler"
  /\ continue_on_error pick_step = true
  /\ _run_tool_step pick_step sample_tools tt seeded_context
     = Raise (IndexError "list index out of range") tt seeded_context.
Proof.
  destruct (context_reference_misses_data (W:=unit) "k" seeded_context)
    as (Hctx & Hidx & Hfatal); [discriminate | discriminate |].
  split; [reflexivity|]. split; [exact Hctx|].
  split; [apply (Hidx "src" [VInt 1] VNone "3"); try reflexivity;
            [discriminate | vm_compute; lia]|].
  split; [reflexivity|]. split; [reflexivity|].
  apply (Hfatal pick_step sample_tools echo_tool);
    [reflexivity | vm_compute; reflexivity | reflexivity].
Defined.

Example context_reference_reaches_tool_as_none :
  resolve_params use_step (handler_env seeded_context) = Ok [("value", VNone)]
  /\ exists c',
       run sample_eval use_workflow sample_tools 0 (Some seeded_context) tt
       = Return tt tt c'
       /\ dict_get (data c') "used" = Some VNone.
Proof. split; [reflexivity|]. eexists. split; vm_compute; reflexivity. Qed.

Example index_past_end_aborts_run :
  run sample_eval pick_workflow sample_tools 0 (Some seeded_context) tt
  = Raise (IndexError "list index out of range") tt
      (entered pick_step seeded_context).
Proof. vm_compute; reflexivity. Qed.

(** What does resolve as expected: the result of a step that has run, and
    nothing for a step that has not. *)
Example step_result_reference_resolves :
  _resolve_value (VStr "${src.result}") (handler_env seeded_context)
    = Ok (VList [VInt 1])
  /\ _resolve_value (VStr "${later.result}") (handler_env seeded_context)
    = Ok VNone
  /\ _resolve_value (VStr "${src.result.0.x}") (handler_env seeded_context)
    = Ok VNone
  /\ _resolve_value (VStr "${src.missing.x}") (handler_env seeded_context)
    = Ok VNone.
Proof. repeat split; reflexivity. Qed.

Lemma condition_step_branching_witness :
  condition guarded_step = Some missing_reference
  /\ _run_condition_step sample_eval guarded_step tt new_context
     = Raise (KeyError "threshold") tt new_context
  /\ _run_condition_step sample_eval denied_step tt new_context
     = Return (Some "probe") tt new_context
  /\ _run_condition_step sample_eval refused_step tt new_context
     = Return (Some "probe") tt new_context
  /\ _run_condition_step sample_eval single_step tt new_context
     = Return (Some "handler") tt new_context
  /\ (exists msg,
        _run_condition_step sample_eval double_step tt new_context
        = Raise (ValueError msg) tt new_context)
  /\ _run_condition_step sample_eval check_step tt new_context
     = Return None tt new_context.
Proof.
  destruct (condition_step_branching sample_eval guarded_step tt new_context)
    as (Hguard & _).
  destruct (condition_step_branching sample_eval denied_step tt new_context)
    as (Hdenied & _ & Hdenied_branch & _).
  destruct (condition_step_branching sample_eval refused_step tt new_context)
    as (_ & Hrefused & Hrefused_branch & _).
  destruct (condition_step_branching sample_eval single_step tt new_context)
    as (_ & Hsingle & Hsingle_branch & _).
  destruct (condition_step_branching sample_eval double_step tt new_context)
    as (_ & Hdouble & Hdouble_branch & _).
  destruct (condition_step_branching sample_eval check_step tt new_context)
    as (_ & Hcheck & Hcheck_branch & _).
  split; [reflexivity|].
  split; [exact (Hguard missing_reference eq_refl)|].
  split; [rewrite (Hdenied _ eq_refl);
            apply (proj1 (proj2 (Hdenied_branch false))); reflexivity|].
  split; [rewrite (Hrefused eq_refl);
            apply (proj1 (proj2 (Hrefused_branch false))); reflexivity|].
  split; [rewrite (Hsingle eq_refl);
            apply (proj1 (proj2 (Hsingle_branch true))); reflexivity|].
  split; [rewrite (Hdouble eq_refl);
            apply (proj2 (proj2 (Hdouble_branch true)) ["handler"; "probe"]);
            [reflexivity | simpl; lia]|].
  rewrite (Hcheck eq_refl). apply (proj1 (Hcheck_branch true)). left. reflexivity.
Defined.

(** The sibling path: an expression that fails counts as false, and the
    step follows its false branch. *)
Example failing_expression_selects_on_false :
  _run_condition_step sample_eval malformed_step tt new_context
  = Return None tt new_context.
Proof. reflexivity. Qed.


(** A CONDITION step between two TOOL steps leaves [last_result] as the
    first TOOL step set it. *)
Example condition_step_keeps_last_result :
  exists c',
    _run_condition_step sample_eval check_step tt
      (record_success probe_step (VStr "seen") new_context) = Return None tt c'
    /\ last_result c' = VStr "seen".
Proof. eexists. split; reflexivity. Qed.


Lemma condition_defaults_differ_witness :
  evaluate_condition sample_eval ping_step (handler_env new_context)
    = Ok (VBool true)
  /\ _run_condition_step sample_eval ping_step tt new_context
     = Return (Some "pong") tt new_context
  /\ evaluate_loop_condition sample_eval idle_loop (handler_env new_context)
     = Ok (VBool false)
  /\ _run_loop_step sample_eval counter_workflow sample_tools 0 idle_loop tt
       new_context
     = Return None tt new_context.
Proof.
  destruct (condition_defaults_differ sample_eval counter_workflow sample_tools 0 3
              ping_step (handler_env new_context) tt new_context)
    as [Hcond _].
  destruct (condition_defaults_differ sample_eval counter_workflow sample_tools 0 3
              idle_loop (handler_env new_context) tt new_context)
    as [_ Hloop].
  destruct (Hcond eq_refl eq_refl) as [Hev Hrun].
  destruct (Hloop eq_refl eq_refl) as (Hlev & _ & Hlrun).
  split; [exact Hev|]. split; [rewrite Hrun; reflexivity|].
  split; [exact Hlev | exact Hlrun].
Defined.

(** ** Further properties at work *)

(** The steps of a workflow built by [make_workflow] are among the steps
    listed. *)
Lemma make_workflow_lookup start l key s :
  steps (make_workflow start l) !! key = Some s -> s ∈ l /\ step_id s = key.
Proof.
  unfold make_workflow. cbn [steps]. intros H%elem_of_list_to_map_2.
  apply list_elem_of_fmap in H as (s' & [= -> ->] & Hin). done.
Qed.

Lemma add_step_registers_witness :
  steps (empty_workflow "wf" "probe") !! step_id probe_step = None
  /\ steps fan_workflow !! step_id probe_step = Some probe_step
  /\ (exists wf',
        add_step (empty_workflow "wf" "probe") probe_step = Ok wf'
        /\ get_step wf' "probe" = Ok probe_step
        /\ size (steps wf') = 1%nat)
  /\ exists msg, add_step fan_workflow probe_step = Exc (ValueError msg).
Proof.
  assert (Hfree : steps (empty_workflow "wf" "probe") !! step_id probe_step = None)
    by reflexivity.
  assert (Htaken : steps fan_workflow !! step_id probe_step = Some probe_step)
    by (vm_compute; reflexivity).
  destruct (add_step_registers (empty_workflow "wf" "probe") probe_step)
    as [Hadd _].
  destruct (add_step_registers fan_workflow probe_step) as [_ Hrefuse].
  destruct (Hadd Hfree) as (wf' & Hwf' & Hget & _ & Hsize).
  destruct (Hrefuse probe_step Htaken) as (msg & Hmsg & _).
  split; [exact Hfree|]. split; [exact Htaken|].
  split; [exists wf'; split; [exact Hwf' | split; [exact Hget | exact Hsize]]|].
  exists msg. exact Hmsg.
Defined.

Lemma add_steps_builds_witness :
  NoDup (map step_id [fan_step; probe_step])
  /\ exists wf,
       add_steps (empty_workflow "wf" "fan") [fan_step; probe_step] = Ok wf
       /\ keyed_by_id wf
       /\ get_step wf "probe" = Ok probe_step
       /\ size (steps wf) = 2%nat.
Proof.
  assert (Hnd : NoDup (map step_id [fan_step; probe_step])).
  { apply (bool_decide_unpack _). vm_compute. exact I. }
  destruct (add_steps_builds "wf" "fan" [fan_step; probe_step]) as [Hiff Hbuilt].
  destruct (proj1 Hiff Hnd) as (wf & Hwf).
  destruct (Hbuilt wf Hwf) as (Hkeyed & Hget & _ & Hsize).
  split; [exact Hnd|]. exists wf. split; [exact Hwf|]. split; [exact Hkeyed|].
  split; [|exact Hsize].
  apply (Hget probe_step). apply list_elem_of_further, list_elem_of_here.
Defined.

(** Registering a step twice fails at the second. *)
Example add_steps_refuses_duplicate :
  add_steps (empty_workflow "wf" "probe") [probe_step; check_step; publish_step]
  = Exc (ValueError "Step 'probe' is already registered in workflow 'wf'").
Proof. vm_compute. reflexivity. Qed.

Lemma tool_step_success_witness :
  sample_tools !! "echo" = Some echo_tool
  /\ resolve_params publish_step (handler_env new_context) = Ok [("value", VStr "seen")]
  /\ (exists c',
        _run_tool_step publish_step sample_tools tt new_context = Return None tt c'
        /\ last_result c' = VStr "seen"
        /\ dict_get (step_results c') "probe" = Some (step_entry (VStr "seen") VNone)
        /\ dict_get (data c') "found" = Some (VStr "seen"))
  /\ exists c',
       run_from sample_eval publish_workflow sample_tools 0 1 (Some "probe") [] tt
         new_context
       = Return ["probe"] tt c'
       /\ last_step_id c' = Some "probe".
Proof.
  assert (Htool : sample_tools !! "echo" = Some echo_tool) by (vm_compute; reflexivity).
  destruct (tool_step_success sample_eval publish_step sample_tools echo_tool
              [("value", VStr "seen")] (VBool true) (VStr "seen") tt tt tt new_context)
    as ((c' & Hrun & Hlast & Hentry & Hout & _) & Htop);
    [reflexivity | exact Htool | reflexivity | reflexivity | reflexivity
    | reflexivity |].
  destruct (Htop publish_workflow 0%nat 0%nat "probe" [])
    as (c'' & Hfrom & Hid & _);
    [vm_compute; reflexivity | reflexivity | discriminate | apply not_elem_of_nil |].
  split; [exact Htool|]. split; [reflexivity|].
  split; [exists c'; split; [exact Hrun|]; split; [exact Hlast|];
            split; [exact Hentry|]; apply (Hout "found"); [reflexivity | discriminate]|].
  exists c''. split; [exact Hfrom | exact Hid].
Defined.

(** The steps registered beside the one that succeeded are not reached. *)
Example success_ends_the_run :
  exists c',
    run sample_eval publish_workflow sample_tools 0 None tt = Return tt tt c'
    /\ dict_keys (step_results c') = ["probe"]
    /\ data c' = [("found", VStr "seen")].
Proof. eexists. repeat split; vm_compute; reflexivity. Qed.

Lemma stored_result_is_resolved_witness :
  exists c',
    _run_tool_step publish_step sample_tools tt new_context = Return None tt c'
    /\ split_dot (step_id publish_step) = [step_id publish_step]
    /\ _resolve_value (VStr "${probe.result}") (handler_env c') = Ok (VStr "seen")
    /\ _resolve_value (VStr "${probe.error}") (handler_env c') = Ok VNone.
Proof.
  eexists. split; [reflexivity|]. split; [reflexivity|].
  destruct (stored_result_is_resolved (W:=unit) publish_step sample_tools None tt tt
              new_context _ eq_refl eq_refl)
    as (err & Hres & Herr & Hentry & _); [discriminate|].
  split; [exact Hres|].
  injection Hentry as <-. exact Herr.
Defined.

Lemma failed_validation_skips_execute_witness :
  validate picky_tool [] tt = (Ok (VBool false), tt)
  /\ _run_tool_step strict_step sample_tools tt new_context
     = Return (Some "handler") tt
         (record_failure strict_step
            (ToolExecutionError "picky"
               "Validation failed for tool 'picky' in step 'strict'") new_context)
  /\ _run_tool_step strict_step
       (<["picky" := {| name := "picky"; validate := validate picky_tool;
                        execute := execute boom_tool |}]> sample_tools) tt new_context
     = _run_tool_step strict_step sample_tools tt new_context.
Proof.
  destruct (failed_validation_skips_execute (W:=unit) strict_step sample_tools
              picky_tool [] (VBool false) tt tt new_context)
    as (Hrun & _ & Hsame);
    [reflexivity | vm_compute; reflexivity | reflexivity | reflexivity
    | reflexivity |].
  split; [reflexivity|]. split; [exact Hrun|].
  apply (Hsame {| name := "picky"; validate := validate picky_tool;
                  execute := execute boom_tool |}); reflexivity.
Defined.

Lemma next_step_is_wired_witness :
  dispatch sample_eval choose_workflow sample_tools 0 single_step tt new_context
  = Return (Some "handler") tt new_context
  /\ step_type single_step = CONDITION
  /\ on_true single_step = Some ["handler"]
  /\ dispatch sample_eval mixed_workflow sample_tools 0 risky_routed tt new_context
     = Return (Some "handler") tt
         (record_failure risky_routed (ValueError "boom") new_context)
  /\ on_error risky_routed = Some "handler".
Proof.
  assert (Hcond : dispatch sample_eval choose_workflow sample_tools 0 single_step tt
                    new_context = Return (Some "handler") tt new_context)
    by reflexivity.
  assert (Htool : dispatch sample_eval mixed_workflow sample_tools 0 risky_routed tt
                    new_context
                  = Return (Some "handler") tt
                      (record_failure risky_routed (ValueError "boom") new_context))
    by reflexivity.
  split; [exact Hcond|].
  destruct (next_step_is_wired sample_eval choose_workflow sample_tools 0 single_step
              "handler" tt tt new_context new_context Hcond)
    as [(Hty & _) | (Hty & _)]; [discriminate Hty|].
  split; [exact Hty|]. split; [reflexivity|]. split; [exact Htool|].
  destruct (next_step_is_wired sample_eval mixed_workflow sample_tools 0 risky_routed
              "handler" tt tt new_context _ Htool)
    as [(_ & Herr & _) | (Hty' & _)]; [exact Herr | discriminate Hty'].
Defined.

Lemma run_without_start_step_witness :
  start_step_id unstarted_workflow = ""
  /\ run sample_eval unstarted_workflow sample_tools 0 (Some seeded_context) tt
     = Return tt tt seeded_context
  /\ steps ghost_workflow !! start_step_id ghost_workflow = None
  /\ run sample_eval ghost_workflow sample_tools 0 (Some seeded_context) tt
     = Raise (KeyError "Step 'ghost' not found in workflow 'wf'") tt seeded_context.
Proof.
  destruct (run_without_start_step sample_eval unstarted_workflow sample_tools 0
              (Some seeded_context) tt) as [Hempty _].
  destruct (run_without_start_step sample_eval ghost_workflow sample_tools 0
              (Some seeded_context) tt) as [_ Hghost].
  split; [reflexivity|]. split; [apply Hempty; reflexivity|].
  split; [vm_compute; reflexivity|].
  apply Hghost; [discriminate | vm_compute; reflexivity].
Defined.

Lemma fan_workflow_chain_free : chain_free fan_workflow.
Proof.
  intros key s child cs _ _ Hcs.
  apply make_workflow_lookup in Hcs as [Hcs _].
  apply elem_of_cons in Hcs as [-> | Hcs]; [discriminate|].
  apply list_elem_of_singleton in Hcs as ->. discriminate.
Qed.

Lemma run_returns_or_raises_witness :
  chain_free fan_workflow
  /\ ((exists w' c', run sample_eval fan_workflow sample_tools 0 None tt
                     = Return tt w' c')
      \/ (exists e w' c', run sample_eval fan_workflow sample_tools 0 None tt
                          = Raise e w' c')).
Proof.
  split; [exact fan_workflow_chain_free|].
  exact (run_returns_or_raises sample_eval fan_workflow sample_tools 0 None tt
           fan_workflow_chain_free).
Defined.

Lemma nested_chain_never_ends_witness :
  steps retry_workflow !! "retry" = Some retry_step
  /\ on_error retry_step = Some "retry"
  /\ nested_chain retry_workflow sample_tools 1000 (Some "retry") tt new_context
     = Diverge
  /\ run_child sample_eval retry_workflow sample_tools 1000 "entry" tt new_context
     = Diverge
  /\ exists c',
       run_from sample_eval retry_workflow sample_tools 0 2 (Some "retry") [] tt
         new_context
       = Raise (cycle_error retry_workflow "retry") tt c'
       /\ dict_get (step_results c') "retry"
          = Some (step_entry VNone (VStr "boom")).
Proof.
  assert (Hstep : steps retry_workflow !! "retry" = Some retry_step)
    by (vm_compute; reflexivity).
  destruct (nested_chain_never_ends sample_eval retry_workflow sample_tools "retry"
              retry_step boom_tool)
    as (Hchain & Hchild & Htop);
    [exact Hstep | reflexivity | reflexivity | discriminate | reflexivity
    | vm_compute; reflexivity
    | intros c; exists []; reflexivity
    | intros params w; exists (ValueError "boom"), w; reflexivity |].
  split; [exact Hstep|]. split; [reflexivity|].
  split; [apply Hchain|].
  split; [apply (Hchild 1000%nat "entry" entry_step);
            [vm_compute; reflexivity | reflexivity | reflexivity]|].
  destruct (Htop 0%nat 0%nat tt new_context) as (e & w' & c' & Hrun & Hentry).
  exists c'. destruct w'. split; [exact Hrun|].
  revert Hrun Hentry. vm_compute. intros [= <-] Hentry. reflexivity.
Defined.

(** The run of the workflow whose PARALLEL step leads to that chain does
    not end either, whatever the fuel given here. *)
Example run_with_endless_chain :
  run sample_eval retry_workflow sample_tools 50 None tt = Diverge.
Proof. vm_compute. reflexivity. Qed.

Lemma unsupported_nesting_is_skipped_witness :
  parallel_steps outer_fan = Some ["loop"; "fan"]
  /\ steps nesting_workflow !! "loop" = Some counting_loop
  /\ steps nesting_workflow !! "fan" = Some fan_step
  /\ _run_parallel_step sample_eval nesting_workflow sample_tools 0 outer_fan tt
       new_context
     = Return None tt new_context
  /\ nested_chain nesting_workflow sample_tools 1 (Some "loop") tt new_context
     = Return tt tt new_context.
Proof.
  assert (Hloop : steps nesting_workflow !! "loop" = Some counting_loop)
    by (vm_compute; reflexivity).
  assert (Hfan : steps nesting_workflow !! "fan" = Some fan_step)
    by (vm_compute; reflexivity).
  destruct (unsupported_nesting_is_skipped sample_eval nesting_workflow sample_tools 0
              outer_fan tt new_context) as [Hrun Hchain].
  { intros child Hin. cbn in Hin.
    apply elem_of_cons in Hin as [-> | Hin].
    - exists counting_loop. split; [exact Hloop | right; reflexivity].
    - apply list_elem_of_singleton in Hin as ->.
      exists fan_step. split; [exact Hfan | left; reflexivity]. }
  split; [reflexivity|]. split; [exact Hloop|]. split; [exact Hfan|].
  split; [exact Hrun|].
  apply (Hchain "loop" counting_loop Hloop). discriminate.
Defined.

(** The children passed over would have changed the context had they run. *)
Example skipped_children_would_have_run :
  exists c',
    run sample_eval nesting_workflow sample_tools 0 None tt = Return tt tt c'
    /\ data c' = [] /\ step_results c' = []
  /\ exists c'',
       _run_loop_step sample_eval nesting_workflow sample_tools 0 counting_loop tt
         new_context = Return None tt c''
       /\ dict_get (data c'') "counter" = Some (VInt 3).
Proof.
  eexists. split; [vm_compute; reflexivity|]. split; [reflexivity|].
  split; [reflexivity|]. eexists. split; vm_compute; reflexivity.
Qed.

Lemma parallel_children_in_order_witness :
  tool_fails boom_tool risky_routed [] tt (ValueError "boom") tt
  /\ parallel_steps mixed_fan = Some ["risky"; "probe"]
  /\ _run_parallel_step sample_eval mixed_workflow sample_tools 0 mixed_fan tt
       new_context
     = Return None tt
         (record_success probe_step (VStr "seen")
            (record_failure risky_routed (ValueError "boom") new_context))
  /\ dict_get
       (step_results
          (record_success probe_step (VStr "seen")
             (record_failure risky_routed (ValueError "boom") new_context)))
       "handler" = None.
Proof.
  assert (Hfails : tool_fails boom_tool risky_routed [] tt (ValueError "boom") tt)
    by (eapply fails_execute; reflexivity).
  pose proof (parallel_children_in_order sample_eval mixed_workflow sample_tools 0
                mixed_fan "risky" ["probe"] risky_routed boom_tool []
                (ValueError "boom") tt tt new_context eq_refl) as Hpar.
  split; [exact Hfails|]. split; [reflexivity|]. split; [|reflexivity].
  rewrite Hpar;
    [vm_compute; reflexivity | vm_compute; reflexivity | reflexivity | reflexivity
    | vm_compute; reflexivity | reflexivity | exact Hfails].
Defined.

Lemma loop_never_exceeds_max_iterations_witness :
  max_iterations short_loop = 5
  /\ loop_while sample_eval short_workflow sample_tools 0 short_loop 5 0 tt
       new_context
     = Return 2 tt
         (record_success bump_step (VInt 2)
            (record_success bump_step (VInt 1) new_context))
  /\ 0 <= 2 <= Z.max 0 (max_iterations short_loop)
  /\ _run_loop_step sample_eval short_workflow sample_tools 0 short_loop tt
       new_context
     = Return None tt
         (record_success bump_step (VInt 2)
            (record_success bump_step (VInt 1) new_context)).
Proof.
  assert (Hloop : loop_while sample_eval short_workflow sample_tools 0 short_loop
                    (Z.to_nat (max_iterations short_loop)) 0 tt new_context
                  = Return 2 tt
                      (record_success bump_step (VInt 2)
                         (record_success bump_step (VInt 1) new_context)))
    by (vm_compute; reflexivity).
  destruct (loop_never_exceeds_max_iterations sample_eval short_workflow sample_tools 0
              short_loop 2 tt tt new_context _ Hloop) as (Hbound & Hstep).
  split; [reflexivity|]. split; [exact Hloop|]. split; [exact Hbound|].
  apply Hstep. reflexivity.
Defined.

(** With an always-true predicate the same body is counted up to the
    bound and no further. *)
Example loop_stops_at_the_bound :
  exists c',
    loop_while sample_eval counter_workflow sample_tools 0 counting_loop 3 0 tt
      new_context = Return 3 tt c'
    /\ max_iterations counting_loop = 3.
Proof. eexists. split; [vm_compute; reflexivity | reflexivity]. Qed.

Lemma loop_makes_no_iteration_witness :
  max_iterations zero_loop <= 0
  /\ evaluate_loop_condition sample_eval zero_loop (handler_env new_context)
     = Exc (KeyError "threshold")
  /\ _run_loop_step sample_eval counter_workflow sample_tools 0 zero_loop tt
       new_context
     = Return None tt new_context.
Proof.
  assert (Hmax : max_iterations zero_loop <= 0) by (simpl; lia).
  split; [exact Hmax|]. split; [reflexivity|].
  apply loop_makes_no_iteration. right. exact Hmax.
Defined.

Lemma literals_pass_through_witness :
  forallb (fun kv => template_free (snd kv)) (tool_params literal_step) = true
  /\ resolve_params literal_step (handler_env seeded_context) = Ok literal_params.
Proof.
  destruct (literals_pass_through literal_step (handler_env seeded_context))
    as [_ Hparams].
  split; [reflexivity|]. apply Hparams. reflexivity.
Defined.

(** A reference inside a list is resolved; the same reference inside a
    tuple is not. *)
Example reference_in_list_and_tuple :
  _resolve_value (VList [VStr "${src.result}"]) (handler_env seeded_context)
  = Ok (VList [VList [VInt 1]])
  /\ _resolve_value (VTuple [VStr "${src.result}"]) (handler_env seeded_context)
     = Ok (VTuple [VStr "${src.result}"]).
Proof. split; reflexivity. Qed.

Lemma resolve_params_keeps_names_witness :
  resolve_params use_step (handler_env seeded_context) = Ok [("value", VNone)]
  /\ dict_keys [("value", VNone)] = dict_keys (tool_params use_step)
  /\ resolve_params pick_step (handler_env seeded_context)
     = Exc (IndexError "list index out of range")
  /\ exists before key v after,
       tool_params pick_step = (before ++ (key, v) :: after)%list
       /\ _resolve_value v (handler_env seeded_context)
          = Exc (IndexError "list index out of range").
Proof.
  assert (Huse : resolve_params use_step (handler_env seeded_context)
                 = Ok [("value", VNone)]) by reflexivity.
  assert (Hpick : resolve_params pick_step (handler_env seeded_context)
                  = Exc (IndexError "list index out of range")) by reflexivity.
  destruct (resolve_params_keeps_names use_step (handler_env seeded_context))
    as [Hok _].
  destruct (resolve_params_keeps_names pick_step (handler_env seeded_context))
    as [_ Hexc].
  destruct (Hok _ Huse) as [Hkeys _].
  destruct (Hexc _ Hpick) as (before & key & v & after & Hsplit & Hv & _).
  split; [exact Huse|]. split; [exact Hkeys|]. split; [exact Hpick|].
  exists before, key, v, after. split; [exact Hsplit | exact Hv].
Defined.

Lemma bare_reference_gives_entry_witness :
  split_dot "src" = ["src"]
  /\ _resolve_value (VStr "${src}") (handler_env seeded_context)
     = Ok (step_entry (VList [VInt 1]) VNone)
  /\ dict_get (step_results seeded_context) "later" = None
  /\ _resolve_value (VStr "${later}") (handler_env seeded_context) = Ok (VDict []).
Proof.
  destruct (bare_reference_gives_entry "src" seeded_context) as [Hsrc _];
    [reflexivity | discriminate |].
  destruct (bare_reference_gives_entry "later" seeded_context) as [_ Hlater];
    [reflexivity | discriminate |].
  split; [reflexivity|]. split; [exact Hsrc|]. split; [reflexivity|].
  apply Hlater. reflexivity.
Defined.

Lemma runner_log_brackets_run_witness :
  WorkflowRunner.execution_log
    (fst (WorkflowRunner.run sample_eval (WorkflowRunner.init true) publish_workflow
            "Publish" sample_tools 0 None tt))
  = [[("event", VStr "workflow_start"); ("workflow_id", VStr "wf");
      ("workflow_name", VStr "Publish")];
     [("event", VStr "workflow_complete"); ("workflow_id", VStr "wf");
      ("last_step_id", VStr "probe")]]
  /\ run sample_eval risky_workflow sample_tools 0 None tt
     = Raise (ValueError "boom") tt
         (set_last_result VNone (entered risky_fatal new_context))
  /\ WorkflowRunner.execution_log
       (fst (WorkflowRunner.run sample_eval (WorkflowRunner.init true) risky_workflow
               "Risky" sample_tools 0 None tt))
     = [[("event", VStr "workflow_start"); ("workflow_id", VStr "wf");
         ("workflow_name", VStr "Risky")]]
  /\ fst (WorkflowRunner.run sample_eval (WorkflowRunner.init false) publish_workflow
            "Publish" sample_tools 0 None tt)
     = WorkflowRunner.init false.
Proof.
  assert (Hpub : run sample_eval publish_workflow sample_tools 0 None tt
                 = Return tt tt
                     (record_success publish_step (VStr "seen")
                        (entered publish_step new_context)))
    by (vm_compute; reflexivity).
  assert (Hrisky : run sample_eval risky_workflow sample_tools 0 None tt
                   = Raise (ValueError "boom") tt
                       (set_last_result VNone (entered risky_fatal new_context)))
    by (vm_compute; reflexivity).
  pose proof (runner_log_brackets_run sample_eval (WorkflowRunner.init true)
                publish_workflow "Publish" sample_tools 0 None tt) as H1.
  pose proof (runner_log_brackets_run sample_eval (WorkflowRunner.init true)
                risky_workflow "Risky" sample_tools 0 None tt) as H2.
  pose proof (runner_log_brackets_run sample_eval (WorkflowRunner.init false)
                publish_workflow "Publish" sample_tools 0 None tt) as H3.
  cbv zeta in H1, H2, H3. rewrite Hpub in H1. rewrite Hrisky in H2.
  destruct H1 as (_ & _ & _ & Hlog1 & _).
  destruct H2 as (_ & _ & _ & Hlog2).
  destruct H3 as (_ & Hoff & _).
  split; [exact (Hlog1 eq_refl)|]. split; [exact Hrisky|].
  split; [exact (Hlog2 eq_refl)|]. exact (Hoff eq_refl).
Defined.

Lemma execute_tool_errors_witness :
  Agent.execute_tool (<["relay" := relay_tool]> sample_tools) "relay" [] tt
  = (Exc (ToolExecutionError "relay" "Tool 'remote' execution failed: down"), tt)
  /\ str_exn (ToolExecutionError "relay" "Tool 'remote' execution failed: down")
     = "Tool 'relay' execution failed: Tool 'remote' execution failed: down"
  /\ Agent.execute_tool sample_tools "absent" [] tt
     = (Exc (ToolExecutionError "absent" "Tool 'absent' not found"), tt)
  /\ Agent.execute_tool sample_tools "picky" [] tt
     = (Exc (ToolExecutionError "picky" "Tool parameter validation failed"), tt).
Proof.
  destruct (execute_tool_errors (<["relay" := relay_tool]> sample_tools) "relay" [] tt)
    as (_ & Hwrap & _ & _).
  destruct (execute_tool_errors sample_tools "absent" [] tt) as (_ & _ & Habsent & _).
  destruct (execute_tool_errors sample_tools "picky" [] tt) as (_ & _ & _ & Hpicky).
  destruct (Hwrap relay_tool (VBool true) tt (ToolExecutionError "remote" "down") tt)
    as [Hrun Htext]; [vm_compute; reflexivity | reflexivity | reflexivity
                     | reflexivity |].
  split; [exact Hrun|]. split; [exact (Htext "remote" "down" eq_refl)|].
  split; [apply Habsent; vm_compute; reflexivity|].
  apply (Hpicky picky_tool (VBool false) tt);
    [vm_compute; reflexivity | reflexivity | reflexivity].
Defined.

Lemma tool_registry_round_trip_witness :
  sample_tools !! name relay_tool = None
  /\ (exists tools',
        Agent.add_tool sample_tools relay_tool = Ok tools'
        /\ Agent.get_tool tools' "relay" = Some relay_tool
        /\ Agent.remove_tool tools' "relay" = Ok sample_tools)
  /\ (exists msg, Agent.add_tool sample_tools boom_tool = Exc (ValueError msg))
  /\ exists msg, Agent.remove_tool sample_tools "relay" = Exc (ValueError msg).
Proof.
  assert (Hfree : sample_tools !! name relay_tool = None) by (vm_compute; reflexivity).
  destruct (tool_registry_round_trip sample_tools relay_tool) as (_ & Hadd & Hremove).
  destruct (tool_registry_round_trip sample_tools boom_tool) as (Htaken & _ & _).
  split; [exact Hfree|].
  split.
  - exists (<["relay" := relay_tool]> sample_tools).
    assert (Hok : Agent.add_tool sample_tools relay_tool
                  = Ok (<["relay" := relay_tool]> sample_tools)).
    { unfold Agent.add_tool. rewrite Hfree. reflexivity. }
    destruct (Hadd _ Hok) as (Hget & _ & Hback & _).
    split; [exact Hok|]. split; [exact Hget | exact Hback].
  - split.
    + apply Htaken. exists boom_tool. vm_compute. reflexivity.
    + apply (proj1 (Hremove "relay")). exact Hfree.
Defined.

(** The sample workflow starts at its calculator step, which leads
    nowhere: the CONDITION step and the weather step registered after it
    are not reached. *)
Lemma tool_start_step_runs_alone_witness :
  build_sample_workflow = Ok sample_workflow
  /\ steps sample_workflow !! start_step_id sample_workflow = Some step_calculate
  /\ run sample_eval sample_workflow usage_tools 0 None tt
     = Return tt tt
         (record_success step_calculate (VInt 42)
            (entered step_calculate new_context))
  /\ last_step_id
       (record_success step_calculate (VInt 42) (entered step_calculate new_context))
     = Some "calculate_sum"
  /\ dict_get
       (step_results
          (record_success step_calculate (VInt 42)
             (entered step_calculate new_context))) "weather_sf"
     = None.
Proof.
  assert (Hs : steps sample_workflow !! start_step_id sample_workflow
               = Some step_calculate) by (vm_compute; reflexivity).
  destruct (tool_start_step_runs_alone sample_eval sample_workflow usage_tools 0 None
              tt step_calculate)
    as [Hrun _]; [discriminate | exact Hs | reflexivity | reflexivity |].
  split; [vm_compute; reflexivity|]. split; [exact Hs|].
  split; [exact Hrun|]. split; reflexivity.
Defined.
